(** * mqtt-bus: the event bridge of the bus and bus-stop devices

    A shallow embedding of the two device programs of the repository

      - [src/raspberry]: the bus-stop device (buttons, one LED per route),
      - [src/bus]:       the vehicle device (red/green LED bar, buzzer),

    and the properties of their MQTT session, topic routing, debouncing
    and LED feedback.

    Conventions of the embedding.

    - A method of a Python object is a computation in the monad [M S],
      where [S] is the record of the object's attributes.  A computation
      returns a value or raises, always hands back the (possibly mutated)
      object, and leaves a trace of the calls it made on external
      libraries (paho-mqtt, RPi.GPIO, logging, threading, time.sleep).
      Every trace entry is paired with the object as it was at the moment
      of the call.
    - Readings of the clock ([time.time()], [datetime.now()]) are integers
      in milliseconds and are passed to the method that reads the clock.
      Durations ([DEBOUNCE_TIME], blink durations, ...) are in the same
      unit.  Floating-point rounding is outside the model.
    - A Python [str] is a [string] holding its UTF-8 bytes, [bytes] is a
      [list Byte.byte]; [dict]s with string keys whose order is irrelevant
      are [gmap string _].
    - [json.loads] and [bytes.decode] are parameters of the sections that
      use them; [JSON.loads] and [UTF8.decode] below are executable
      instances used to run the model on concrete messages.
    - A line written to the log is recorded with its level and an English
      rendering of its text, or with the text itself where it carries
      data.
    - A thread started with [threading.Thread(...).start()] is recorded in
      the trace ([E_thread]); the body of each worker is a function of its
      own.  A method runs without being interleaved with other threads,
      except at [time.sleep] inside the heartbeat worker and inside the
      bounded wait of [connect], where the calls made by other threads are
      given explicitly. *)

From Stdlib Require Import ZArith String Ascii List Bool Lia.
From stdpp Require Import gmap strings list.

Set Warnings "-register-all".

Local Open Scope string_scope.
Local Open Scope list_scope.
Local Open Scope Z_scope.

(** ** Python values *)

(** Values that travel in message payloads: what [json.loads] returns and
    what is handed to [json.dumps].  Numbers are fixed-point, in
    thousandths (so [2.0] is [PNum 2000]).  [PIsoTime t] stands for the
    string [datetime.now().isoformat()] taken when the clock reads [t]. *)
Inductive pyval : Type :=
| PNone
| PBool (b : bool)
| PNum (thousandths : Z)
| PStr (s : string)
| PList (items : list pyval)
| PDict (items : list (string * pyval))
| PIsoTime (t : Z).

(** [d.get(key)] on the items of a dict. *)
Fixpoint dict_lookup (key : string) (items : list (string * pyval)) : option pyval :=
  match items with
  | [] => None
  | (k, v) :: rest => if String.eqb k key then Some v else dict_lookup key rest
  end.

(** [d[key] = v]: replaces the binding of an existing key in place,
    appends a new key. *)
Fixpoint dict_set (key : string) (v : pyval) (items : list (string * pyval))
  : list (string * pyval) :=
  match items with
  | [] => [(key, v)]
  | (k, w) :: rest =>
      if String.eqb k key then (k, v) :: rest else (k, w) :: dict_set key v rest
  end.

(** ** Python strings *)

Module PyStr.

(** [s.split(sep)] for a one-character separator. *)
Fixpoint split (sep : ascii) (s : string) : list string :=
  match s with
  | EmptyString => [EmptyString]
  | String c rest =>
      if Ascii.eqb c sep then EmptyString :: split sep rest
      else match split sep rest with
           | [] => [String c EmptyString]
           | w :: ws => String c w :: ws
           end
  end.

(** [s.startswith(p)] *)
Definition startswith (s p : string) : bool := String.prefix p s.

(** [parts[-1]] and [parts[-2]]; [None] is Python's IndexError. *)
Definition item_m1 (parts : list string) : option string :=
  parts !! (length parts - 1)%nat.
Definition item_m2 (parts : list string) : option string :=
  match length parts with
  | S (S n) => parts !! n
  | _ => None
  end.

(** [s.upper()] on the letters of ASCII; the other bytes are kept.  This
    decides [s.upper() == w] for a word [w] of the capitals B, C and M
    as Python does: no character outside ASCII has one of them in its
    upper case. *)
Definition upper_ascii (c : ascii) : ascii :=
  let n := nat_of_ascii c in
  if (97 <=? n)%nat && (n <=? 122)%nat then ascii_of_nat (n - 32) else c.

Fixpoint upper (s : string) : string :=
  match s with
  | EmptyString => EmptyString
  | String c rest => String (upper_ascii c) (upper rest)
  end.

Definition slash : ascii := "/"%char.
Definition dquote : ascii := ascii_of_nat 34.

(** The text of [s] between double quotes. *)
Definition quoted (s : string) : string :=
  String dquote (s +:+ String dquote EmptyString).

End PyStr.

(** ** Exceptions, results and the method monad *)

Inductive exn : Type :=
| KeyError (key : string)
| AttributeError (attr : string)
| TypeError
| JSONDecodeError
| UnicodeDecodeError
| ValueError
| IndexError
| RecursionError
| TransportError.

Inductive res (A : Type) : Type :=
| Ok (a : A)
| Raise (e : exn)
| OutOfFuel.
Arguments Ok {A} a.
Arguments Raise {A} e.
Arguments OutOfFuel {A}.

(** What [json.loads] does with a text: it returns the value, or raises
    [JSONDecodeError] on a text that is not JSON, or [RecursionError] on
    one that is nested deeper than the stack of the interpreter allows. *)
Inductive loads_result : Type :=
| Loaded (v : pyval)
| LoadsRaises (e : exn).

Inductive level : Type := DEBUG | INFO | WARNING | ERROR.

(** The bound methods that the two main programs register as callbacks. *)
Inductive handler : Type :=
| H_on_button_pressed   (* raspberry/main.py BusStopSystem._on_button_pressed *)
| H_on_led_control      (* raspberry/main.py BusStopSystem._on_led_control *)
| H_stop_on_system_health (* raspberry/main.py BusStopSystem._on_system_health *)
| H_on_route_call       (* bus/main.py BusDevice._on_route_call *)
| H_bus_on_system_health. (* bus/main.py BusDevice._on_system_health *)

(** One route of the stop: an entry of [Config.get_routes_config()], which
    is the default table or the JSON text of the environment variable
    ROUTES_CONFIG.  [name] and [color] are read with [route_config[...]]
    when a button is pressed and nothing checks that they are there:
    [None] is a missing key.  The pins are taken to be there, as
    integers: without them [GPIOController.initialize] fails on the
    Raspberry Pi, and nothing reads them where RPi.GPIO is missing. *)
Record route_config : Type := {
  name : option string;
  color : option string;
  button_pin : Z;
  led_pin : Z
}.

(** Calls on the paho-mqtt client object. *)
Inductive transport_call : Type :=
| T_username_pw_set (user password : string)
| T_will_set (topic : string) (payload : pyval) (qos : Z) (retain : bool)
| T_connect (host : string) (port keepalive : Z)
| T_loop_start
| T_loop_stop
| T_disconnect
| T_subscribe (topic : string) (qos : Z)
| T_publish (topic : string) (payload : pyval) (qos : Z) (retain : bool).

(** Threads started by the programs. *)
Inductive thread : Type :=
| Th_callback (h : handler) (route_id : string) (rc : route_config)
| Th_blink_worker (route_id : string) (duration interval : pyval)
| Th_bus_blink_worker (duration interval : Z) (color : string)
| Th_beep_worker (duration : Z) (repeats : nat)
| Th_heartbeat_worker
| Th_location_worker.

(** Calls on the outside world. *)
Inductive event : Type :=
| E_gpio_setmode (mode : string)
| E_gpio_setup_in (pin : Z)
| E_gpio_setup_out (pin : Z)
| E_gpio_add_event_detect (pin : Z) (route_id : string) (bouncetime : Z)
| E_gpio_remove_event_detect (pin : Z)
| E_gpio_cleanup
| E_gpio_output (pin : Z) (high : bool)
| E_log (l : level) (what : string)
| E_sleep (ms : Z)
| E_join (timeout_ms : Z)
| E_thread (t : thread)
| E_transport (c : transport_call)
| E_invoke (h : handler) (args : list pyval).

Section Monad.
Context {St : Type}.

(** A method of an object with attributes [St]. *)
Definition M (A : Type) : Type := St -> res A * St * list (St * event).

Definition ret {A} (a : A) : M A := fun s => (Ok a, s, []).

Definition bind {A B} (c : M A) (k : A -> M B) : M B :=
  fun s =>
    match c s with
    | (Ok a, s1, tr1) =>
        match k a s1 with
        | (r, s2, tr2) => (r, s2, tr1 ++ tr2)
        end
    | (Raise e, s1, tr1) => (Raise e, s1, tr1)
    | (OutOfFuel, s1, tr1) => (OutOfFuel, s1, tr1)
    end.

Definition get : M St := fun s => (Ok s, s, []).
Definition put (s' : St) : M unit := fun _ => (Ok tt, s', []).
Definition modify (f : St -> St) : M unit := fun s => (Ok tt, f s, []).
Definition emit (e : event) : M unit := fun s => (Ok tt, s, [(s, e)]).
Definition raise {A} (e : exn) : M A := fun s => (Raise e, s, []).
Definition out_of_fuel {A} : M A := fun s => (OutOfFuel, s, []).

(** [try: c  except Exception as e: h e] *)
Definition try_except {A} (c : M A) (h : exn -> M A) : M A :=
  fun s =>
    match c s with
    | (Raise e, s1, tr1) =>
        match h e s1 with
        | (r, s2, tr2) => (r, s2, tr1 ++ tr2)
        end
    | other => other
    end.

(** [l[i]] on an option: [None] is an IndexError. *)
Definition item {A} (o : option A) : M A :=
  match o with
  | Some a => ret a
  | None => raise IndexError
  end.

(** [d[key]] on an option: [None] is a KeyError. *)
Definition subscript {A} (key : string) (o : option A) : M A :=
  match o with
  | Some a => ret a
  | None => raise (KeyError key)
  end.

End Monad.
Arguments M St A : clear implicits.

#[global] Instance M_ret {St} : MRet (M St) := fun A a => ret a.
#[global] Instance M_bind {St} : MBind (M St) := fun A B k c => bind c k.

(** Running a method of a component held in an attribute of [W]. *)
Definition zoom {W S A} (proj : W -> S) (upd : S -> W -> W) (c : M S A) : M W A :=
  fun w =>
    match c (proj w) with
    | (r, s1, tr) => (r, upd s1 w, map (fun '(s, e) => (upd s w, e)) tr)
    end.

(** The parts of an outcome. *)
Definition result_of {S A} (o : res A * S * list (S * event)) : res A := o.1.1.
Definition state_of {S A} (o : res A * S * list (S * event)) : S := o.1.2.
Definition trace_of {S A} (o : res A * S * list (S * event)) : list (S * event) := o.2.
Definition events_of {S A} (o : res A * S * list (S * event)) : list event := o.2.*2.

(** [listen c] runs [c] and also returns the calls it made. *)
Definition listen {St A} (c : M St A) : M St (A * list event) :=
  fun s =>
    match c s with
    | (Ok a, s1, tr) => (Ok (a, tr.*2), s1, tr)
    | (Raise e, s1, tr) => (Raise e, s1, tr)
    | (OutOfFuel, s1, tr) => (OutOfFuel, s1, tr)
    end.

(** [for x in l: body x] *)
Fixpoint for_each {St A} (l : list A) (body : A -> M St unit) : M St unit :=
  match l with
  | [] => ret tt
  | x :: rest => body x ;; for_each rest body
  end.

Definition log {St} (l : level) (what : string) : M St unit := emit (E_log l what).

(** Truth value of a Python [str]. *)
Definition nonempty (s : string) : bool :=
  match s with EmptyString => false | _ => true end.

(** A payload value used as a number ([bool] is a number in Python). *)
Definition as_number (v : pyval) : option Z :=
  match v with
  | PNum n => Some n
  | PBool b => Some (if b then 1000 else 0)
  | _ => None
  end.

(** [v == s] for a string literal [s]. *)
Definition is_str (v : pyval) (s : string) : bool :=
  match v with
  | PStr x => String.eqb x s
  | _ => false
  end.

(** [message.get(key, dflt)]: only a dict has [get]. *)
Definition py_get {St} (message : pyval) (key : string) (dflt : pyval) : M St pyval :=
  match message with
  | PDict items => ret (default dflt (dict_lookup key items))
  | _ => raise (AttributeError "get")
  end.

(** [time.sleep(v)]: a negative length is a ValueError, a value that is
    not a number a TypeError.  Returns the time slept. *)
Definition time_sleep {St} (v : pyval) : M St Z :=
  match as_number v with
  | Some d => if d <? 0 then raise ValueError else emit (E_sleep d);; ret d
  | None => raise TypeError
  end.

(** [time.sleep(d)] for [d] milliseconds: a negative length is a
    ValueError. *)
Definition sleep_for {St} (d : Z) : M St unit :=
  if d <? 0 then raise ValueError else emit (E_sleep d).

(** The threads started in a list of calls. *)
Definition spawned (evs : list event) : list thread :=
  omap (fun e => match e with E_thread t => Some t | _ => None end) evs.

(** The callbacks invoked in a list of calls. *)
Definition invoked (evs : list event) : list (handler * list pyval) :=
  omap (fun e => match e with E_invoke h args => Some (h, args) | _ => None end) evs.

(** The publishes made on the transport in a list of calls. *)
Definition publishes (evs : list event) : list transport_call :=
  omap (fun e => match e with
                 | E_transport (T_publish t p q r) => Some (T_publish t p q r)
                 | _ => None
                 end) evs.

Definition is_publish (e : event) : bool :=
  match e with
  | E_transport (T_publish _ _ _ _) => true
  | _ => false
  end.

(** ** [bytes.decode()]: UTF-8 *)

Module UTF8.

Definition between (lo hi b : N) : bool := ((lo <=? b) && (b <=? hi))%N.
Definition cont (b : N) : bool := between 128 191 b.

(** Well-formed UTF-8 byte sequences (RFC 3629, section 4). *)
Fixpoint well_formed (bs : list N) : bool :=
  match bs with
  | [] => true
  | b0 :: r0 =>
      if (b0 <=? 127)%N then well_formed r0
      else
        match r0 with
        | [] => false
        | b1 :: r1 =>
            if between 194 223 b0 then cont b1 && well_formed r1
            else
              match r1 with
              | [] => false
              | b2 :: r2 =>
                  if between 224 239 b0 then
                    (if (b0 =? 224)%N then between 160 191 b1
                     else if (b0 =? 237)%N then between 128 159 b1
                     else cont b1)
                    && cont b2 && well_formed r2
                  else
                    match r2 with
                    | [] => false
                    | b3 :: r3 =>
                        between 240 244 b0
                        && (if (b0 =? 240)%N then between 144 191 b1
                            else if (b0 =? 244)%N then between 128 143 b1
                            else cont b1)
                        && cont b2 && cont b3 && well_formed r3
                    end
              end
        end
  end.

Definition decode (payload : list Byte.byte) : option string :=
  if well_formed (Byte.to_N <$> payload) then Some (string_of_list_byte payload)
  else None.

(** [s.encode()] *)
Definition encode (s : string) : list Byte.byte := list_byte_of_string s.

End UTF8.

(** ** [json.loads]: a decoder for the fragment used by the payloads *)

(** The fragment: objects, arrays, strings without backslash escapes,
    decimal numbers with at most three fractional digits and no exponent,
    [true], [false], [null].  On a text of the fragment the decoder
    returns the value that [json.loads] returns, and it raises what
    [json.loads] raises on a text that is not JSON or is nested too
    deep.  JSON outside the fragment (escapes, exponents, longer
    fractions, [Infinity], [NaN]) has no value in [pyval] and is answered
    like a text that is not JSON, which is not what [json.loads] does:
    the decoder is applied below to texts of the fragment and to texts
    that are not JSON only, and every general statement is about an
    arbitrary [json_loads]. *)
Module JSON.

Definition code (c : ascii) : Z := Z.of_N (N_of_ascii c).

Definition is_ws (c : ascii) : bool :=
  let n := code c in (n =? 32) || (n =? 9) || (n =? 10) || (n =? 13).

Fixpoint skip_ws (s : string) : string :=
  match s with
  | String c r => if is_ws c then skip_ws r else s
  | EmptyString => s
  end.

Definition digit (c : ascii) : option Z :=
  let n := code c in
  if (48 <=? n) && (n <=? 57) then Some (n - 48) else None.

(** The body of a string after its opening quote, and what follows the
    closing quote. *)
Fixpoint scan_string (s : string) : option (string * string) :=
  match s with
  | EmptyString => None
  | String c r =>
      if code c =? 34 then Some (EmptyString, r)
      else if (code c =? 92) || (code c <? 32) then None
      else match scan_string r with
           | Some (w, rest) => Some (String c w, rest)
           | None => None
           end
  end.

Fixpoint scan_digits (s : string) (acc : Z) (n : nat) : Z * nat * string :=
  match s with
  | String c r =>
      match digit c with
      | Some d => scan_digits r (acc * 10 + d) (S n)
      | None => (acc, n, s)
      end
  | EmptyString => (acc, n, s)
  end.

Definition starts_with_exponent (s : string) : bool :=
  match s with
  | String c _ => (code c =? 101) || (code c =? 69)
  | EmptyString => false
  end.

(** An unsigned number, in thousandths. *)
Definition scan_unsigned (s : string) : option (Z * string) :=
  match s with
  | String c _ =>
      match digit c with
      | None => None
      | Some d =>
          let '(ip, cnt, rest) := scan_digits s 0 0%nat in
          if (d =? 0) && (1 <? Z.of_nat cnt) then None
          else
            match rest with
            | String dot r2 =>
                if code dot =? 46 then
                  let '(fp, fcnt, rest2) := scan_digits r2 0 0%nat in
                  if starts_with_exponent rest2 then None
                  else match fcnt with
                       | 1%nat => Some (ip * 1000 + fp * 100, rest2)
                       | 2%nat => Some (ip * 1000 + fp * 10, rest2)
                       | 3%nat => Some (ip * 1000 + fp, rest2)
                       | _ => None
                       end
                else if starts_with_exponent rest then None
                else Some (ip * 1000, rest)
            | EmptyString => Some (ip * 1000, rest)
            end
      end
  | EmptyString => None
  end.

Definition scan_number (s : string) : option (Z * string) :=
  match s with
  | String c r =>
      if code c =? 45 then
        match scan_unsigned r with
        | Some (n, rest) => Some (- n, rest)
        | None => None
        end
      else scan_unsigned s
  | EmptyString => None
  end.

(** [strip p s] is the rest of [s] after the literal [p]. *)
Fixpoint strip (p s : string) : option string :=
  match p, s with
  | EmptyString, _ => Some s
  | String a p', String b s' => if Ascii.eqb a b then strip p' s' else None
  | String _ _, EmptyString => None
  end.

(** The outcome of scanning a value: the value with the rest of the text,
    a text that is not JSON, or a nesting that is too deep. *)
Inductive scan (A : Type) : Type :=
| Scanned (a : A)
| Malformed
| TooDeep.
Arguments Scanned {A} a.
Arguments Malformed {A}.
Arguments TooDeep {A}.

(** [room] is the number of nested objects and arrays that the stack of
    the interpreter still allows: the scanner of [json] makes one
    recursive call for each object or array it enters. *)
Fixpoint value (fuel room : nat) (s : string) : scan (pyval * string) :=
  match fuel with
  | O => Malformed
  | S f =>
      match skip_ws s with
      | EmptyString => Malformed
      | String c r =>
          if code c =? 123 then
            match room with
            | O => TooDeep
            | S room' =>
                match skip_ws r with
                | String c' r' =>
                    if code c' =? 125 then Scanned (PDict [], r') else members f room' r []
                | EmptyString => Malformed
                end
            end
          else if code c =? 91 then
            match room with
            | O => TooDeep
            | S room' =>
                match skip_ws r with
                | String c' r' =>
                    if code c' =? 93 then Scanned (PList [], r') else elements f room' r []
                | EmptyString => Malformed
                end
            end
          else if code c =? 34 then
            match scan_string r with
            | Some (w, rest) => Scanned (PStr w, rest)
            | None => Malformed
            end
          else
            match strip "true" (String c r), strip "false" (String c r),
                  strip "null" (String c r) with
            | Some rest, _, _ => Scanned (PBool true, rest)
            | _, Some rest, _ => Scanned (PBool false, rest)
            | _, _, Some rest => Scanned (PNone, rest)
            | _, _, _ =>
                match scan_number (String c r) with
                | Some (n, rest) => Scanned (PNum n, rest)
                | None => Malformed
                end
            end
      end
  end
with members (fuel room : nat) (s : string) (acc : list (string * pyval))
  : scan (pyval * string) :=
  match fuel with
  | O => Malformed
  | S f =>
      match skip_ws s with
      | String q r =>
          if code q =? 34 then
            match scan_string r with
            | Some (key, after_key) =>
                match skip_ws after_key with
                | String colon after_colon =>
                    if code colon =? 58 then
                      match value f room after_colon with
                      | Scanned (v, after_v) =>
                          match skip_ws after_v with
                          | String sep rest =>
                              if code sep =? 44
                              then members f room rest (dict_set key v acc)
                              else if code sep =? 125 then
                                Scanned (PDict (dict_set key v acc), rest)
                              else Malformed
                          | EmptyString => Malformed
                          end
                      | Malformed => Malformed
                      | TooDeep => TooDeep
                      end
                    else Malformed
                | EmptyString => Malformed
                end
            | None => Malformed
            end
          else Malformed
      | EmptyString => Malformed
      end
  end
with elements (fuel room : nat) (s : string) (acc : list pyval)
  : scan (pyval * string) :=
  match fuel with
  | O => Malformed
  | S f =>
      match value f room s with
      | Scanned (v, after_v) =>
          match skip_ws after_v with
          | String sep rest =>
              if code sep =? 44 then elements f room rest (acc ++ [v])
              else if code sep =? 93 then Scanned (PList (acc ++ [v]), rest)
              else Malformed
          | EmptyString => Malformed
          end
      | Malformed => Malformed
      | TooDeep => TooDeep
      end
  end.

(** [json.loads] with room for [room] nested objects and arrays. *)
Definition loads_within (room : nat) (s : string) : loads_result :=
  match value (2 * String.length s + 2) room s with
  | Scanned (v, rest) =>
      match skip_ws rest with
      | EmptyString => Loaded v
      | String _ _ => LoadsRaises JSONDecodeError
      end
  | Malformed => LoadsRaises JSONDecodeError
  | TooDeep => LoadsRaises RecursionError
  end.

(** The room that [json.loads] has with the default recursion limit of
    1000 when it is called from a function called at the top level of a
    script (CPython 3.11: a text that opens 995 brackets raises
    RecursionError).  Called from deeper down, as from a handler, it has
    less: one level less for each frame in between. *)
Definition recursion_room : nat := 994.

Definition loads (s : string) : loads_result := loads_within recursion_room s.

(** [c] repeated [n] times. *)
Fixpoint repeated (n : nat) (c : ascii) : string :=
  match n with
  | O => EmptyString
  | S n' => String c (repeated n' c)
  end.

(** Sample texts. *)
Definition deeply_nested : string := repeated 1000 "["%char.

Definition status_command (status : string) : string :=
  "{" +:+ PyStr.quoted "status" +:+ ": " +:+ PyStr.quoted status +:+ "}".

End JSON.

(** * The bus-stop device ([src/raspberry]) *)

(** ** [raspberry/config.py] *)

Module StopConfig.

Record Config : Type := {
  MQTT_BROKER_HOST : string;
  MQTT_BROKER_PORT : Z;
  MQTT_USERNAME : string;
  MQTT_PASSWORD : string;
  MQTT_KEEPALIVE : Z;
  STOP_ID : string;
  STOP_NAME : string;
  (** what [get_routes_config()] returns, in the order of the dict;
      the keys are distinct *)
  ROUTES_CONFIG : list (string * route_config);
  GPIO_MODE : string;
  DEBOUNCE_TIME : Z;
  HEARTBEAT_INTERVAL : Z
}.

(** [route_id in routes] and [routes[route_id]] *)
Fixpoint route_lookup (route_id : string) (routes : list (string * route_config))
  : option route_config :=
  match routes with
  | [] => None
  | (k, rc) :: rest => if String.eqb k route_id then Some rc else route_lookup route_id rest
  end.

Definition DEFAULT_ROUTES_CONFIG : list (string * route_config) :=
  [ ("1", {| name := Some "1번"; color := Some "#FF0000"; button_pin := 18; led_pin := 19 |});
    ("2", {| name := Some "2번"; color := Some "#00FF00"; button_pin := 20; led_pin := 21 |});
    ("3", {| name := Some "3번"; color := Some "#0000FF"; button_pin := 22; led_pin := 23 |});
    ("4", {| name := Some "4번"; color := Some "#FFFF00"; button_pin := 24; led_pin := 25 |}) ].

(** The configuration when no environment variable is set (times in
    milliseconds, the heartbeat interval included). *)
Definition defaults : Config := {|
  MQTT_BROKER_HOST := "localhost";
  MQTT_BROKER_PORT := 1883;
  MQTT_USERNAME := EmptyString;
  MQTT_PASSWORD := EmptyString;
  MQTT_KEEPALIVE := 60;
  STOP_ID := "STOP001";
  STOP_NAME := "시청앞정류장";
  ROUTES_CONFIG := DEFAULT_ROUTES_CONFIG;
  GPIO_MODE := "BCM";
  DEBOUNCE_TIME := 300;
  HEARTBEAT_INTERVAL := 30000
|}.

(** [get_mqtt_topics()] *)
Definition topic_button_press (cfg : Config) : string := "device/button/" +:+ STOP_ID cfg.
Definition topic_led_control (cfg : Config) : string := "device/led/" +:+ STOP_ID cfg +:+ "/+".
Definition topic_heartbeat (cfg : Config) : string := "device/heartbeat/" +:+ STOP_ID cfg.
Definition topic_status (cfg : Config) : string := "device/status/" +:+ STOP_ID cfg.
Definition topic_system_health : string := "system/health".

(** [validate_config()]: some route is configured and no pin is used by
    two routes. *)
Fixpoint pins_fresh (used : gset Z) (routes : list (string * route_config)) : bool :=
  match routes with
  | [] => true
  | (_, rc) :: rest =>
      if bool_decide (button_pin rc ∈ used) || bool_decide (led_pin rc ∈ used) then false
      else pins_fresh ({[ led_pin rc ]} ∪ ({[ button_pin rc ]} ∪ used)) rest
  end.

Definition validate_config (cfg : Config) : bool :=
  match ROUTES_CONFIG cfg with
  | [] => false
  | routes => pins_fresh ∅ routes
  end.

(** [list(Config.get_routes_config().keys())] *)
Definition route_ids (cfg : Config) : pyval := PList (PStr <$> (ROUTES_CONFIG cfg).*1).

End StopConfig.

(** ** [raspberry/gpio_controller.py] *)

Module StopGpio.
Import StopConfig.

Record GPIOController : Type := {
  routes_config : list (string * route_config);
  button_states : gmap string bool;
  led_states : gmap string bool;
  button_callbacks : gmap string handler;
  last_button_press : gmap string Z;
  _initialized : bool
}.

Definition with_button_states (v : gmap string bool) (g : GPIOController) : GPIOController :=
  {| routes_config := routes_config g; button_states := v; led_states := led_states g;
     button_callbacks := button_callbacks g; last_button_press := last_button_press g;
     _initialized := _initialized g |}.
Definition with_led_states (v : gmap string bool) (g : GPIOController) : GPIOController :=
  {| routes_config := routes_config g; button_states := button_states g; led_states := v;
     button_callbacks := button_callbacks g; last_button_press := last_button_press g;
     _initialized := _initialized g |}.
Definition with_button_callbacks (v : gmap string handler) (g : GPIOController) : GPIOController :=
  {| routes_config := routes_config g; button_states := button_states g;
     led_states := led_states g; button_callbacks := v;
     last_button_press := last_button_press g; _initialized := _initialized g |}.
Definition with_last_button_press (v : gmap string Z) (g : GPIOController) : GPIOController :=
  {| routes_config := routes_config g; button_states := button_states g;
     led_states := led_states g; button_callbacks := button_callbacks g;
     last_button_press := v; _initialized := _initialized g |}.
Definition with_initialized (v : bool) (g : GPIOController) : GPIOController :=
  {| routes_config := routes_config g; button_states := button_states g;
     led_states := led_states g; button_callbacks := button_callbacks g;
     last_button_press := last_button_press g; _initialized := v |}.

Section Methods.
(** [True] on a Raspberry Pi, [False] where [RPi.GPIO] cannot be imported
    and [MockGPIO] stands in. *)
Variable GPIO_AVAILABLE : bool.
Variable cfg : Config.

(** [__init__] *)
Definition new : GPIOController := {|
  routes_config := ROUTES_CONFIG cfg;
  button_states := ∅;
  led_states := ∅;
  button_callbacks := ∅;
  last_button_press := ∅;
  _initialized := false
|}.

(** [set_led]: the calls of [GPIO.output] are taken not to raise. *)
Definition set_led (route_id : string) (state : bool) : M GPIOController bool :=
  try_except
    (g ← get;
     match route_lookup route_id (routes_config g) with
     | None => log ERROR "unknown route";; ret false
     | Some rc =>
         if negb GPIO_AVAILABLE then
           log DEBUG (if state then "Mock LED ON" else "Mock LED OFF");;
           modify (fun g => with_led_states (<[route_id := state]> (led_states g)) g);;
           ret true
         else
           emit (E_gpio_output (led_pin rc) state);;
           modify (fun g => with_led_states (<[route_id := state]> (led_states g)) g);;
           log INFO (if state then "LED on" else "LED off");;
           ret true
     end)
    (fun e => log ERROR "LED control error";; ret false).

(** [initialize] *)
Definition initialize : M GPIOController bool :=
  try_except
    (if negb GPIO_AVAILABLE then
       log WARNING "GPIO module not available";; ret true
     else
       emit (E_gpio_setmode (if String.eqb (GPIO_MODE cfg) "BCM" then "BCM" else "BOARD"));;
       log INFO "GPIO mode set";;
       g ← get;
       for_each (routes_config g) (fun '(route_id, rc) =>
         emit (E_gpio_setup_in (button_pin rc));;
         emit (E_gpio_setup_out (led_pin rc));;
         emit (E_gpio_output (led_pin rc) false);;
         modify (fun g => with_button_states (<[route_id := false]> (button_states g)) g);;
         modify (fun g => with_led_states (<[route_id := false]> (led_states g)) g);;
         modify (fun g => with_last_button_press (<[route_id := 0]> (last_button_press g)) g);;
         emit (E_gpio_add_event_detect (button_pin rc) route_id (DEBOUNCE_TIME cfg));;
         log INFO "route GPIO set up");;
       modify (with_initialized true);;
       log INFO "GPIO initialised";;
       ret true)
    (fun e => log ERROR "GPIO initialisation failed";; ret false).

(** [cleanup] *)
Definition cleanup : M GPIOController unit :=
  g ← get;
  if negb GPIO_AVAILABLE || negb (_initialized g) then ret tt
  else
    try_except
      (for_each (routes_config g) (fun '(route_id, _) => set_led route_id false;; ret tt);;
       for_each (routes_config g) (fun '(_, rc) =>
         emit (E_gpio_remove_event_detect (button_pin rc)));;
       emit E_gpio_cleanup;;
       log INFO "GPIO cleaned up")
      (fun e => log ERROR "GPIO cleanup error").

(** [_button_callback]; [current_time] is the reading of [time.time()]. *)
Definition _button_callback (route_id : string) (channel : Z) (current_time : Z)
  : M GPIOController unit :=
  try_except
    (g ← get;
     if current_time - default 0 (last_button_press g !! route_id) <? DEBOUNCE_TIME cfg
     then ret tt
     else
       modify (fun g => with_last_button_press
                          (<[route_id := current_time]> (last_button_press g)) g);;
       modify (fun g => with_button_states (<[route_id := true]> (button_states g)) g);;
       g ← get;
       rc ← subscript route_id (route_lookup route_id (routes_config g));
       _ ← subscript "name" (name rc);
       log INFO "button pressed";;
       set_led route_id true;;
       g ← get;
       match button_callbacks g !! route_id with
       | Some callback => emit (E_thread (Th_callback callback route_id rc))
       | None => ret tt
       end)
    (fun e => log ERROR "button callback error").

(** [register_button_callback] *)
Definition register_button_callback (route_id : string) (callback : handler)
  : M GPIOController unit :=
  modify (fun g => with_button_callbacks (<[route_id := callback]> (button_callbacks g)) g);;
  log DEBUG "button callback registered".

(** [get_button_state], [get_led_state] *)
Definition get_button_state (g : GPIOController) (route_id : string) : bool :=
  default false (button_states g !! route_id).
Definition get_led_state (g : GPIOController) (route_id : string) : bool :=
  default false (led_states g !! route_id).

(** [toggle_led] *)
Definition toggle_led (route_id : string) : M GPIOController bool :=
  g ← get;
  let current_state := default false (led_states g !! route_id) in
  set_led route_id (negb current_state).

(** The [while] loop of [blink_worker]; [now] is the clock of the worker
    when it reaches the head of the loop. *)
Fixpoint blink_loop (fuel : nat) (route_id : string) (duration interval : pyval)
  (start_time now : Z) : M GPIOController Z :=
  match fuel with
  | O => out_of_fuel
  | S fuel' =>
      match as_number duration with
      | None => raise TypeError
      | Some d =>
          if now - start_time <? d then
            set_led route_id true;;
            d1 ← time_sleep interval;
            set_led route_id false;;
            d2 ← time_sleep interval;
            blink_loop fuel' route_id duration interval start_time (now + d1 + d2)
          else ret now
      end
  end.

(** [blink_worker], the body of the thread started by [blink_led]; the
    worker starts when the clock reads [now]. *)
Definition blink_worker (fuel : nat) (route_id : string) (duration interval : pyval)
  (now : Z) : M GPIOController unit :=
  try_except
    (g ← get;
     let original_state := default false (led_states g !! route_id) in
     let start_time := now in
     blink_loop fuel route_id duration interval start_time now;;
     set_led route_id original_state;;
     ret tt)
    (fun e => log ERROR "LED blink error").

(** [blink_led] *)
Definition blink_led (route_id : string) (duration interval : pyval)
  : M GPIOController unit :=
  emit (E_thread (Th_blink_worker route_id duration interval)).

(** [get_all_states] *)
Definition get_all_states (g : GPIOController) : list (string * (bool * bool)) :=
  (fun '(route_id, _) => (route_id, (get_button_state g route_id, get_led_state g route_id)))
    <$> routes_config g.

(** [test_all_leds] *)
Definition test_all_leds (duration : Z) : M GPIOController unit :=
  log INFO "LED test start";;
  g ← get;
  for_each (routes_config g) (fun '(route_id, _) =>
    log INFO "route LED test";;
    set_led route_id true;;
    sleep_for duration;;
    set_led route_id false;;
    emit (E_sleep 200));;
  log INFO "LED test done".

(** [is_available] *)
Definition is_available (g : GPIOController) : bool := GPIO_AVAILABLE && _initialized g.

End Methods.
End StopGpio.

(** ** [raspberry/mqtt_client.py] *)

(** What the network thread of paho-mqtt calls back. *)
Inductive net_cb : Type :=
| CB_on_connect (rc : Z)
| CB_on_disconnect (rc : Z).

(** What [client.publish] does: it returns a result code or raises. *)
Inductive publish_outcome : Type :=
| PubRc (rc : Z)
| PubRaises.

Definition MQTT_ERR_SUCCESS : Z := 0.

Module StopMqtt.
Import StopConfig.

Record MQTTClient : Type := {
  (** [None], or the paho client with its client id:
      the stop id and [int(time.time())] *)
  client : option (string * Z);
  is_connected : bool;
  message_callbacks : gmap string handler;
  last_heartbeat : option Z;
  (** whether [heartbeat_thread] holds a thread *)
  heartbeat_thread : bool;
  _running : bool
}.

Definition with_client (v : option (string * Z)) (c : MQTTClient) : MQTTClient :=
  {| client := v; is_connected := is_connected c;
     message_callbacks := message_callbacks c; last_heartbeat := last_heartbeat c;
     heartbeat_thread := heartbeat_thread c; _running := _running c |}.
Definition with_is_connected (v : bool) (c : MQTTClient) : MQTTClient :=
  {| client := client c; is_connected := v;
     message_callbacks := message_callbacks c; last_heartbeat := last_heartbeat c;
     heartbeat_thread := heartbeat_thread c; _running := _running c |}.
Definition with_message_callbacks (v : gmap string handler) (c : MQTTClient) : MQTTClient :=
  {| client := client c; is_connected := is_connected c;
     message_callbacks := v; last_heartbeat := last_heartbeat c;
     heartbeat_thread := heartbeat_thread c; _running := _running c |}.
Definition with_last_heartbeat (v : option Z) (c : MQTTClient) : MQTTClient :=
  {| client := client c; is_connected := is_connected c;
     message_callbacks := message_callbacks c; last_heartbeat := v;
     heartbeat_thread := heartbeat_thread c; _running := _running c |}.
Definition with_heartbeat_thread (v : bool) (c : MQTTClient) : MQTTClient :=
  {| client := client c; is_connected := is_connected c;
     message_callbacks := message_callbacks c; last_heartbeat := last_heartbeat c;
     heartbeat_thread := v; _running := _running c |}.
Definition with_running (v : bool) (c : MQTTClient) : MQTTClient :=
  {| client := client c; is_connected := is_connected c;
     message_callbacks := message_callbacks c; last_heartbeat := last_heartbeat c;
     heartbeat_thread := heartbeat_thread c; _running := v |}.

(** [__init__] *)
Definition new : MQTTClient := {|
  client := None;
  is_connected := false;
  message_callbacks := ∅;
  last_heartbeat := None;
  heartbeat_thread := false;
  _running := false
|}.

(** [self.client.f(...)]: an AttributeError when [self.client] is [None]. *)
Definition client_call (c : transport_call) : M MQTTClient unit :=
  s ← get;
  match client s with
  | Some _ => emit (E_transport c)
  | None => raise (AttributeError "client")
  end.

Section Methods.
Variable cfg : Config.
(** [bytes.decode], where [None] is the UnicodeDecodeError it raises, and
    [json.loads]. *)
Variable bytes_decode : list Byte.byte -> option string.
Variable json_loads : string -> loads_result.

(** [initialize]; the clock reads [now], and [int(time.time())] truncates
    it to whole seconds, toward zero. *)
Definition initialize (now : Z) : M MQTTClient bool :=
  try_except
    (modify (with_client (Some (STOP_ID cfg, Z.quot now 1000)));;
     (if nonempty (MQTT_USERNAME cfg) && nonempty (MQTT_PASSWORD cfg)
      then client_call (T_username_pw_set (MQTT_USERNAME cfg) (MQTT_PASSWORD cfg))
      else ret tt);;
     let will_topic := topic_status cfg in
     let will_message :=
       PDict [("status", PStr "offline"); ("stopId", PStr (STOP_ID cfg));
              ("timestamp", PIsoTime now)] in
     client_call (T_will_set will_topic will_message 1 true);;
     log INFO "MQTT client initialised";;
     ret true)
    (fun e => log ERROR "MQTT client initialisation failed";; ret false).

(** [_on_connect] *)
Definition _on_connect (rc : Z) : M MQTTClient unit :=
  if rc =? 0 then
    modify (with_is_connected true);;
    log INFO "MQTT broker connected";;
    for_each [(topic_led_control cfg, 1); (topic_system_health, 1)] (fun '(topic, qos) =>
      client_call (T_subscribe topic qos);;
      log DEBUG "topic subscribed")
  else
    modify (with_is_connected false);;
    log ERROR "MQTT connection failed".

(** [_on_disconnect] *)
Definition _on_disconnect (rc : Z) : M MQTTClient unit :=
  modify (with_is_connected false);;
  if negb (rc =? 0) then log WARNING "MQTT connection lost unexpectedly"
  else log INFO "MQTT disconnected".

(** A callback run by the network thread: what it raises stays in that
    thread. *)
Definition deliver (cb : net_cb) : M MQTTClient unit :=
  try_except
    (match cb with
     | CB_on_connect rc => _on_connect rc
     | CB_on_disconnect rc => _on_disconnect rc
     end)
    (fun e => ret tt).

(** [_publish_status]; the clock reads [now]. *)
Definition _publish_status (status : string) (now : Z) : M MQTTClient unit :=
  s ← get;
  match client s with
  | None => ret tt
  | Some _ =>
      let message :=
        PDict [("status", PStr status); ("stopId", PStr (STOP_ID cfg));
               ("stopName", PStr (STOP_NAME cfg)); ("timestamp", PIsoTime now);
               ("routes", route_ids cfg)] in
      emit (E_transport (T_publish (topic_status cfg) message 1 true));;
      log INFO "stop status published"
  end.

(** [_publish_heartbeat]; the clock reads [now].  [x or y] on an optional
    number takes [y] when [x] is [None] or zero. *)
Definition _publish_heartbeat (now : Z) : M MQTTClient unit :=
  s ← get;
  if negb (is_connected s) then ret tt
  else
    let since :=
      match last_heartbeat s with
      | Some t => if t =? 0 then now else t
      | None => now
      end in
    let message :=
      PDict [("stopId", PStr (STOP_ID cfg)); ("timestamp", PIsoTime now);
             ("uptime", PNum (now - since)); ("routes", route_ids cfg)] in
    client_call (T_publish (topic_heartbeat cfg) message 0 false);;
    modify (with_last_heartbeat (Some now));;
    log DEBUG "heartbeat sent".

(** What the other threads do to the client while a thread sleeps: each
    entry is a call and the time at which it is made. *)
Definition schedule : Type := list (Z * M MQTTClient unit).

(** The calls of the other threads that are due by time [t], in order,
    and the rest of the schedule. *)
Fixpoint run_due (t : Z) (others : schedule) : M MQTTClient schedule :=
  match others with
  | [] => ret []
  | (at_time, call) :: rest =>
      if at_time <=? t then try_except call (fun e => ret tt);; run_due t rest
      else ret others
  end.

(** [heartbeat_worker], the body of the thread started by
    [_start_heartbeat]; [now] is the clock of the worker at the head of
    the loop. *)
Fixpoint heartbeat_worker (fuel : nat) (others : schedule) (now : Z) : M MQTTClient unit :=
  match fuel with
  | O => out_of_fuel
  | S fuel' =>
      s ← get;
      if _running s && is_connected s then
        _publish_heartbeat now;;
        sleep_for (HEARTBEAT_INTERVAL cfg);;
        others' ← run_due (now + HEARTBEAT_INTERVAL cfg) others;
        heartbeat_worker fuel' others' (now + HEARTBEAT_INTERVAL cfg)
      else ret tt
  end.

(** [_start_heartbeat] *)
Definition _start_heartbeat : M MQTTClient unit :=
  modify (with_heartbeat_thread true);;
  emit (E_thread Th_heartbeat_worker);;
  log INFO "heartbeat started".

(** The bounded wait of [connect]: at most [n] polls, 0.1 s apart; [net]
    lists what the network thread calls back during each sleep.  Returns
    the time slept. *)
Fixpoint wait_connected (n : nat) (net : list (list net_cb)) : M MQTTClient Z :=
  match n with
  | O => ret 0
  | S n' =>
      s ← get;
      if is_connected s then ret 0
      else
        emit (E_sleep 100);;
        for_each (hd [] net) deliver;;
        t ← wait_connected n' (tl net);
        ret (100 + t)
  end.

(** [connect]; [connect_ok] tells whether [client.connect] returns rather
    than raises, the clock reads [now]. *)
Definition connect (connect_ok : bool) (net : list (list net_cb)) (now : Z)
  : M MQTTClient bool :=
  try_except
    (log INFO "connecting to MQTT broker";;
     client_call (T_connect (MQTT_BROKER_HOST cfg) (MQTT_BROKER_PORT cfg) (MQTT_KEEPALIVE cfg));;
     (if connect_ok then ret tt else raise TransportError);;
     client_call T_loop_start;;
     modify (with_running true);;
     waited ← wait_connected 100 net;
     s ← get;
     if is_connected s then
       log INFO "MQTT broker connection succeeded";;
       _start_heartbeat;;
       _publish_status "online" (now + waited);;
       ret true
     else
       log ERROR "MQTT broker connection timeout";;
       ret false)
    (fun e => log ERROR "MQTT broker connection failed";; ret false).

(** [disconnect]; the clock reads [now]. *)
Definition disconnect (now : Z) : M MQTTClient unit :=
  modify (with_running false);;
  s ← get;
  (if heartbeat_thread s then emit (E_join 2000) else ret tt);;
  s ← get;
  (if bool_decide (client s ≠ None) && is_connected s then
     _publish_status "offline" now;;
     client_call T_loop_stop;;
     client_call T_disconnect
   else ret tt);;
  log INFO "MQTT disconnect done".

(** [_on_message] *)
Definition _on_message (topic : string) (payload : list Byte.byte) : M MQTTClient unit :=
  try_except
    (text ← match bytes_decode payload with
            | Some text => ret text
            | None => raise UnicodeDecodeError
            end;
     payload ← match json_loads text with
               | Loaded v => ret v
               | LoadsRaises e => raise e
               end;
     log DEBUG "message received";;
     if PyStr.startswith topic ("device/led/" +:+ STOP_ID cfg +:+ "/") then
       route_id ← item (PyStr.item_m1 (PyStr.split PyStr.slash topic));
       s ← get;
       match message_callbacks s !! "led_control" with
       | Some callback => emit (E_invoke callback [PStr route_id; payload])
       | None => ret tt
       end
     else if String.eqb topic "system/health" then
       s ← get;
       match message_callbacks s !! "system_health" with
       | Some callback => emit (E_invoke callback [payload])
       | None => ret tt
       end
     else ret tt)
    (fun e => log ERROR "message handling error").

(** [register_callback] *)
Definition register_callback (event_type : string) (callback : handler) : M MQTTClient unit :=
  modify (fun c => with_message_callbacks (<[event_type := callback]> (message_callbacks c)) c);;
  log DEBUG "callback registered".

(** [publish_button_press]; [outcome] is what [client.publish] does, the
    clock reads [now]. *)
Definition publish_button_press (route_id route_name color : string)
  (outcome : publish_outcome) (now : Z) : M MQTTClient bool :=
  s ← get;
  if negb (is_connected s) then
    log ERROR "MQTT not connected, button press not sent";;
    ret false
  else
    try_except
      (let topic := topic_button_press cfg +:+ "/" +:+ route_id in
       let message :=
         PDict [("stopId", PStr (STOP_ID cfg)); ("routeId", PStr route_id);
                ("routeName", PStr route_name); ("buttonColor", PStr color);
                ("timestamp", PIsoTime now); ("passengerCount", PNum 1000)] in
       client_call (T_publish topic message 1 false);;
       match outcome with
       | PubRaises => raise TransportError
       | PubRc rc =>
           if rc =? MQTT_ERR_SUCCESS then log INFO "button press sent";; ret true
           else log ERROR "button press send failed";; ret false
       end)
      (fun e => log ERROR "button press send error";; ret false).

End Methods.
End StopMqtt.

(** ** [raspberry/main.py] *)

Module StopMain.
Import StopConfig.

Record BusStopSystem : Type := {
  mqtt_client : StopMqtt.MQTTClient;
  gpio_controller : StopGpio.GPIOController;
  _running : bool
}.

Definition with_mqtt_client (v : StopMqtt.MQTTClient) (w : BusStopSystem) : BusStopSystem :=
  {| mqtt_client := v; gpio_controller := gpio_controller w; _running := _running w |}.
Definition with_gpio_controller (v : StopGpio.GPIOController) (w : BusStopSystem)
  : BusStopSystem :=
  {| mqtt_client := mqtt_client w; gpio_controller := v; _running := _running w |}.
Definition with_running (v : bool) (w : BusStopSystem) : BusStopSystem :=
  {| mqtt_client := mqtt_client w; gpio_controller := gpio_controller w; _running := v |}.

(** A method of [self.mqtt_client], of [self.gpio_controller]. *)
Definition on_mqtt {A} (c : M StopMqtt.MQTTClient A) : M BusStopSystem A :=
  zoom mqtt_client with_mqtt_client c.
Definition on_gpio {A} (c : M StopGpio.GPIOController A) : M BusStopSystem A :=
  zoom gpio_controller with_gpio_controller c.

Section Methods.
Variable GPIO_AVAILABLE : bool.
Variable cfg : Config.
Variable bytes_decode : list Byte.byte -> option string.
Variable json_loads : string -> loads_result.

(** [__init__] *)
Definition new : BusStopSystem := {|
  mqtt_client := StopMqtt.new;
  gpio_controller := StopGpio.new cfg;
  _running := false
|}.

(** [_on_button_pressed]; [outcome] is what [client.publish] does if it
    is called, the clock reads [now]. *)
Definition _on_button_pressed (route_id : string) (rc : route_config)
  (outcome : publish_outcome) (now : Z) : M BusStopSystem unit :=
  try_except
    (log INFO "button event";;
     route_name ← subscript "name" (name rc);
     button_color ← subscript "color" (color rc);
     success ← on_mqtt (StopMqtt.publish_button_press cfg route_id route_name button_color
                          outcome now);
     if success : bool then
       log INFO "call sent";;
       on_gpio (StopGpio.blink_led route_id (PNum 1000) (PNum 200))
     else
       log ERROR "call not sent";;
       on_gpio (StopGpio.blink_led route_id (PNum 2000) (PNum 100)))
    (fun e => log ERROR "button event handling error").

(** [_on_led_control] *)
Definition _on_led_control (route_id : string) (message : pyval) : M BusStopSystem unit :=
  try_except
    (status ← py_get message "status" (PStr "OFF");
     if is_str status "ON" then
       on_gpio (StopGpio.set_led GPIO_AVAILABLE route_id true);;
       log INFO "LED on (server command)"
     else if is_str status "OFF" then
       on_gpio (StopGpio.set_led GPIO_AVAILABLE route_id false);;
       log INFO "LED off (server command)"
     else if is_str status "BLINK" then
       duration ← py_get message "duration" (PNum 2000);
       interval ← py_get message "interval" (PNum 500);
       on_gpio (StopGpio.blink_led route_id duration interval);;
       log INFO "LED blink (server command)"
     else ret tt)
    (fun e => log ERROR "LED control error").

(** [_on_system_health] *)
Definition _on_system_health (health_data : pyval) : M BusStopSystem unit :=
  log DEBUG "system health received".

(** [_setup_event_handlers] *)
Definition _setup_event_handlers : M BusStopSystem unit :=
  for_each (ROUTES_CONFIG cfg) (fun '(route_id, _) =>
    on_gpio (StopGpio.register_button_callback route_id H_on_button_pressed));;
  on_mqtt (StopMqtt.register_callback "led_control" H_on_led_control);;
  on_mqtt (StopMqtt.register_callback "system_health" H_stop_on_system_health);;
  log INFO "event handlers set up".

(** [initialize]; the clock reads [now]. *)
Definition initialize (now : Z) : M BusStopSystem bool :=
  log INFO "smart bus stop system start";;
  if negb (validate_config cfg) then log ERROR "configuration invalid";; ret false
  else
    ok ← on_gpio (StopGpio.initialize GPIO_AVAILABLE cfg);
    if negb ok then log ERROR "GPIO initialisation failed";; ret false
    else
      ok ← on_mqtt (StopMqtt.initialize cfg now);
      if negb ok then log ERROR "MQTT initialisation failed";; ret false
      else
        _setup_event_handlers;;
        log INFO "system initialised";;
        ret true.

(** [start]; [connect_ok] and [net] are those of [connect], the clock
    reads [now]. *)
Definition start (connect_ok : bool) (net : list (list net_cb)) (now : Z)
  : M BusStopSystem bool :=
  ok ← initialize now;
  if negb ok then ret false
  else
    ok ← on_mqtt (StopMqtt.connect cfg connect_ok net now);
    if negb ok then log ERROR "MQTT connection failed";; ret false
    else
      modify (with_running true);;
      log INFO "system test";;
      on_gpio (StopGpio.test_all_leds GPIO_AVAILABLE 500);;
      log INFO "bus stop system ready";;
      ret true.

(** Calling a registered callback with the arguments it was given; a call
    with arguments of the wrong shape is a TypeError. *)
Definition call_handler (h : handler) (args : list pyval) : M BusStopSystem unit :=
  match h, args with
  | H_on_led_control, [PStr route_id; message] => _on_led_control route_id message
  | H_stop_on_system_health, [health_data] => _on_system_health health_data
  | _, _ => raise TypeError
  end.

(** An inbound message: [_on_message] runs in the network thread and the
    callback it invokes runs inside it, under its [try]. *)
Definition message_arrives (topic : string) (payload : list Byte.byte)
  : M BusStopSystem unit :=
  '(_, calls) ← listen (on_mqtt (StopMqtt._on_message cfg bytes_decode json_loads
                                     topic payload));
  for_each (invoked calls) (fun '(h, args) =>
    try_except (call_handler h args) (fun e => log ERROR "message handling error")).

(** The body of a thread started for a button callback. *)
Definition run_callback_thread (t : thread) (outcome : publish_outcome) (now : Z)
  : M BusStopSystem unit :=
  match t with
  | Th_callback H_on_button_pressed route_id rc => _on_button_pressed route_id rc outcome now
  | _ => ret tt
  end.

(** A falling edge on the button of [route_id]: RPi.GPIO calls
    [_button_callback], and the thread it starts for the registered
    callback runs. *)
Definition button_edge (route_id : string) (channel : Z) (outcome : publish_outcome)
  (now : Z) : M BusStopSystem unit :=
  '(_, calls) ← listen (on_gpio (StopGpio._button_callback GPIO_AVAILABLE cfg
                                     route_id channel now));
  for_each (spawned calls) (fun t => run_callback_thread t outcome now).

(** [shutdown]; the clock reads [now]. *)
Definition shutdown (now : Z) : M BusStopSystem unit :=
  log INFO "system shutting down";;
  modify (with_running false);;
  on_mqtt (StopMqtt.disconnect cfg now);;
  on_gpio (StopGpio.cleanup GPIO_AVAILABLE);;
  log INFO "system shut down".

End Methods.
End StopMain.

(** * The vehicle device ([src/bus]) *)

(** ** [bus/config.py] *)

Module BusConfig.

Record Config : Type := {
  MQTT_BROKER_HOST : string;
  MQTT_BROKER_PORT : Z;
  MQTT_USERNAME : string;
  MQTT_PASSWORD : string;
  MQTT_KEEPALIVE : Z;
  BUS_ID : string;
  ROUTE_ID : string;
  ROUTE_NAME : string;
  LED_RED_PIN : Z;
  LED_GREEN_PIN : Z;
  BUZZER_PIN : Z;
  GPIO_MODE : string;
  LOCATION_INTERVAL : Z;
  HEARTBEAT_INTERVAL : Z
}.

(** The configuration when no environment variable is set, on a host
    named [bus-pi] (times in milliseconds). *)
Definition defaults : Config := {|
  MQTT_BROKER_HOST := "localhost";
  MQTT_BROKER_PORT := 1883;
  MQTT_USERNAME := EmptyString;
  MQTT_PASSWORD := EmptyString;
  MQTT_KEEPALIVE := 60;
  BUS_ID := "bus-pi";
  ROUTE_ID := "100";
  ROUTE_NAME := "노선 100";
  LED_RED_PIN := 5;
  LED_GREEN_PIN := 6;
  BUZZER_PIN := 13;
  GPIO_MODE := "BCM";
  LOCATION_INTERVAL := 2000;
  HEARTBEAT_INTERVAL := 30000
|}.

Definition with_ROUTE_ID (v : string) (cfg : Config) : Config := {|
  MQTT_BROKER_HOST := MQTT_BROKER_HOST cfg;
  MQTT_BROKER_PORT := MQTT_BROKER_PORT cfg;
  MQTT_USERNAME := MQTT_USERNAME cfg;
  MQTT_PASSWORD := MQTT_PASSWORD cfg;
  MQTT_KEEPALIVE := MQTT_KEEPALIVE cfg;
  BUS_ID := BUS_ID cfg;
  ROUTE_ID := v;
  ROUTE_NAME := ROUTE_NAME cfg;
  LED_RED_PIN := LED_RED_PIN cfg;
  LED_GREEN_PIN := LED_GREEN_PIN cfg;
  BUZZER_PIN := BUZZER_PIN cfg;
  GPIO_MODE := GPIO_MODE cfg;
  LOCATION_INTERVAL := LOCATION_INTERVAL cfg;
  HEARTBEAT_INTERVAL := HEARTBEAT_INTERVAL cfg
|}.

(** [get_topics()] *)
Definition topic_route_call : string := "device/button/+/+".
Definition topic_bus_location (cfg : Config) : string := "bus/location/" +:+ BUS_ID cfg.
Definition topic_bus_status (cfg : Config) : string := "bus/status/" +:+ BUS_ID cfg.
Definition topic_system_health : string := "system/health".

End BusConfig.

(** ** [bus/gpio_controller.py] *)

Module BusGpio.
Import BusConfig.

Record GPIOController : Type := {
  _initialized : bool;
  led_red_state : bool;
  led_green_state : bool
}.

Section Methods.
Variable GPIO_AVAILABLE : bool.
Variable cfg : Config.

(** [__init__] *)
Definition new : GPIOController :=
  {| _initialized := false; led_red_state := false; led_green_state := false |}.

(** [initialize] *)
Definition initialize : M GPIOController bool :=
  if negb GPIO_AVAILABLE then log WARNING "GPIO module not found, mock mode";; ret true
  else
    try_except
      (emit (E_gpio_setmode
               (if String.eqb (PyStr.upper (GPIO_MODE cfg)) "BCM" then "BCM" else "BOARD"));;
       emit (E_gpio_setup_out (LED_RED_PIN cfg));;
       emit (E_gpio_setup_out (LED_GREEN_PIN cfg));;
       emit (E_gpio_setup_out (BUZZER_PIN cfg));;
       emit (E_gpio_output (LED_RED_PIN cfg) false);;
       emit (E_gpio_output (LED_GREEN_PIN cfg) false);;
       emit (E_gpio_output (BUZZER_PIN cfg) false);;
       modify (fun g => {| _initialized := true; led_red_state := led_red_state g;
                           led_green_state := led_green_state g |});;
       log INFO "GPIO initialised";;
       ret true)
      (fun e => log ERROR "GPIO initialisation failed";; ret false).

(** [cleanup] *)
Definition cleanup : M GPIOController unit :=
  g ← get;
  (if GPIO_AVAILABLE && _initialized g then emit E_gpio_cleanup else ret tt);;
  log INFO "GPIO cleaned up".

(** [set_led(red, green)]; both parameters default to [False] in the
    source, so [set_led(red=True)] is [set_led true false]. *)
Definition set_led (red green : bool) : M GPIOController unit :=
  modify (fun g => {| _initialized := _initialized g; led_red_state := red;
                      led_green_state := green |});;
  if GPIO_AVAILABLE then
    emit (E_gpio_output (LED_RED_PIN cfg) red);;
    emit (E_gpio_output (LED_GREEN_PIN cfg) green)
  else log DEBUG "[MOCK] LED state".

Definition sleep_ms (d : Z) : M GPIOController unit :=
  if d <? 0 then raise ValueError else emit (E_sleep d).

(** The [while] loop of the worker of [blink_led]; [now] is the clock of
    the worker at the head of the loop. *)
Fixpoint blink_loop (fuel : nat) (interval : Z) (color : string) (end_time now : Z)
  : M GPIOController Z :=
  match fuel with
  | O => out_of_fuel
  | S fuel' =>
      if now <? end_time then
        (if String.eqb color "red" then set_led true false
         else if String.eqb color "green" then set_led false true
         else ret tt);;
        sleep_ms interval;;
        set_led false false;;
        sleep_ms interval;;
        blink_loop fuel' interval color end_time (now + interval + interval)
      else ret now
  end.

(** [_worker] of [blink_led]; the worker starts when the clock reads
    [now]. *)
Definition blink_worker (fuel : nat) (duration interval : Z) (color : string) (now : Z)
  : M GPIOController unit :=
  let end_time := now + duration in
  blink_loop fuel interval color end_time now;;
  ret tt.

(** [blink_led] *)
Definition blink_led (duration interval : Z) (color : string) : M GPIOController unit :=
  emit (E_thread (Th_bus_blink_worker duration interval color)).

(** [_worker] of [beep] *)
Definition beep_worker (duration : Z) (repeats : nat) : M GPIOController unit :=
  for_each (seq 0 repeats) (fun _ =>
    (if GPIO_AVAILABLE then emit (E_gpio_output (BUZZER_PIN cfg) true) else ret tt);;
    log DEBUG "Beep ON";;
    sleep_ms duration;;
    (if GPIO_AVAILABLE then emit (E_gpio_output (BUZZER_PIN cfg) false) else ret tt);;
    log DEBUG "Beep OFF";;
    sleep_ms 50).

(** [beep] *)
Definition beep (duration : Z) (repeats : nat) : M GPIOController unit :=
  emit (E_thread (Th_beep_worker duration repeats)).

(** [is_available] *)
Definition is_available (g : GPIOController) : bool := GPIO_AVAILABLE && _initialized g.

End Methods.
End BusGpio.

(** ** [bus/mqtt_client.py] *)

Module BusMqtt.
Import BusConfig.

Record MQTTClient : Type := {
  (** [None], or the paho client with its client id:
      the bus id and [int(time.time())] *)
  client : option (string * Z);
  is_connected : bool;
  message_callbacks : gmap string handler;
  (** whether [_heartbeat_thread] holds a thread *)
  _heartbeat_thread : bool;
  _running : bool
}.

Definition with_client (v : option (string * Z)) (c : MQTTClient) : MQTTClient :=
  {| client := v; is_connected := is_connected c;
     message_callbacks := message_callbacks c;
     _heartbeat_thread := _heartbeat_thread c; _running := _running c |}.
Definition with_is_connected (v : bool) (c : MQTTClient) : MQTTClient :=
  {| client := client c; is_connected := v;
     message_callbacks := message_callbacks c;
     _heartbeat_thread := _heartbeat_thread c; _running := _running c |}.
Definition with_message_callbacks (v : gmap string handler) (c : MQTTClient) : MQTTClient :=
  {| client := client c; is_connected := is_connected c;
     message_callbacks := v;
     _heartbeat_thread := _heartbeat_thread c; _running := _running c |}.
Definition with_heartbeat_thread (v : bool) (c : MQTTClient) : MQTTClient :=
  {| client := client c; is_connected := is_connected c;
     message_callbacks := message_callbacks c;
     _heartbeat_thread := v; _running := _running c |}.
Definition with_running (v : bool) (c : MQTTClient) : MQTTClient :=
  {| client := client c; is_connected := is_connected c;
     message_callbacks := message_callbacks c;
     _heartbeat_thread := _heartbeat_thread c; _running := v |}.

(** [__init__] *)
Definition new : MQTTClient := {|
  client := None;
  is_connected := false;
  message_callbacks := ∅;
  _heartbeat_thread := false;
  _running := false
|}.

(** [self.client.f(...)]: an AttributeError when [self.client] is [None]. *)
Definition client_call (c : transport_call) : M MQTTClient unit :=
  s ← get;
  match client s with
  | Some _ => emit (E_transport c)
  | None => raise (AttributeError "client")
  end.

Section Methods.
Variable cfg : Config.
Variable bytes_decode : list Byte.byte -> option string.
Variable json_loads : string -> loads_result.

(** [initialize]; the clock reads [now], and [int(time.time())] truncates
    it to whole seconds, toward zero. *)
Definition initialize (now : Z) : M MQTTClient bool :=
  try_except
    (modify (with_client (Some (BUS_ID cfg, Z.quot now 1000)));;
     (if nonempty (MQTT_USERNAME cfg)
      then client_call (T_username_pw_set (MQTT_USERNAME cfg) (MQTT_PASSWORD cfg))
      else ret tt);;
     let will_payload :=
       PDict [("busId", PStr (BUS_ID cfg)); ("status", PStr "offline");
              ("timestamp", PIsoTime now)] in
     client_call (T_will_set (topic_bus_status cfg) will_payload 1 true);;
     log INFO "MQTT client initialised";;
     ret true)
    (fun e => log ERROR "MQTT initialisation failed";; ret false).

(** [_on_connect]: it subscribes through the client it is handed. *)
Definition _on_connect (rc : Z) : M MQTTClient unit :=
  if rc =? 0 then
    modify (with_is_connected true);;
    log INFO "MQTT broker connection succeeded";;
    emit (E_transport (T_subscribe topic_route_call 1));;
    emit (E_transport (T_subscribe topic_system_health 1))
  else log ERROR "MQTT connection failed".

(** [_on_disconnect] *)
Definition _on_disconnect (rc : Z) : M MQTTClient unit :=
  modify (with_is_connected false);;
  if negb (rc =? 0) then log WARNING "MQTT connection lost unexpectedly"
  else log INFO "MQTT disconnected".

(** A callback run by the network thread: what it raises stays in that
    thread. *)
Definition deliver (cb : net_cb) : M MQTTClient unit :=
  try_except
    (match cb with
     | CB_on_connect rc => _on_connect rc
     | CB_on_disconnect rc => _on_disconnect rc
     end)
    (fun e => ret tt).

(** [_publish_status]; the clock reads [now]. *)
Definition _publish_status (status : string) (now : Z) : M MQTTClient unit :=
  s ← get;
  match client s with
  | None => ret tt
  | Some _ =>
      let message :=
        PDict [("busId", PStr (BUS_ID cfg)); ("routeId", PStr (ROUTE_ID cfg));
               ("status", PStr status); ("timestamp", PIsoTime now)] in
      emit (E_transport (T_publish (topic_bus_status cfg) message 1 true))
  end.

(** [publish_location]; the clock reads [now]. *)
Definition publish_location (latitude longitude speed heading : pyval) (now : Z)
  : M MQTTClient unit :=
  s ← get;
  if negb (bool_decide (client s ≠ None)) || negb (is_connected s) then ret tt
  else
    let message :=
      PDict [("busId", PStr (BUS_ID cfg)); ("routeId", PStr (ROUTE_ID cfg));
             ("latitude", latitude); ("longitude", longitude); ("speed", speed);
             ("heading", heading); ("timestamp", PIsoTime now)] in
    emit (E_transport (T_publish (topic_bus_location cfg) message 0 false)).

(** What the other threads do to the client while a thread sleeps: each
    entry is a call and the time at which it is made. *)
Definition schedule : Type := list (Z * M MQTTClient unit).

Fixpoint run_due (t : Z) (others : schedule) : M MQTTClient schedule :=
  match others with
  | [] => ret []
  | (at_time, call) :: rest =>
      if at_time <=? t then try_except call (fun e => ret tt);; run_due t rest
      else ret others
  end.

(** [_worker] of [_start_heartbeat]; [now] is the clock of the worker at
    the head of the loop. *)
Fixpoint heartbeat_worker (fuel : nat) (others : schedule) (now : Z) : M MQTTClient unit :=
  match fuel with
  | O => out_of_fuel
  | S fuel' =>
      s ← get;
      if _running s && is_connected s then
        _publish_status "online" now;;
        sleep_for (HEARTBEAT_INTERVAL cfg);;
        others' ← run_due (now + HEARTBEAT_INTERVAL cfg) others;
        heartbeat_worker fuel' others' (now + HEARTBEAT_INTERVAL cfg)
      else ret tt
  end.

(** [_start_heartbeat] *)
Definition _start_heartbeat : M MQTTClient unit :=
  modify (with_heartbeat_thread true);;
  emit (E_thread Th_heartbeat_worker).

(** The bounded wait of [connect]: at most [n] polls, 0.1 s apart; [net]
    lists what the network thread calls back during each sleep.  Returns
    the time slept. *)
Fixpoint wait_connected (n : nat) (net : list (list net_cb)) : M MQTTClient Z :=
  match n with
  | O => ret 0
  | S n' =>
      s ← get;
      if is_connected s then ret 0
      else
        emit (E_sleep 100);;
        for_each (hd [] net) deliver;;
        t ← wait_connected n' (tl net);
        ret (100 + t)
  end.

(** [connect]; [connect_ok] tells whether [client.connect] returns rather
    than raises, the clock reads [now]. *)
Definition connect (connect_ok : bool) (net : list (list net_cb)) (now : Z)
  : M MQTTClient bool :=
  s ← get;
  match client s with
  | None => log ERROR "MQTT client not initialised";; ret false
  | Some _ =>
      try_except
        (log INFO "connecting to MQTT broker";;
         client_call (T_connect (MQTT_BROKER_HOST cfg) (MQTT_BROKER_PORT cfg)
                        (MQTT_KEEPALIVE cfg));;
         (if connect_ok then ret tt else raise TransportError);;
         client_call T_loop_start;;
         modify (with_running true);;
         waited ← wait_connected 100 net;
         s ← get;
         if is_connected s then
           _start_heartbeat;;
           _publish_status "online" (now + waited);;
           ret true
         else
           log ERROR "MQTT connection failed";;
           ret false)
        (fun e => log ERROR "error while connecting to MQTT";; ret false)
  end.

(** [disconnect]; the clock reads [now]. *)
Definition disconnect (now : Z) : M MQTTClient unit :=
  modify (with_running false);;
  s ← get;
  (if bool_decide (client s ≠ None) && is_connected s then
     _publish_status "offline" now;;
     client_call T_loop_stop;;
     client_call T_disconnect
   else ret tt);;
  log INFO "MQTT disconnect done".

(** [_on_message]: the payload is decoded outside any [try]; a text that
    is not JSON is kept as it is: the [except] clause names
    [json.JSONDecodeError], anything else that [json.loads] raises goes
    on to the caller. *)
Definition _on_message (topic : string) (payload : list Byte.byte) : M MQTTClient unit :=
  payload_raw ← match bytes_decode payload with
                | Some text => ret text
                | None => raise UnicodeDecodeError
                end;
  payload ← try_except
              (match json_loads payload_raw with
               | Loaded v => ret v
               | LoadsRaises e => raise e
               end)
              (fun e => match e with
                        | JSONDecodeError => ret (PStr payload_raw)
                        | _ => raise e
                        end);
  log DEBUG "message received";;
  if PyStr.startswith topic "device/button/" then
    let parts := PyStr.split PyStr.slash topic in
    if (4 <=? length parts)%nat then
      route_id ← item (PyStr.item_m1 parts);
      stop_id ← item (PyStr.item_m2 parts);
      if String.eqb route_id (ROUTE_ID cfg) then
        log INFO ("호출 감지: 정류장 " +:+ stop_id +:+ " (노선 " +:+ route_id +:+ ")");;
        s ← get;
        match message_callbacks s !! "route_call" with
        | Some callback => emit (E_invoke callback [PStr stop_id; payload])
        | None => ret tt
        end
      else ret tt
    else ret tt
  else if String.eqb topic topic_system_health then
    s ← get;
    match message_callbacks s !! "system_health" with
    | Some callback => emit (E_invoke callback [payload])
    | None => ret tt
    end
  else ret tt.

(** [register_callback] *)
Definition register_callback (event_type : string) (callback : handler) : M MQTTClient unit :=
  modify (fun c => with_message_callbacks (<[event_type := callback]> (message_callbacks c)) c).

End Methods.
End BusMqtt.

(** ** [bus/main.py] *)

Module BusMain.
Import BusConfig.

Record BusDevice : Type := {
  gpio : BusGpio.GPIOController;
  mqtt : BusMqtt.MQTTClient;
  _running : bool
}.

Definition with_gpio (v : BusGpio.GPIOController) (w : BusDevice) : BusDevice :=
  {| gpio := v; mqtt := mqtt w; _running := _running w |}.
Definition with_mqtt (v : BusMqtt.MQTTClient) (w : BusDevice) : BusDevice :=
  {| gpio := gpio w; mqtt := v; _running := _running w |}.
Definition with_running (v : bool) (w : BusDevice) : BusDevice :=
  {| gpio := gpio w; mqtt := mqtt w; _running := v |}.

Definition on_mqtt {A} (c : M BusMqtt.MQTTClient A) : M BusDevice A := zoom mqtt with_mqtt c.
Definition on_gpio {A} (c : M BusGpio.GPIOController A) : M BusDevice A := zoom gpio with_gpio c.

Section Methods.
Variable GPIO_AVAILABLE : bool.
Variable cfg : Config.
Variable bytes_decode : list Byte.byte -> option string.
Variable json_loads : string -> loads_result.

(** [__init__] *)
Definition new : BusDevice :=
  {| gpio := BusGpio.new; mqtt := BusMqtt.new; _running := false |}.

(** [_on_route_call] *)
Definition _on_route_call (stop_id : string) (payload : pyval) : M BusDevice unit :=
  log INFO "stop call received";;
  on_gpio (BusGpio.blink_led 3000 300 "red");;
  on_gpio (BusGpio.beep 150 3).

(** [_on_system_health] *)
Definition _on_system_health (data : pyval) : M BusDevice unit :=
  log DEBUG "system health check".

(** [initialize]; the clock reads [now]. *)
Definition initialize (now : Z) : M BusDevice bool :=
  log INFO "bus device initialisation";;
  ok ← on_gpio (BusGpio.initialize GPIO_AVAILABLE cfg);
  if negb ok then log ERROR "GPIO initialisation failed";; ret false
  else
    ok ← on_mqtt (BusMqtt.initialize cfg now);
    if negb ok then log ERROR "MQTT initialisation failed";; ret false
    else
      on_mqtt (BusMqtt.register_callback "route_call" H_on_route_call);;
      on_mqtt (BusMqtt.register_callback "system_health" H_bus_on_system_health);;
      log INFO "initialised";;
      ret true.

(** [start]; [connect_ok] and [net] are those of [connect], the clock
    reads [now]. *)
Definition start (connect_ok : bool) (net : list (list net_cb)) (now : Z)
  : M BusDevice bool :=
  ok ← initialize now;
  if negb ok then ret false
  else
    ok ← on_mqtt (BusMqtt.connect cfg connect_ok net now);
    if negb ok then log ERROR "MQTT connection failed";; ret false
    else
      modify (with_running true);;
      emit (E_thread Th_location_worker);;
      on_gpio (BusGpio.set_led GPIO_AVAILABLE cfg false true);;
      log INFO "bus device running";;
      ret true.

(** Calling a registered callback with the arguments it was given. *)
Definition call_handler (h : handler) (args : list pyval) : M BusDevice unit :=
  match h, args with
  | H_on_route_call, [PStr stop_id; payload] => _on_route_call stop_id payload
  | H_bus_on_system_health, [data] => _on_system_health data
  | _, _ => raise TypeError
  end.

(** An inbound message: [_on_message] runs in the network thread and the
    callback it invokes runs inside it. *)
Definition message_arrives (topic : string) (payload : list Byte.byte) : M BusDevice unit :=
  '(_, calls) ← listen (on_mqtt (BusMqtt._on_message cfg bytes_decode json_loads
                                     topic payload));
  for_each (invoked calls) (fun '(h, args) => call_handler h args).

(** [shutdown]; the clock reads [now]. *)
Definition shutdown (now : Z) : M BusDevice unit :=
  log INFO "bus device shutting down";;
  modify (with_running false);;
  on_mqtt (BusMqtt.disconnect cfg now);;
  on_gpio (BusGpio.cleanup GPIO_AVAILABLE);;
  on_gpio (BusGpio.set_led GPIO_AVAILABLE cfg false false);;
  log INFO "shut down".

End Methods.
End BusMain.

(** * Executions *)

(** ** Executions of the session of the stop *)

Module StopSession.
Import StopConfig StopMqtt.

(** The calls made on the MQTT client of the stop: by the main program,
    by the network thread of paho-mqtt, and the run of the heartbeat
    thread with what the other threads call while it sleeps. *)
Inductive call : Type :=
| C_initialize (now : Z)
| C_connect (connect_ok : bool) (net : list (list net_cb)) (now : Z)
| C_disconnect (now : Z)
| C_on_connect (rc : Z)
| C_on_disconnect (rc : Z)
| C_on_message (topic : string) (payload : list Byte.byte)
| C_register_callback (event_type : string) (callback : handler)
| C_publish_button_press (route_id route_name color : string)
    (outcome : publish_outcome) (now : Z)
| C_heartbeat_worker (fuel : nat) (others : list (Z * call)) (now : Z).

Section Run.
Variable cfg : Config.
Variable bytes_decode : list Byte.byte -> option string.
Variable json_loads : string -> loads_result.

Fixpoint run (c : call) : M MQTTClient unit :=
  match c with
  | C_initialize now => initialize cfg now;; ret tt
  | C_connect connect_ok net now => connect cfg connect_ok net now;; ret tt
  | C_disconnect now => disconnect cfg now
  | C_on_connect rc => _on_connect cfg rc
  | C_on_disconnect rc => _on_disconnect rc
  | C_on_message topic payload => _on_message cfg bytes_decode json_loads topic payload
  | C_register_callback event_type callback => register_callback event_type callback
  | C_publish_button_press route_id route_name color outcome now =>
      publish_button_press cfg route_id route_name color outcome now;; ret tt
  | C_heartbeat_worker fuel others now =>
      heartbeat_worker cfg fuel (map (fun p => let '(t, c') := p in (t, run c')) others) now
  end.

(** The calls of a list one after the other, each from the state the
    one before left: the final state and the whole trace. *)
Fixpoint exec (cs : list call) (s : MQTTClient) : MQTTClient * list (MQTTClient * event) :=
  match cs with
  | [] => (s, [])
  | c :: rest =>
      let o := run c s in
      let '(s', tr) := exec rest (state_of o) in
      (s', trace_of o ++ tr)
  end.

(** The states of the client before and after each call. *)
Fixpoint history (cs : list call) (s : MQTTClient) : list MQTTClient :=
  match cs with
  | [] => [s]
  | c :: rest => s :: history rest (state_of (run c s))
  end.

Definition ever_connected (cs : list call) (s : MQTTClient) : bool :=
  existsb is_connected (history cs s).

End Run.

(** A call made when the client was [s] is not a publish, or
    [is_connected] was true. *)
Definition publish_guard (s : MQTTClient) (e : event) : Prop :=
  is_publish e = true -> is_connected s = true.

(** Every publish of a trace was made while [is_connected] was true. *)
Definition publishes_while_connected (tr : list (MQTTClient * event)) : Prop :=
  Forall (fun p => publish_guard p.1 p.2) tr.

End StopSession.

(** ** Executions of the session of the vehicle *)

Module BusSession.
Import BusConfig BusMqtt.

Inductive call : Type :=
| C_initialize (now : Z)
| C_connect (connect_ok : bool) (net : list (list net_cb)) (now : Z)
| C_disconnect (now : Z)
| C_on_connect (rc : Z)
| C_on_disconnect (rc : Z)
| C_on_message (topic : string) (payload : list Byte.byte)
| C_register_callback (event_type : string) (callback : handler)
| C_publish_location (latitude longitude speed heading : pyval) (now : Z)
| C_heartbeat_worker (fuel : nat) (others : list (Z * call)) (now : Z).

Section Run.
Variable cfg : Config.
Variable bytes_decode : list Byte.byte -> option string.
Variable json_loads : string -> loads_result.

Fixpoint run (c : call) : M MQTTClient unit :=
  match c with
  | C_initialize now => initialize cfg now;; ret tt
  | C_connect connect_ok net now => connect cfg connect_ok net now;; ret tt
  | C_disconnect now => disconnect cfg now
  | C_on_connect rc => _on_connect rc
  | C_on_disconnect rc => _on_disconnect rc
  | C_on_message topic payload => _on_message cfg bytes_decode json_loads topic payload
  | C_register_callback event_type callback => register_callback event_type callback
  | C_publish_location latitude longitude speed heading now =>
      publish_location cfg latitude longitude speed heading now
  | C_heartbeat_worker fuel others now =>
      heartbeat_worker cfg fuel (map (fun p => let '(t, c') := p in (t, run c')) others) now
  end.

Fixpoint exec (cs : list call) (s : MQTTClient) : MQTTClient * list (MQTTClient * event) :=
  match cs with
  | [] => (s, [])
  | c :: rest =>
      let o := run c s in
      let '(s', tr) := exec rest (state_of o) in
      (s', trace_of o ++ tr)
  end.

Fixpoint history (cs : list call) (s : MQTTClient) : list MQTTClient :=
  match cs with
  | [] => [s]
  | c :: rest => s :: history rest (state_of (run c s))
  end.

Definition ever_connected (cs : list call) (s : MQTTClient) : bool :=
  existsb is_connected (history cs s).

End Run.

Definition publish_guard (s : MQTTClient) (e : event) : Prop :=
  is_publish e = true -> is_connected s = true.

Definition publishes_while_connected (tr : list (MQTTClient * event)) : Prop :=
  Forall (fun p => publish_guard p.1 p.2) tr.

End BusSession.

(** ** Executions of the GPIO controller of the stop *)

Module StopGpioRuns.
Import StopConfig StopGpio.

Inductive call : Type :=
| G_initialize
| G_cleanup
| G_button_callback (route_id : string) (channel : Z) (current_time : Z)
| G_register_button_callback (route_id : string) (callback : handler)
| G_set_led (route_id : string) (state : bool)
| G_toggle_led (route_id : string)
| G_blink_worker (fuel : nat) (route_id : string) (duration interval : pyval) (now : Z)
| G_blink_led (route_id : string) (duration interval : pyval)
| G_test_all_leds (duration : Z).

Section Run.
Variable GPIO_AVAILABLE : bool.
Variable cfg : Config.

Definition run (c : call) : M GPIOController unit :=
  match c with
  | G_initialize => initialize GPIO_AVAILABLE cfg;; ret tt
  | G_cleanup => cleanup GPIO_AVAILABLE
  | G_button_callback route_id channel current_time =>
      _button_callback GPIO_AVAILABLE cfg route_id channel current_time
  | G_register_button_callback route_id callback =>
      register_button_callback route_id callback
  | G_set_led route_id state => set_led GPIO_AVAILABLE route_id state;; ret tt
  | G_toggle_led route_id => toggle_led GPIO_AVAILABLE route_id;; ret tt
  | G_blink_worker fuel route_id duration interval now =>
      blink_worker GPIO_AVAILABLE fuel route_id duration interval now
  | G_blink_led route_id duration interval => blink_led route_id duration interval
  | G_test_all_leds duration => test_all_leds GPIO_AVAILABLE duration
  end.

(** The controller after the calls of [cs], made one after the other on a
    new controller. *)
Definition after (cs : list call) : GPIOController :=
  foldl (fun g c => state_of (run c g)) (new cfg) cs.

End Run.
End StopGpioRuns.

(** * Observations on traces *)

(** The timestamp field of a published message. *)
Definition timestamp_of (payload : pyval) : option Z :=
  match payload with
  | PDict items =>
      match dict_lookup "timestamp" items with
      | Some (PIsoTime t) => Some t
      | _ => None
      end
  | _ => None
  end.

(** The times at which the publishes on [topic] were made. *)
Definition publish_times (topic : string) (evs : list event) : list Z :=
  omap (fun e => match e with
                 | E_transport (T_publish t p _ _) =>
                     if String.eqb t topic then timestamp_of p else None
                 | _ => None
                 end) evs.

(** The calls made by a [set_led] of the stop that succeeds. *)
Definition set_led_calls (GPIO_AVAILABLE : bool) (rc : route_config) (state : bool)
  : list event :=
  if negb GPIO_AVAILABLE then
    [E_log DEBUG (if state then "Mock LED ON" else "Mock LED OFF")]
  else
    [E_gpio_output (led_pin rc) state; E_log INFO (if state then "LED on" else "LED off")].

(** One period of a blink on the stop: on, wait, off, wait. *)
Definition blink_period (GPIO_AVAILABLE : bool) (rc : route_config) (interval : Z)
  : list event :=
  set_led_calls GPIO_AVAILABLE rc true ++ [E_sleep interval]
  ++ set_led_calls GPIO_AVAILABLE rc false ++ [E_sleep interval].

Fixpoint blink_periods (n : nat) (GPIO_AVAILABLE : bool) (rc : route_config) (interval : Z)
  : list event :=
  match n with
  | O => []
  | S n' => blink_period GPIO_AVAILABLE rc interval
            ++ blink_periods n' GPIO_AVAILABLE rc interval
  end.

(** The number of periods of length [2 * interval] that start before
    [duration] has elapsed. *)
Definition periods_within (duration interval : Z) : nat :=
  if duration <=? 0 then O
  else Z.to_nat ((duration + 2 * interval - 1) / (2 * interval)).

(** * Sample configurations and states *)

Module Samples.

(** The stop with its default configuration, initialised when the clock
    reads -100 ms and connected by an acknowledgement that arrives during
    the first poll of [connect], so that it is connected at time 0. *)
Definition stop_calls_to_connected : list StopSession.call :=
  [StopSession.C_initialize (-100);
   StopSession.C_connect true [[CB_on_connect 0]] (-100)].

Definition stop_initialised : StopMqtt.MQTTClient :=
  (StopSession.exec StopConfig.defaults UTF8.decode JSON.loads
     [StopSession.C_initialize (-100)] StopMqtt.new).1.

Definition stop_connected : StopMqtt.MQTTClient :=
  (StopSession.exec StopConfig.defaults UTF8.decode JSON.loads
     stop_calls_to_connected StopMqtt.new).1.

(** The same for the vehicle. *)
Definition bus_calls_to_connected : list BusSession.call :=
  [BusSession.C_initialize (-100);
   BusSession.C_connect true [[CB_on_connect 0]] (-100)].

Definition bus_initialised : BusMqtt.MQTTClient :=
  (BusSession.exec BusConfig.defaults UTF8.decode JSON.loads
     [BusSession.C_initialize (-100)] BusMqtt.new).1.

Definition bus_connected : BusMqtt.MQTTClient :=
  (BusSession.exec BusConfig.defaults UTF8.decode JSON.loads
     bus_calls_to_connected BusMqtt.new).1.

(** A session that was connected and then lost its connection. *)
Definition stop_calls_to_dropped : list StopSession.call :=
  stop_calls_to_connected ++ [StopSession.C_on_disconnect 1].
Definition bus_calls_to_dropped : list BusSession.call :=
  bus_calls_to_connected ++ [BusSession.C_on_disconnect 1].

(** The system of the stop after [initialize], on a development machine
    (no RPi.GPIO) and on a Raspberry Pi. *)
Definition stop_system (GPIO_AVAILABLE : bool) : StopMain.BusStopSystem :=
  state_of (StopMain.initialize GPIO_AVAILABLE StopConfig.defaults 0
              (StopMain.new StopConfig.defaults)).

(** The vehicle once [start] has returned: connected, the green LED lit. *)
Definition bus_started : BusMain.BusDevice :=
  state_of (BusMain.start false BusConfig.defaults true [[CB_on_connect 0]] (-100)
              BusMain.new).

Definition bus_gpio_ready : BusGpio.GPIOController := BusMain.gpio bus_started.

Definition route_1 : route_config :=
  {| name := Some "1번"; color := Some "#FF0000"; button_pin := 18; led_pin := 19 |}.

(** The system of the stop once [start] has returned [True], on a
    development machine: initialised when the clock reads -100 ms and
    connected at time 0. *)
Definition stop_started (cfg : StopConfig.Config) : StopMain.BusStopSystem :=
  state_of (StopMain.start false cfg true [[CB_on_connect 0]] (-100) (StopMain.new cfg)).

(** A stop started with ROUTES_CONFIG set to
    [{"1": {"name": "1번", "button_pin": 18, "led_pin": 19}}]: the one
    route has pins and a name, and no colour. *)
Definition route_without_colour : route_config :=
  {| name := Some "1번"; color := None; button_pin := 18; led_pin := 19 |}.

Definition config_without_colour : StopConfig.Config := {|
  StopConfig.MQTT_BROKER_HOST := "localhost";
  StopConfig.MQTT_BROKER_PORT := 1883;
  StopConfig.MQTT_USERNAME := EmptyString;
  StopConfig.MQTT_PASSWORD := EmptyString;
  StopConfig.MQTT_KEEPALIVE := 60;
  StopConfig.STOP_ID := "STOP001";
  StopConfig.STOP_NAME := "시청앞정류장";
  StopConfig.ROUTES_CONFIG := [("1", route_without_colour)];
  StopConfig.GPIO_MODE := "BCM";
  StopConfig.DEBOUNCE_TIME := 300;
  StopConfig.HEARTBEAT_INTERVAL := 30000
|}.

End Samples.

(** * The routing rules of the vehicle *)

(** The routing of section 4.3 of the specification, for the topics of
    the vehicle, written as a function of the configured route id and of
    the topic; [BusRouter.dispatch] is what the bridge does with a routed
    event.  They are compared with [BusMqtt._on_message] below. *)
Module BusRouter.

Inductive routed_event : Type :=
| ButtonPress (stopId routeId : string)
| HealthCheck
| Unrecognized.

Definition route (configured_route_id : string) (topic : string) : routed_event :=
  if PyStr.startswith topic "device/button/" then
    let parts := PyStr.split PyStr.slash topic in
    if (4 <=? length parts)%nat then
      match PyStr.item_m1 parts, PyStr.item_m2 parts with
      | Some routeId, Some stopId =>
          if String.eqb routeId configured_route_id then ButtonPress stopId routeId
          else Unrecognized
      | _, _ => Unrecognized
      end
    else Unrecognized
  else if String.eqb topic "system/health" then HealthCheck
  else Unrecognized.

Definition dispatch (s : BusMqtt.MQTTClient) (ev : routed_event) (decodedPayload : pyval)
  : list (BusMqtt.MQTTClient * event) :=
  match ev with
  | ButtonPress stopId routeId =>
      (s, E_log INFO ("호출 감지: 정류장 " +:+ stopId +:+ " (노선 " +:+ routeId +:+ ")"))
      :: match BusMqtt.message_callbacks s !! "route_call" with
         | Some callback => [(s, E_invoke callback [PStr stopId; decodedPayload])]
         | None => []
         end
  | HealthCheck =>
      match BusMqtt.message_callbacks s !! "system_health" with
      | Some callback => [(s, E_invoke callback [decodedPayload])]
      | None => []
      end
  | Unrecognized => []
  end.

End BusRouter.

(** * Invariants *)

(** [c] keeps the property [P] of the object, however it ends. *)
Definition preserves {St A} (P : St -> Prop) (c : M St A) : Prop :=
  forall s, P s -> P (state_of (c s)).

(** Every call that [c] makes satisfies [Q] together with the object as
    it was when the call was made. *)
Definition traces {St A} (Q : St -> event -> Prop) (c : M St A) : Prop :=
  forall s, Forall (fun p => Q p.1 p.2) (trace_of (c s)).

(** The controller of the stop holds the routes [R], and [led_states] has
    keys among the routes of [R] only. *)
Definition led_keys_configured (R : list (string * route_config))
  (g : StopGpio.GPIOController) : Prop :=
  StopGpio.routes_config g = R
  /\ forall r, StopConfig.route_lookup r R = None -> StopGpio.led_states g !! r = None.

(** * Further observations *)

(** No [/] in a string: it is a single segment of a topic. *)
Fixpoint slash_free (s : string) : bool :=
  match s with
  | EmptyString => true
  | String c rest => negb (Ascii.eqb c PyStr.slash) && slash_free rest
  end.

(** The time a list of calls spends in [time.sleep]. *)
Fixpoint total_sleep (evs : list event) : Z :=
  match evs with
  | [] => 0
  | E_sleep d :: rest => d + total_sleep rest
  | _ :: rest => total_sleep rest
  end.

(** The calls made on the paho-mqtt client in a list of calls. *)
Definition transport_calls (evs : list event) : list transport_call :=
  omap (fun e => match e with E_transport c => Some c | _ => None end) evs.

(** How many times [pin] is driven to [high] in a list of calls. *)
Definition output_count (pin : Z) (high : bool) (evs : list event) : nat :=
  length (List.filter (fun e => match e with
                           | E_gpio_output p h => (p =? pin) && Bool.eqb h high
                           | _ => false
                           end) evs).

(** [start], [start + step], ..., [n] times. *)
Fixpoint multiples (n : nat) (start step : Z) : list Z :=
  match n with
  | O => []
  | S n' => start :: multiples n' (start + step) step
  end.

(** The number of multiples of [step] in [0, horizon). *)
Definition multiples_below (horizon step : Z) : nat :=
  Z.to_nat ((horizon + step - 1) / step).

(** The second route shares no pin with the first. *)
Definition no_shared_pin (a b : string * route_config) : Prop :=
  button_pin b.2 <> button_pin a.2 /\ button_pin b.2 <> led_pin a.2
  /\ led_pin b.2 <> button_pin a.2 /\ led_pin b.2 <> led_pin a.2.

(** No callback of the network thread is an accepted connection. *)
Definition no_ack (net : list (list net_cb)) : Prop :=
  Forall (Forall (fun cb => cb <> CB_on_connect 0)) net.

(** What one turn of the loop of [initialize] of the stop does to the
    controller. *)
Definition init_route (p : string * route_config) (g : StopGpio.GPIOController)
  : StopGpio.GPIOController :=
  StopGpio.with_last_button_press (<[p.1 := 0]> (StopGpio.last_button_press g))
    (StopGpio.with_led_states (<[p.1 := false]> (StopGpio.led_states g))
       (StopGpio.with_button_states (<[p.1 := false]> (StopGpio.button_states g)) g)).

(** A call on the GPIO controller of the stop other than [initialize]. *)
Definition not_initialize (c : StopGpioRuns.call) : bool :=
  match c with
  | StopGpioRuns.G_initialize => false
  | _ => true
  end.

(** The button of [route_id] is recorded as pressed. *)
Definition pressed (route_id : string) (g : StopGpio.GPIOController) : Prop :=
  StopGpio.button_states g !! route_id = Some true.

(** The number stored under [key] in a published message. *)
Definition number_field (key : string) (payload : pyval) : option Z :=
  match payload with
  | PDict items =>
      match dict_lookup key items with
      | Some (PNum n) => Some n
      | _ => None
      end
  | _ => None
  end.

(** The numbers published under [key] on [topic]. *)
Definition published_numbers (topic key : string) (evs : list event) : list Z :=
  omap (fun e => match e with
                 | E_transport (T_publish t p _ _) =>
                     if String.eqb t topic then number_field key p else None
                 | _ => None
                 end) evs.

(** What a callback of the network thread leaves alone. *)
Definition quiet (s : StopMqtt.MQTTClient)
  (o : res unit * StopMqtt.MQTTClient * list (StopMqtt.MQTTClient * event))
  : Prop :=
  result_of o = Ok tt
  /\ StopMqtt.client (state_of o) = StopMqtt.client s
  /\ StopMqtt._running (state_of o) = StopMqtt._running s
  /\ StopMqtt.heartbeat_thread (state_of o) = StopMqtt.heartbeat_thread s
  /\ publishes (events_of o) = []
  /\ spawned (events_of o) = []
  /\ total_sleep (events_of o) = 0.


(** The calls made on RPi.GPIO in a list of calls. *)
Definition is_gpio_call (e : event) : bool :=
  match e with
  | E_gpio_setmode _ | E_gpio_setup_in _ | E_gpio_setup_out _
  | E_gpio_add_event_detect _ _ _ | E_gpio_remove_event_detect _
  | E_gpio_cleanup | E_gpio_output _ _ => true
  | _ => false
  end.

Definition gpio_calls (evs : list event) : list event := List.filter is_gpio_call evs.

(** * Properties *)

Ltac run_m :=
  unfold mbind, mret, M_bind, M_ret, bind, ret, get, put, modify, sleep_for, emit, raise, log,
    out_of_fuel, try_except, subscript, item, result_of, state_of, trace_of, events_of in *.

(** ** The method monad *)

Section PreservesFacts.
Context {St : Type} (P : St -> Prop).

Lemma preserves_ret {A} (a : A) : preserves P (mret a).
Proof. intros s Hs. exact Hs. Qed.

Lemma preserves_emit (e : event) : preserves P (emit e).
Proof. intros s Hs. exact Hs. Qed.

Lemma preserves_log (l : level) (what : string) : preserves P (log l what).
Proof. intros s Hs. exact Hs. Qed.

Lemma preserves_raise {A} (e : exn) : preserves P (raise (A := A) e).
Proof. intros s Hs. exact Hs. Qed.

Lemma preserves_out_of_fuel {A} : preserves P (out_of_fuel (A := A)).
Proof. intros s Hs. exact Hs. Qed.

Lemma preserves_modify (f : St -> St) : (forall s, P s -> P (f s)) -> preserves P (modify f).
Proof. intros Hf s Hs. apply Hf, Hs. Qed.

Lemma preserves_bind {A B} (c : M St A) (k : A -> M St B) :
  preserves P c -> (forall a, preserves P (k a)) -> preserves P (c ≫= k).
Proof.
  intros Hc Hk s Hs. specialize (Hc s Hs). run_m.
  destruct (c s) as [[[a | e |] s1] tr1]; simpl in *; try assumption.
  specialize (Hk a s1 Hc). destruct (k a s1) as [[r s2] tr2]. exact Hk.
Qed.

Lemma preserves_get_bind {B} (k : St -> M St B) :
  (forall a, P a -> preserves P (k a)) -> preserves P (get ≫= k).
Proof.
  intros Hk s Hs. specialize (Hk s Hs s Hs). run_m.
  destruct (k s s) as [[r s2] tr2]. exact Hk.
Qed.

Lemma preserves_try_except {A} (c : M St A) (h : exn -> M St A) :
  preserves P c -> (forall e, preserves P (h e)) -> preserves P (try_except c h).
Proof.
  intros Hc Hh s Hs. specialize (Hc s Hs). run_m.
  destruct (c s) as [[[a | e |] s1] tr1]; simpl in *; try assumption.
  specialize (Hh e s1 Hc). destruct (h e s1) as [[r s2] tr2]. exact Hh.
Qed.

Lemma preserves_for_each {A} (l : list A) (body : A -> M St unit) :
  (forall x, x ∈ l -> preserves P (body x)) -> preserves P (for_each l body).
Proof.
  induction l as [| x l IH]; intros Hbody; simpl.
  - apply preserves_ret.
  - apply preserves_bind.
    + apply Hbody. left.
    + intros _. apply IH. intros y Hy. apply Hbody. right. exact Hy.
Qed.

Lemma preserves_time_sleep (v : pyval) : preserves P (time_sleep v).
Proof.
  unfold time_sleep. destruct (as_number v) as [d |]; [| apply preserves_raise].
  destruct (d <? 0); [apply preserves_raise |].
  apply preserves_bind; [apply preserves_emit | intros _; apply preserves_ret].
Qed.

Lemma preserves_subscript {A} (key : string) (o : option A) : preserves P (subscript key o).
Proof. destruct o; [apply preserves_ret | apply preserves_raise]. Qed.

Lemma preserves_sleep_for (d : Z) : preserves P (sleep_for d).
Proof.
  unfold sleep_for. destruct (d <? 0); [apply preserves_raise | apply preserves_emit].
Qed.

End PreservesFacts.

Create HintDb keeps.

Ltac pres :=
  repeat first
    [ solve [auto 1 with keeps nocore]
    | apply preserves_ret | apply preserves_emit | apply preserves_log
    | apply preserves_raise | apply preserves_out_of_fuel | apply preserves_time_sleep
    | apply preserves_sleep_for | apply preserves_subscript
    | apply preserves_try_except; [| intros ?]
    | apply preserves_get_bind; intros ? ?
    | apply preserves_bind; [| intros ?] ].

Section TracesFacts.
Context {St : Type} (Q : St -> event -> Prop).

Lemma traces_ret {A} (a : A) : traces Q (mret a).
Proof. intros s. constructor. Qed.

Lemma traces_raise {A} (e : exn) : traces Q (raise (A := A) e).
Proof. intros s. constructor. Qed.

Lemma traces_out_of_fuel {A} : traces Q (out_of_fuel (A := A)).
Proof. intros s. constructor. Qed.

Lemma traces_modify (f : St -> St) : traces Q (modify f).
Proof. intros s. constructor. Qed.

Lemma traces_get : traces Q get.
Proof. intros s. constructor. Qed.

Lemma traces_item {A} (o : option A) : traces Q (item o).
Proof. intros s. destruct o; constructor. Qed.

Lemma traces_subscript {A} (key : string) (o : option A) : traces Q (subscript key o).
Proof. intros s. destruct o; constructor. Qed.

Lemma traces_emit (e : event) : (forall s, Q s e) -> traces Q (emit e).
Proof. intros He s. repeat constructor. apply He. Qed.

Lemma traces_sleep_for (d : Z) : (forall s, Q s (E_sleep d)) -> traces Q (sleep_for d).
Proof.
  intros He. unfold sleep_for. destruct (d <? 0); [apply traces_raise | apply traces_emit, He].
Qed.

Lemma traces_bind_ok {A B} (R : A -> Prop) (c : M St A) (k : A -> M St B) :
  traces Q c ->
  (forall s a, result_of (c s) = Ok a -> R a) ->
  (forall a, R a -> traces Q (k a)) ->
  traces Q (c ≫= k).
Proof.
  intros Hc HR Hk s. specialize (Hc s). specialize (HR s). run_m.
  destruct (c s) as [[[a | e |] s1] tr1]; simpl in *; try assumption.
  specialize (Hk a (HR a eq_refl) s1). destruct (k a s1) as [[r s2] tr2]. simpl in *.
  apply Forall_app. split; assumption.
Qed.

Lemma traces_bind {A B} (c : M St A) (k : A -> M St B) :
  traces Q c -> (forall a, traces Q (k a)) -> traces Q (c ≫= k).
Proof.
  intros Hc Hk. apply (traces_bind_ok (fun _ => True)); auto.
Qed.

Lemma traces_get_bind {B} (k : St -> M St B) :
  (forall s, Forall (fun p => Q p.1 p.2) (trace_of (k s s))) -> traces Q (get ≫= k).
Proof.
  intros Hk s. specialize (Hk s). run_m. destruct (k s s) as [[r s2] tr2]. exact Hk.
Qed.

Lemma trace_bind_at {A B} (c : M St A) (k : A -> M St B) (s : St) :
  Forall (fun p => Q p.1 p.2) (trace_of (c s)) ->
  (forall a, traces Q (k a)) ->
  Forall (fun p => Q p.1 p.2) (trace_of ((c ≫= k) s)).
Proof.
  intros Hc Hk. run_m.
  destruct (c s) as [[[a | e |] s1] tr1]; simpl in *; try assumption.
  specialize (Hk a s1). destruct (k a s1) as [[r s2] tr2]. simpl in *.
  apply Forall_app. split; assumption.
Qed.

Lemma traces_try_except {A} (c : M St A) (h : exn -> M St A) :
  traces Q c -> (forall e, traces Q (h e)) -> traces Q (try_except c h).
Proof.
  intros Hc Hh s. specialize (Hc s). run_m.
  destruct (c s) as [[[a | e |] s1] tr1]; simpl in *; try assumption.
  specialize (Hh e s1). destruct (h e s1) as [[r s2] tr2]. simpl in *.
  apply Forall_app. split; assumption.
Qed.

Lemma traces_for_each {A} (l : list A) (body : A -> M St unit) :
  (forall x, traces Q (body x)) -> traces Q (for_each l body).
Proof.
  intros Hbody. induction l as [| x l IH]; simpl.
  - apply traces_ret.
  - apply traces_bind; [apply Hbody | intros _; exact IH].
Qed.
End TracesFacts.

Create HintDb safe.

Ltac trc :=
  repeat first
    [ solve [auto 1 with safe nocore]
    | apply traces_ret | apply traces_get | apply traces_item | apply traces_subscript
    | apply traces_raise | apply traces_out_of_fuel | apply traces_modify
    | apply traces_emit; intros ? ?; discriminate
    | apply traces_sleep_for; intros ? ?; discriminate
    | apply traces_try_except; [| intros ?]
    | apply traces_bind; [| intros ?] ].


(** ** The GPIO controller of the stop *)

Section StopGpioFacts.
Import StopConfig StopGpio StopGpioRuns.
Variable GPIO_AVAILABLE : bool.
Variable cfg : Config.

Lemma route_lookup_elem (R : list (string * route_config)) (r : string) (rc : route_config) :
  (r, rc) ∈ R -> route_lookup r R <> None.
Proof.
  induction R as [| [k v] R IH]; intros Hin.
  - inversion Hin.
  - simpl. destruct (String.eqb_spec k r) as [-> | Hne]; [discriminate |].
    apply IH. inversion Hin; subst; [congruence | assumption].
Qed.

Lemma led_keys_set (R : list (string * route_config)) (route_id : string) (b : bool) :
  route_lookup route_id R <> None ->
  forall g, led_keys_configured R g ->
            led_keys_configured R (with_led_states (<[route_id := b]> (led_states g)) g).
Proof.
  intros Hcfg g [HR Hkeys]. split; [exact HR |].
  intros r Hr. simpl. rewrite lookup_insert_ne; [apply Hkeys, Hr | congruence].
Qed.

Lemma set_led_keeps_keys (R : list (string * route_config)) (route_id : string) (b : bool) :
  preserves (led_keys_configured R) (set_led GPIO_AVAILABLE route_id b).
Proof.
  unfold set_led. apply preserves_try_except; [| intros e; pres].
  apply preserves_get_bind. intros g [HR Hkeys].
  destruct (route_lookup route_id (routes_config g)) as [rc |] eqn:Hrc; [| pres].
  rewrite HR in Hrc.
  destruct GPIO_AVAILABLE; simpl; pres;
    apply preserves_modify, led_keys_set; congruence.
Qed.

#[local] Hint Resolve set_led_keeps_keys : keeps.

Lemma initialize_keeps_keys :
  preserves (led_keys_configured (ROUTES_CONFIG cfg)) (initialize GPIO_AVAILABLE cfg).
Proof.
  unfold initialize. apply preserves_try_except; [| intros e; pres].
  destruct GPIO_AVAILABLE; simpl; [| pres].
  apply preserves_bind; [pres | intros _].
  apply preserves_bind; [pres | intros _].
  apply preserves_get_bind. intros g [HR Hkeys].
  apply preserves_bind.
  - apply preserves_for_each. intros [route_id rc] Hin. rewrite HR in Hin.
    pres.
    + apply preserves_modify. intros s [Hs1 Hs2]. split; assumption.
    + apply preserves_modify, led_keys_set. eapply route_lookup_elem, Hin.
    + apply preserves_modify. intros s [Hs1 Hs2]. split; assumption.
  - intros _. pres. apply preserves_modify. intros s [Hs1 Hs2]. split; assumption.
Qed.

Lemma cleanup_keeps_keys (R : list (string * route_config)) :
  preserves (led_keys_configured R) (cleanup GPIO_AVAILABLE).
Proof.
  unfold cleanup. apply preserves_get_bind. intros g Hg.
  destruct (negb GPIO_AVAILABLE || negb (_initialized g)); [pres |].
  apply preserves_try_except; [| intros e; pres].
  apply preserves_bind; [| intros _; pres].
  - apply preserves_for_each. intros [route_id rc] _. pres.
  - apply preserves_for_each. intros [route_id rc] _. pres.
Qed.

Lemma button_callback_keeps_keys (R : list (string * route_config))
  (route_id : string) (channel now : Z) :
  preserves (led_keys_configured R) (_button_callback GPIO_AVAILABLE cfg route_id channel now).
Proof.
  unfold _button_callback. apply preserves_try_except; [| intros e; pres].
  apply preserves_get_bind. intros g Hg.
  destruct (_ <? _); [pres |].
  apply preserves_bind;
    [apply preserves_modify; intros s [Hs1 Hs2]; split; assumption | intros _].
  apply preserves_bind;
    [apply preserves_modify; intros s [Hs1 Hs2]; split; assumption | intros _].
  apply preserves_get_bind. intros g' Hg'.
  apply preserves_bind.
  { unfold subscript. destruct (route_lookup _ _); pres. }
  intros rc. apply preserves_bind; [pres | intros _].
  apply preserves_bind; [pres | intros _].
  apply preserves_bind; [pres | intros _].
  apply preserves_get_bind. intros g'' Hg''.
  destruct (button_callbacks g'' !! route_id); pres.
Qed.

Lemma blink_loop_keeps_keys (R : list (string * route_config)) (fuel : nat)
  (route_id : string) (duration interval : pyval) (start_time now : Z) :
  preserves (led_keys_configured R)
    (blink_loop GPIO_AVAILABLE fuel route_id duration interval start_time now).
Proof.
  revert now. induction fuel as [| fuel IH]; intros now; simpl; [pres |].
  destruct (as_number duration) as [d |]; [| pres].
  destruct (_ <? _); [| pres].
  pres.
Qed.

#[local] Hint Resolve initialize_keeps_keys cleanup_keeps_keys button_callback_keeps_keys
  blink_loop_keeps_keys : keeps.

Lemma run_keeps_keys (c : call) :
  preserves (led_keys_configured (ROUTES_CONFIG cfg)) (run GPIO_AVAILABLE cfg c).
Proof.
  destruct c; simpl; try solve [pres].
  - unfold register_button_callback. pres.
    apply preserves_modify. intros s [Hs1 Hs2]. split; assumption.
  - unfold test_all_leds. pres. apply preserves_for_each. intros [route_id rc] _.
    pres.
Qed.

Lemma after_keeps_keys (cs : list call) :
  led_keys_configured (ROUTES_CONFIG cfg) (after GPIO_AVAILABLE cfg cs).
Proof.
  unfold after.
  assert (Hnew : led_keys_configured (ROUTES_CONFIG cfg) (new cfg)).
  { split; [reflexivity | intros r _; apply lookup_empty]. }
  revert Hnew. generalize (new cfg) as g.
  induction cs as [| c cs IH]; intros g Hg; simpl; [exact Hg |].
  apply IH, run_keeps_keys, Hg.
Qed.

(** C10.  On the controller reached by any calls from a new one, for a
    route id that is not a key of the configured routes and either
    state, [set_led] returns [False], leaves every attribute of the
    controller as it was (it only logs an error), and [get_led_state]
    then returns [False]. *)
Theorem set_led_unknown_route (cs : list call) (route_id : string) (state : bool) :
  route_lookup route_id (ROUTES_CONFIG cfg) = None ->
  let g := after GPIO_AVAILABLE cfg cs in
  let o := set_led GPIO_AVAILABLE route_id state g in
  result_of o = Ok false
  /\ state_of o = g
  /\ events_of o = [E_log ERROR "unknown route"]
  /\ get_led_state (state_of o) route_id = false.
Proof.
  intros Hroute g o. subst o.
  destruct (after_keeps_keys cs) as [HR Hkeys]. fold g in HR, Hkeys.
  unfold set_led. run_m. rewrite HR, Hroute. simpl.
  repeat split. unfold get_led_state. rewrite (Hkeys _ Hroute). reflexivity.
Qed.

(** C5.  [_button_callback] at time [now] goes past its debounce test
    (it leaves a trace) exactly when [now - last_button_press[route_id]]
    is at least [DEBOUNCE_TIME], a missing entry counting as 0; it then
    records [now] as the time of the last press and the button as
    pressed.  Otherwise it returns with the controller as it was and
    without any call. *)
Theorem button_callback_debounce (g : GPIOController) (route_id : string) (channel now : Z) :
  let last := default 0 (last_button_press g !! route_id) in
  let o := _button_callback GPIO_AVAILABLE cfg route_id channel now g in
  (trace_of o <> [] <-> DEBOUNCE_TIME cfg <= now - last)
  /\ (DEBOUNCE_TIME cfg <= now - last ->
      last_button_press (state_of o) !! route_id = Some now
      /\ button_states (state_of o) !! route_id = Some true)
  /\ (now - last < DEBOUNCE_TIME cfg -> o = (Ok tt, g, [])).
Proof.
  intros last o. subst o last.
  unfold _button_callback, set_led. run_m.
  destruct (Z.ltb_spec (now - default 0 (last_button_press g !! route_id))
              (DEBOUNCE_TIME cfg)) as [Hlt | Hge].
  - simpl. split; [split; [congruence | lia] | split; [lia | reflexivity]].
  - simpl.
    destruct (route_lookup route_id (routes_config g)) as [rc|] eqn:Hrc; simpl.
    + destruct (name rc) as [route_name |]; simpl;
        [rewrite Hrc; destruct GPIO_AVAILABLE; simpl;
         destruct (button_callbacks g !! route_id); simpl |];
        (split; [split; [intros _; lia | intros _; discriminate]
                | split; [intros _; split; apply lookup_insert_eq | lia]]).
    + split; [split; [intros _; lia | intros _; discriminate]
                | split; [intros _; split; apply lookup_insert_eq | lia]].
Qed.

Lemma set_led_configured (g : GPIOController) (route_id : string) (rc : route_config)
  (b : bool) :
  route_lookup route_id (routes_config g) = Some rc ->
  exists tr,
    set_led GPIO_AVAILABLE route_id b g
    = (Ok true, with_led_states (<[route_id := b]> (led_states g)) g, tr)
    /\ tr.*2 = set_led_calls GPIO_AVAILABLE rc b.
Proof.
  intros Hrc. unfold set_led, set_led_calls. run_m. rewrite Hrc.
  destruct GPIO_AVAILABLE; simpl; eexists; split; reflexivity.
Qed.

Lemma blink_loop_periods (route_id : string) (rc : route_config)
  (duration interval start_time : Z) (n : nat) :
  0 <= interval ->
  forall (fuel : nat) (g : GPIOController) (now : Z),
    (n < fuel)%nat ->
    route_lookup route_id (routes_config g) = Some rc ->
    (forall k, (k < n)%nat -> now - start_time + 2 * interval * Z.of_nat k < duration) ->
    ~ (now - start_time + 2 * interval * Z.of_nat n < duration) ->
    exists g' tr,
      blink_loop GPIO_AVAILABLE fuel route_id (PNum duration) (PNum interval) start_time now g
      = (Ok (now + 2 * interval * Z.of_nat n), g', tr)
      /\ tr.*2 = blink_periods n GPIO_AVAILABLE rc interval
      /\ routes_config g' = routes_config g
      /\ forall r, r <> route_id -> led_states g' !! r = led_states g !! r.
Proof.
  intros Hint. induction n as [| n IH]; intros fuel g now Hfuel Hrc Hbefore Hafter.
  - destruct fuel as [| fuel]; [lia |]. simpl.
    destruct (Z.ltb_spec (now - start_time) duration) as [Hlt | Hge]; [lia |].
    exists g, []. replace (now + 2 * interval * Z.of_nat 0) with now by lia.
    repeat split.
  - destruct fuel as [| fuel]; [lia |]. simpl.
    destruct (Z.ltb_spec (now - start_time) duration) as [Hlt | Hge].
    2:{ specialize (Hbefore 0%nat ltac:(lia)). lia. }
    destruct (set_led_configured g route_id rc true Hrc) as (tr1 & E1 & Htr1).
    set (g1 := with_led_states (<[route_id := true]> (led_states g)) g) in *.
    destruct (set_led_configured g1 route_id rc false Hrc) as (tr2 & E2 & Htr2).
    set (g2 := with_led_states (<[route_id := false]> (led_states g1)) g1) in *.
    destruct (IH fuel g2 (now + interval + interval)) as (g' & tr & E & Htr & HR & Hled).
    + lia.
    + exact Hrc.
    + intros k Hk. specialize (Hbefore (S k) ltac:(lia)). lia.
    + lia.
    + exists g', (tr1 ++ (g1, E_sleep interval) :: tr2 ++ (g2, E_sleep interval) :: tr).
      unfold time_sleep, as_number. 
      destruct (Z.ltb_spec interval 0) as [Hneg | _]; [lia |].
      run_m. rewrite E1. simpl. rewrite E2. simpl. rewrite E. simpl.
      split; [| split; [| split]].
      * replace (now + 2 * interval * Z.of_nat (S n))
          with (now + interval + interval + 2 * interval * Z.of_nat n)
          by (rewrite Nat2Z.inj_succ; ring).
        reflexivity.
      * rewrite !fmap_app, !fmap_cons, !fmap_app, !fmap_cons. simpl.
        rewrite Htr1, Htr2, Htr. unfold blink_period.
        rewrite <- !app_assoc. reflexivity.
      * exact HR.
      * intros r Hr. rewrite (Hled r Hr). simpl.
        rewrite !lookup_insert_ne by congruence. reflexivity.
Qed.

Lemma periods_within_spec (duration interval : Z) :
  0 < interval ->
  let n := periods_within duration interval in
  (forall k, (k < n)%nat -> 2 * interval * Z.of_nat k < duration)
  /\ ~ (2 * interval * Z.of_nat n < duration).
Proof.
  intros Hint n. subst n. unfold periods_within.
  destruct (Z.leb_spec duration 0) as [Hle | Hgt].
  - split; [intros k Hk; lia | simpl; lia].
  - set (p := 2 * interval). set (q := (duration + p - 1) / p).
    assert (Hp : 0 < p) by (subst p; lia).
    assert (Hq : p * q <= duration + p - 1 < p * q + p).
    { subst q. pose proof (Z.mul_div_le (duration + p - 1) p Hp).
      pose proof (Z.mul_succ_div_gt (duration + p - 1) p Hp). lia. }
    assert (Hq0 : 0 <= q) by (subst q; apply Z.div_pos; lia).
    rewrite Z2Nat.id by exact Hq0.
    split.
    + intros k Hk. assert (Z.of_nat k <= q - 1) by lia. nia.
    + nia.
Qed.

(** C3 (as amended, for the stop).  On a configured route, a blink with a
    positive interval that is not interrupted runs
    [periods_within duration interval] periods, each one the LED on for
    [interval] then off for [interval]: a new period starts as long as
    less than [duration] has elapsed.  The worker then writes back the
    state the LED had before, so that every LED state is as before. *)
Theorem blink_worker_restores (g : GPIOController) (route_id : string) (rc : route_config)
  (duration interval now : Z) (fuel : nat) :
  route_lookup route_id (routes_config g) = Some rc ->
  0 < interval ->
  (periods_within duration interval < fuel)%nat ->
  let s := get_led_state g route_id in
  let o := blink_worker GPIO_AVAILABLE fuel route_id (PNum duration) (PNum interval) now g in
  result_of o = Ok tt
  /\ events_of o
     = blink_periods (periods_within duration interval) GPIO_AVAILABLE rc interval
       ++ set_led_calls GPIO_AVAILABLE rc s
  /\ forall r, get_led_state (state_of o) r = get_led_state g r.
Proof.
  intros Hrc Hint Hfuel s o. subst o.
  destruct (periods_within_spec duration interval Hint) as [Hbefore Hafter].
  destruct (blink_loop_periods route_id rc duration interval now
              (periods_within duration interval) ltac:(lia) fuel g now Hfuel Hrc)
    as (g' & tr & E & Htr & HR & Hled).
  { intros k Hk. specialize (Hbefore k Hk). lia. }
  { lia. }
  assert (Hrc' : route_lookup route_id (routes_config g') = Some rc) by (rewrite HR; exact Hrc).
  destruct (set_led_configured g' route_id rc s Hrc') as (tr' & E' & Htr').
  unfold blink_worker. run_m. rewrite E. simpl. fold (get_led_state g route_id). fold s.
  rewrite E'. simpl. split; [reflexivity | split].
  - rewrite app_nil_r, fmap_app, Htr, Htr'. reflexivity.
  - intros r. unfold get_led_state. simpl.
    destruct (decide (r = route_id)) as [-> | Hne].
    + rewrite lookup_insert_eq. reflexivity.
    + rewrite lookup_insert_ne by congruence. rewrite (Hled r Hne). reflexivity.
Qed.
End StopGpioFacts.

Lemma blink_worker_restores_witness :
  let g := StopMain.gpio_controller (Samples.stop_system true) in
  let o := StopGpio.blink_worker true 4 "1" (PNum 1000) (PNum 200) 0 g in
  result_of o = Ok tt
  /\ events_of o
     = blink_periods (periods_within 1000 200) true Samples.route_1 200
       ++ set_led_calls true Samples.route_1 (StopGpio.get_led_state g "1")
  /\ forall r, StopGpio.get_led_state (state_of o) r = StopGpio.get_led_state g r.
Proof.
  apply (blink_worker_restores true
           (StopMain.gpio_controller (Samples.stop_system true)) "1" Samples.route_1
           1000 200 0 4).
  - vm_compute. reflexivity.
  - lia.
  - vm_compute. lia.
Defined.

Lemma set_led_unknown_route_witness :
  let g := StopGpioRuns.after false StopConfig.defaults
             [StopGpioRuns.G_initialize; StopGpioRuns.G_set_led "1" true] in
  let o := StopGpio.set_led false "9" true g in
  result_of o = Ok false
  /\ state_of o = g
  /\ events_of o = [E_log ERROR "unknown route"]
  /\ StopGpio.get_led_state (state_of o) "9" = false.
Proof.
  apply (set_led_unknown_route false StopConfig.defaults
           [StopGpioRuns.G_initialize; StopGpioRuns.G_set_led "1" true] "9" true).
  reflexivity.
Defined.

(** The vehicle does not put the LED bar back: a red blink started while
    the green LED is lit ends with both LEDs off. *)
Lemma bus_blink_leaves_leds_off :
  let g := Samples.bus_gpio_ready in
  let o := BusGpio.blink_worker false BusConfig.defaults 6 3000 300 "red" 0 g in
  BusGpio.led_green_state g = true
  /\ result_of o = Ok tt
  /\ BusGpio.led_green_state (state_of o) = false
  /\ BusGpio.led_red_state (state_of o) = false.
Proof. vm_compute. repeat split. Qed.

(** C3, as stated, fails on the vehicle: the green LED is on before the
    blink and off once the blink has completed. *)
Lemma blink_restore_counterexample :
  let g := Samples.bus_gpio_ready in
  let o := BusGpio.blink_worker false BusConfig.defaults 6 3000 300 "red" 0 g in
  result_of o = Ok tt
  /\ BusGpio.led_green_state (state_of o) <> BusGpio.led_green_state g.
Proof. vm_compute. split; [reflexivity | discriminate]. Qed.

(** ** The bridge of the stop *)

Section StopMainFacts.
Import StopConfig StopMain.
Variable GPIO_AVAILABLE : bool.
Variable cfg : Config.

(** C8.  On a configured route, handling a control command whose
    [status] is [ON] leaves [get_led_state] of the route true, and one
    whose [status] is [OFF] leaves it false. *)
Theorem led_control_round_trip (w : BusStopSystem) (route_id : string) (rc : route_config)
  (items : list (string * pyval)) (on : bool) :
  route_lookup route_id (StopGpio.routes_config (gpio_controller w)) = Some rc ->
  dict_lookup "status" items = Some (PStr (if on then "ON" else "OFF")) ->
  let o := _on_led_control GPIO_AVAILABLE route_id (PDict items) w in
  result_of o = Ok tt
  /\ StopGpio.get_led_state (gpio_controller (state_of o)) route_id = on.
Proof.
  intros Hrc Hstatus o. subst o.
  unfold _on_led_control, py_get, on_gpio, zoom, StopGpio.set_led, StopGpio.get_led_state.
  run_m. rewrite Hstatus.
  destruct on; simpl; rewrite Hrc; destruct GPIO_AVAILABLE; simpl;
    rewrite lookup_insert_eq; split; reflexivity.
Qed.

End StopMainFacts.

Lemma led_control_round_trip_witness :
  let o := StopMain._on_led_control false "1" (PDict [("status", PStr "ON")])
             (Samples.stop_system false) in
  result_of o = Ok tt
  /\ StopGpio.get_led_state (StopMain.gpio_controller (state_of o)) "1" = true.
Proof.
  apply (led_control_round_trip false (Samples.stop_system false) "1" Samples.route_1
           [("status", PStr "ON")] true).
  - vm_compute. reflexivity.
  - reflexivity.
Defined.

Section StopBridgeFacts.
Import StopConfig StopMain.
Variable GPIO_AVAILABLE : bool.
Variable cfg : Config.

(** [_setup_event_handlers] registers [_on_button_pressed] for every
    configured route. *)
Lemma register_all_routes (l : list (string * route_config)) :
  forall w : BusStopSystem,
    let o := for_each l (fun '(route_id, _) =>
               on_gpio (StopGpio.register_button_callback route_id H_on_button_pressed)) w in
    result_of o = Ok tt
    /\ mqtt_client (state_of o) = mqtt_client w
    /\ StopGpio.routes_config (gpio_controller (state_of o))
       = StopGpio.routes_config (gpio_controller w)
    /\ StopGpio.last_button_press (gpio_controller (state_of o))
       = StopGpio.last_button_press (gpio_controller w)
    /\ (forall r, StopGpio.button_callbacks (gpio_controller w) !! r
                  = Some H_on_button_pressed ->
                  StopGpio.button_callbacks (gpio_controller (state_of o)) !! r
                  = Some H_on_button_pressed)
    /\ forall r rc, route_lookup r l = Some rc ->
         StopGpio.button_callbacks (gpio_controller (state_of o)) !! r
         = Some H_on_button_pressed.
Proof.
  induction l as [| [k v] l IH]; intros w; simpl.
  - repeat split; [auto | intros r rc H; discriminate].
  - set (w1 := with_gpio_controller
                 (StopGpio.with_button_callbacks
                    (<[k := H_on_button_pressed]>
                       (StopGpio.button_callbacks (gpio_controller w)))
                    (gpio_controller w)) w).
    destruct (IH w1) as (Hres & Hm & HR & Hl & Hmono & Hcb).
    unfold on_gpio, zoom, StopGpio.register_button_callback in *. run_m. simpl in *.
    fold w1.
    destruct (for_each l _ w1) as [[r1 s1] tr1] eqn:E. simpl in *. subst r1.
    repeat split; try assumption.
    + intros r Hr. apply Hmono. subst w1. simpl.
      destruct (decide (k = r)) as [-> | Hne];
        [apply lookup_insert_eq | rewrite lookup_insert_ne by exact Hne; exact Hr].
    + intros r rc Hr.
      destruct (String.eqb_spec k r) as [-> | Hne].
      * apply Hmono. subst w1. simpl. apply lookup_insert_eq.
      * eapply Hcb, Hr.
Qed.

Lemma setup_event_handlers_registers (w : BusStopSystem) (r : string) (rc : route_config) :
  route_lookup r (ROUTES_CONFIG cfg) = Some rc ->
  let o := _setup_event_handlers cfg w in
  result_of o = Ok tt
  /\ StopGpio.routes_config (gpio_controller (state_of o))
     = StopGpio.routes_config (gpio_controller w)
  /\ StopGpio.last_button_press (gpio_controller (state_of o))
     = StopGpio.last_button_press (gpio_controller w)
  /\ StopGpio.button_callbacks (gpio_controller (state_of o)) !! r = Some H_on_button_pressed.
Proof.
  intros Hr o. subst o. unfold _setup_event_handlers.
  destruct (register_all_routes (ROUTES_CONFIG cfg) w) as (Hres & Hm & HR & Hl & Hmono & Hcb).
  unfold on_mqtt, zoom, StopMqtt.register_callback. run_m.
  destruct (for_each (ROUTES_CONFIG cfg) _ w) as [[r1 s1] tr1] eqn:E. simpl in *. subst r1.
  simpl. repeat split; try assumption. eapply Hcb, Hr.
Qed.

(** C7 (as amended).  On a configured route that has a name and a colour
    and whose button callback is the one the bridge registers, an edge
    that passes the debounce test makes the bridge call
    [publish_button_press] once.  On a connected session that call makes
    exactly one [client.publish], of the message of the press on
    [device/button/<stop>/<route>] with QoS 1, and it returns [True]
    exactly when the result code is 0; on a session that is not connected
    it calls nothing on the transport and returns [False].  The blink
    that follows is 1.0 s with interval 0.2 s after [True] and 2.0 s
    with interval 0.1 s after [False]. *)
Theorem button_edge_one_publish (w : BusStopSystem) (route_id : string) (rc : route_config)
  (route_name button_color : string) (channel : Z) (outcome : publish_outcome) (now : Z) :
  route_lookup route_id (StopGpio.routes_config (gpio_controller w)) = Some rc ->
  name rc = Some route_name ->
  color rc = Some button_color ->
  StopGpio.button_callbacks (gpio_controller w) !! route_id = Some H_on_button_pressed ->
  DEBOUNCE_TIME cfg
    <= now - default 0 (StopGpio.last_button_press (gpio_controller w) !! route_id) ->
  let o := button_edge GPIO_AVAILABLE cfg route_id channel outcome now w in
  let message :=
    PDict [("stopId", PStr (STOP_ID cfg)); ("routeId", PStr route_id);
           ("routeName", PStr route_name); ("buttonColor", PStr button_color);
           ("timestamp", PIsoTime now); ("passengerCount", PNum 1000)] in
  let attempt := T_publish (topic_button_press cfg +:+ "/" +:+ route_id) message 1 false in
  let pressed :=
    [E_log INFO "button pressed"] ++ set_led_calls GPIO_AVAILABLE rc true
    ++ [E_thread (Th_callback H_on_button_pressed route_id rc); E_log INFO "button event"] in
  let confirmation :=
    [E_log INFO "call sent"; E_thread (Th_blink_worker route_id (PNum 1000) (PNum 200))] in
  let error :=
    [E_log ERROR "call not sent"; E_thread (Th_blink_worker route_id (PNum 2000) (PNum 100))] in
  result_of o = Ok tt
  /\ events_of o
     = pressed
       ++ (if StopMqtt.is_connected (mqtt_client w) then
             match StopMqtt.client (mqtt_client w), outcome with
             | Some _, PubRc code =>
                 if code =? 0
                 then [E_transport attempt; E_log INFO "button press sent"] ++ confirmation
                 else [E_transport attempt; E_log ERROR "button press send failed"] ++ error
             | Some _, PubRaises =>
                 [E_transport attempt; E_log ERROR "button press send error"] ++ error
             | None, _ => [E_log ERROR "button press send error"] ++ error
             end
           else [E_log ERROR "MQTT not connected, button press not sent"] ++ error)
  /\ publishes (events_of o)
     = (if StopMqtt.is_connected (mqtt_client w)
        then match StopMqtt.client (mqtt_client w) with Some _ => [attempt] | None => [] end
        else []).
Proof.
  intros Hrc Hname Hcolor Hcb Hdeb o message attempt pressed confirmation error.
  subst o message attempt pressed confirmation error.
  unfold button_edge, run_callback_thread, _on_button_pressed, listen, on_gpio, on_mqtt, zoom,
    StopGpio._button_callback, StopGpio.set_led, StopGpio.blink_led,
    StopMqtt.publish_button_press, StopMqtt.client_call, set_led_calls.
  run_m.
  destruct (Z.ltb_spec (now - default 0 (StopGpio.last_button_press (gpio_controller w) !! route_id))
              (DEBOUNCE_TIME cfg)) as [Hlt | _]; [lia |].
  simpl. rewrite Hrc. simpl. rewrite Hname. simpl. rewrite Hrc.
  destruct w as [m g r]. simpl in *.
  destruct m as [cl conn cbs lh ht run]. simpl in *.
  destruct GPIO_AVAILABLE; simpl; rewrite Hcb; simpl; rewrite Hname, Hcolor; simpl;
    destruct conn; simpl; try (repeat split; fail);
      destruct cl as [c |]; simpl; try (repeat split; fail);
        destruct outcome as [code |]; simpl; try (repeat split; fail);
          unfold MQTT_ERR_SUCCESS; destruct (code =? 0); simpl; repeat split.
Qed.

(** On a session that is not connected the press is not sent:
    [publish_button_press] returns at its guard, nothing is called on
    the transport, and the blink is the one of the failure. *)
Lemma button_edge_not_connected (w : BusStopSystem) (route_id : string) (rc : route_config)
  (route_name button_color : string) (channel : Z) (outcome : publish_outcome) (now : Z) :
  route_lookup route_id (StopGpio.routes_config (gpio_controller w)) = Some rc ->
  name rc = Some route_name ->
  color rc = Some button_color ->
  StopGpio.button_callbacks (gpio_controller w) !! route_id = Some H_on_button_pressed ->
  DEBOUNCE_TIME cfg
    <= now - default 0 (StopGpio.last_button_press (gpio_controller w) !! route_id) ->
  StopMqtt.is_connected (mqtt_client w) = false ->
  let o := button_edge GPIO_AVAILABLE cfg route_id channel outcome now w in
  result_of o = Ok tt
  /\ transport_calls (events_of o) = []
  /\ spawned (events_of o)
     = [Th_callback H_on_button_pressed route_id rc;
        Th_blink_worker route_id (PNum 2000) (PNum 100)].
Proof.
  intros Hrc Hname Hcolor Hcb Hdeb Hconn o. subst o.
  unfold button_edge, run_callback_thread, _on_button_pressed, listen, on_gpio, on_mqtt, zoom,
    StopGpio._button_callback, StopGpio.set_led, StopGpio.blink_led,
    StopMqtt.publish_button_press, StopMqtt.client_call.
  run_m.
  destruct (Z.ltb_spec (now - default 0 (StopGpio.last_button_press (gpio_controller w) !! route_id))
              (DEBOUNCE_TIME cfg)) as [Hlt | _]; [lia |].
  simpl. rewrite Hrc. simpl. rewrite Hname. simpl. rewrite Hrc.
  destruct w as [m g r]. simpl in *.
  destruct m as [cl conn cbs lh ht run]. simpl in *. subst conn.
  destruct GPIO_AVAILABLE; simpl; rewrite Hcb; simpl; rewrite Hname, Hcolor; simpl;
    repeat split.
Qed.
End StopBridgeFacts.

Lemma button_edge_one_publish_witness :
  let w := Samples.stop_started StopConfig.defaults in
  let o := StopMain.button_edge false StopConfig.defaults "1" 18 (PubRc 0) 5000 w in
  let attempt :=
    T_publish "device/button/STOP001/1"
      (PDict [("stopId", PStr "STOP001"); ("routeId", PStr "1");
              ("routeName", PStr "1번"); ("buttonColor", PStr "#FF0000");
              ("timestamp", PIsoTime 5000); ("passengerCount", PNum 1000)]) 1 false in
  result_of o = Ok tt
  /\ events_of o
     = [E_log INFO "button pressed"; E_log DEBUG "Mock LED ON";
        E_thread (Th_callback H_on_button_pressed "1" Samples.route_1);
        E_log INFO "button event";
        E_transport attempt; E_log INFO "button press sent";
        E_log INFO "call sent"; E_thread (Th_blink_worker "1" (PNum 1000) (PNum 200))]
  /\ publishes (events_of o) = [attempt].
Proof.
  apply (button_edge_one_publish false StopConfig.defaults
           (Samples.stop_started StopConfig.defaults)
           "1" Samples.route_1 "1번" "#FF0000" 18 (PubRc 0) 5000).
  - vm_compute. reflexivity.
  - reflexivity.
  - reflexivity.
  - vm_compute. reflexivity.
  - vm_compute. discriminate.
Defined.

(** C7, as stated, fails on a route that is configured without a colour:
    the configuration is accepted by [validate_config], the stop starts
    and is connected, the edge passes the debounce test and the bridge's
    callback runs, but [route_config['color']] raises KeyError before
    [publish_button_press] is called: the error is logged, no publish is
    attempted and no blink is started. *)
Lemma button_edge_missing_colour_counterexample :
  let cfg := Samples.config_without_colour in
  let w := Samples.stop_started cfg in
  let edge := StopGpio._button_callback false cfg "1" 18 5000 (StopMain.gpio_controller w) in
  let o := StopMain.button_edge false cfg "1" 18 (PubRc 0) 5000 w in
  StopConfig.validate_config cfg = true
  /\ result_of (StopMain.start false cfg true [[CB_on_connect 0]] (-100) (StopMain.new cfg))
     = Ok true
  /\ StopMqtt.is_connected (StopMain.mqtt_client w) = true
  /\ StopGpio.button_callbacks (StopMain.gpio_controller w) !! "1" = Some H_on_button_pressed
  /\ StopGpio.button_states (state_of edge) !! "1" = Some true
  /\ result_of o = Ok tt
  /\ events_of o
     = [E_log INFO "button pressed"; E_log DEBUG "Mock LED ON";
        E_thread (Th_callback H_on_button_pressed "1" Samples.route_without_colour);
        E_log INFO "button event";
        E_log ERROR "button event handling error"]
  /\ publishes (events_of o) = []
  /\ ~ (exists duration interval,
          In (Th_blink_worker "1" duration interval) (spawned (events_of o))).
Proof.
  vm_compute. repeat split; try reflexivity.
  intros (duration & interval & [H | []]); discriminate.
Qed.

(** ** The session of the stop *)

Section StopSessionFacts.
Import StopConfig StopMqtt StopSession.
Variable cfg : Config.
Variable bytes_decode : list Byte.byte -> option string.
Variable json_loads : string -> loads_result.

Lemma stop_client_call_safe c : is_publish (E_transport c) = false -> traces publish_guard (client_call c).
Proof.
  intros Hc s. unfold client_call. run_m. destruct (client s); simpl; repeat constructor.
  simpl. unfold publish_guard. rewrite Hc. discriminate.
Qed.

#[local] Hint Extern 1 (traces publish_guard (client_call _)) =>
  apply stop_client_call_safe; reflexivity : safe.

Lemma stop_log_safe l what : traces publish_guard (log (St := MQTTClient) l what).
Proof. unfold log. trc. Qed.
#[local] Hint Resolve stop_log_safe : safe.

Lemma stop_initialize_safe now : traces publish_guard (initialize cfg now).
Proof.
  unfold initialize. trc. destruct (_ && _); trc.
Qed.

Lemma stop_on_connect_safe rc : traces publish_guard (_on_connect cfg rc).
Proof.
  unfold _on_connect. destruct (rc =? 0); trc.
Qed.
#[local] Hint Resolve stop_on_connect_safe : safe.

Lemma stop_on_disconnect_safe rc : traces publish_guard (_on_disconnect rc).
Proof. unfold _on_disconnect. trc. destruct (negb _); trc. Qed.
#[local] Hint Resolve stop_on_disconnect_safe : safe.

Lemma stop_deliver_safe cb : traces publish_guard (deliver cfg cb).
Proof.
  unfold deliver. trc. destruct cb; trc.
Qed.
#[local] Hint Resolve stop_deliver_safe : safe.

Lemma stop_publish_status_connected status now :
  forall s, is_connected s = true ->
            Forall (fun p => publish_guard p.1 p.2) (trace_of (_publish_status cfg status now s)).
Proof.
  intros s Hs. unfold _publish_status. run_m. destruct (client s); simpl; repeat constructor;
    unfold publish_guard; simpl; intros; try discriminate; assumption.
Qed.

Lemma stop_publish_heartbeat_safe now : traces publish_guard (_publish_heartbeat cfg now).
Proof.
  intros s. unfold _publish_heartbeat, client_call. run_m.
  destruct (is_connected s) eqn:Hs; simpl; [| constructor].
  destruct (client s); simpl; repeat constructor; simpl; try discriminate.
  intros _. exact Hs.
Qed.

Lemma stop_publish_button_press_safe route_id route_name color outcome now :
  traces publish_guard (publish_button_press cfg route_id route_name color outcome now).
Proof.
  intros s. unfold publish_button_press, client_call. run_m.
  destruct (is_connected s) eqn:Hs; simpl; [| repeat constructor; discriminate].
  destruct (client s); simpl; [| repeat constructor; discriminate].
  destruct outcome as [rc |]; simpl; [destruct (rc =? MQTT_ERR_SUCCESS); simpl |];
    repeat constructor; simpl; try discriminate; intros _; exact Hs.
Qed.

Lemma stop_on_message_safe topic payload :
  traces publish_guard (_on_message cfg bytes_decode json_loads topic payload).
Proof.
  unfold _on_message. trc.
  - destruct (bytes_decode payload); trc.
  - destruct (json_loads _); trc.
  - destruct (PyStr.startswith _ _); [| destruct (String.eqb _ _)]; trc;
      match goal with |- traces _ (match ?x with _ => _ end) => destruct x end; trc.
Qed.

Lemma stop_register_callback_safe event_type callback :
  traces publish_guard (register_callback event_type callback).
Proof. unfold register_callback. trc. Qed.

Lemma stop_wait_connected_safe n net : traces publish_guard (wait_connected cfg n net).
Proof.
  revert net. induction n as [| n IH]; intros net; simpl; [trc |].
  apply traces_bind; [trc | intros s].
  destruct (is_connected s); trc. apply traces_for_each. trc.
Qed.

Lemma stop_connect_tail_safe now waited :
  traces publish_guard
    (s ← get;
     if is_connected s then
       log INFO "MQTT broker connection succeeded";;
       _start_heartbeat;;
       _publish_status cfg "online" (now + waited);;
       ret true
     else
       log ERROR "MQTT broker connection timeout";;
       ret false).
Proof.
  intros s. unfold _start_heartbeat, _publish_status. run_m.
  destruct (is_connected s) eqn:Hs; simpl; [| repeat constructor; discriminate].
  destruct (client s); simpl; repeat constructor; simpl; try discriminate.
  intros _. exact Hs.
Qed.

Lemma stop_connect_safe connect_ok net now : traces publish_guard (connect cfg connect_ok net now).
Proof.
  unfold connect. apply traces_try_except; [| intros e; trc].
  apply traces_bind; [trc | intros _].
  apply traces_bind; [trc | intros _].
  apply traces_bind; [destruct connect_ok; trc | intros _].
  apply traces_bind; [trc | intros _].
  apply traces_bind; [trc | intros _].
  apply traces_bind; [apply stop_wait_connected_safe | intros waited].
  apply stop_connect_tail_safe.
Qed.

Lemma stop_disconnect_safe now : traces publish_guard (disconnect cfg now).
Proof.
  unfold disconnect. apply traces_bind; [trc | intros _].
  apply traces_bind; [trc | intros s0].
  apply traces_bind; [destruct (heartbeat_thread s0); trc | intros _].
  apply traces_get_bind. intros s.
  apply trace_bind_at; [| intros _; trc].
  destruct (bool_decide (client s ≠ None) && is_connected s) eqn:Hs; [| constructor].
  apply andb_true_iff in Hs as [_ Hs].
  apply trace_bind_at; [apply stop_publish_status_connected, Hs | intros _; trc].
Qed.

Lemma stop_run_due_safe t (others : schedule) :
  Forall (fun p => traces publish_guard p.2) others ->
  traces publish_guard (run_due t others)
  /\ forall s others', result_of (run_due t others s) = Ok others' ->
                       Forall (fun p => traces publish_guard p.2) others'.
Proof.
  induction 1 as [| [at_time c] others Hc Hothers [IH1 IH2]]; simpl.
  - split; [trc |]. intros s others' E. inversion E. constructor.
  - destruct (at_time <=? t).
    + split.
      * trc.
      * intros s others' E. run_m. simpl in *.
        destruct (c s) as [[[a | e |] s1] tr1]; simpl in *; try discriminate.
        -- specialize (IH2 s1 others'). destruct (run_due t others s1) as [[r s2] tr2].
           simpl in *. apply IH2. destruct r; try discriminate. exact E.
        -- specialize (IH2 s1 others'). destruct (run_due t others s1) as [[r s2] tr2].
           simpl in *. apply IH2. destruct r; try discriminate. exact E.
    + split; [trc |]. intros s others' E. inversion E. subst.
      constructor; assumption.
Qed.

Lemma stop_heartbeat_worker_safe fuel : forall (others : schedule) now,
  Forall (fun p => traces publish_guard p.2) others ->
  traces publish_guard (heartbeat_worker cfg fuel others now).
Proof.
  induction fuel as [| fuel IH]; intros others now Hothers; simpl; [trc |].
  apply traces_bind; [trc | intros s].
  destruct (_running s && is_connected s); [| trc].
  apply traces_bind; [apply stop_publish_heartbeat_safe | intros _].
  apply traces_bind; [trc | intros _].
  destruct (stop_run_due_safe (now + HEARTBEAT_INTERVAL cfg) others Hothers) as [H1 H2].
  eapply traces_bind_ok; [exact H1 | exact H2 |].
  intros others' Ho. apply IH, Ho.
Qed.

Lemma stop_run_safe : forall c, traces publish_guard (run cfg bytes_decode json_loads c).
Proof.
  fix IH 1. intros c. destruct c; simpl.
  - apply traces_bind; [apply stop_initialize_safe | intros _; apply traces_ret].
  - apply traces_bind; [apply stop_connect_safe | intros _; apply traces_ret].
  - apply stop_disconnect_safe.
  - apply stop_on_connect_safe.
  - apply stop_on_disconnect_safe.
  - apply stop_on_message_safe.
  - apply stop_register_callback_safe.
  - apply traces_bind; [apply stop_publish_button_press_safe | intros _; apply traces_ret].
  - apply stop_heartbeat_worker_safe.
    revert others. fix IHo 1. intros [| [t c'] others]; simpl; constructor.
    + simpl. apply IH.
    + apply IHo.
Qed.

Lemma stop_exec_safe (cs : list call) : forall s,
  publishes_while_connected (exec cfg bytes_decode json_loads cs s).2.
Proof.
  induction cs as [| c cs IH]; intros s; simpl; [constructor |].
  specialize (IH (state_of (run cfg bytes_decode json_loads c s))).
  destruct (exec _ _ _ cs _) as [s' tr]. simpl in *.
  apply Forall_app. split; [| exact IH].
  pose proof (stop_run_safe c s) as H. unfold publishes_while_connected.
  eapply Forall_impl; [exact H |]. intros [s0 e]. simpl. auto.
Qed.
End StopSessionFacts.

(** ** The session of the vehicle *)

Section BusSessionFacts.
Import BusConfig BusMqtt BusSession.
Variable cfg : Config.
Variable bytes_decode : list Byte.byte -> option string.
Variable json_loads : string -> loads_result.

Lemma bus_client_call_safe c :
  is_publish (E_transport c) = false -> traces publish_guard (client_call c).
Proof.
  intros Hc s. unfold client_call. run_m. destruct (client s); simpl; repeat constructor.
  simpl. unfold publish_guard. rewrite Hc. discriminate.
Qed.

#[local] Hint Extern 1 (traces publish_guard (client_call _)) =>
  apply bus_client_call_safe; reflexivity : safe.

Lemma bus_log_safe l what : traces publish_guard (log (St := MQTTClient) l what).
Proof. unfold log. trc. Qed.
#[local] Hint Resolve bus_log_safe : safe.

Lemma bus_initialize_safe now : traces publish_guard (initialize cfg now).
Proof. unfold initialize. trc. destruct (nonempty _); trc. Qed.

Lemma bus_on_connect_safe rc : traces publish_guard (_on_connect rc).
Proof. unfold _on_connect. destruct (rc =? 0); trc. Qed.
#[local] Hint Resolve bus_on_connect_safe : safe.

Lemma bus_on_disconnect_safe rc : traces publish_guard (_on_disconnect rc).
Proof. unfold _on_disconnect. trc. destruct (negb _); trc. Qed.
#[local] Hint Resolve bus_on_disconnect_safe : safe.

Lemma bus_deliver_safe cb : traces publish_guard (deliver cb).
Proof. unfold deliver. trc. destruct cb; trc. Qed.
#[local] Hint Resolve bus_deliver_safe : safe.

Lemma bus_publish_status_connected status now :
  forall s, is_connected s = true ->
            Forall (fun p => publish_guard p.1 p.2)
              (trace_of (_publish_status cfg status now s)).
Proof.
  intros s Hs. unfold _publish_status. run_m. destruct (client s); simpl; repeat constructor;
    unfold publish_guard; simpl; intros; try discriminate; assumption.
Qed.

Lemma bus_publish_location_safe latitude longitude speed heading now :
  traces publish_guard (publish_location cfg latitude longitude speed heading now).
Proof.
  unfold publish_location. apply traces_get_bind. intros s.
  destruct (is_connected s) eqn:Hs.
  - rewrite orb_false_r. destruct (negb _); repeat constructor. intros _. exact Hs.
  - rewrite orb_true_r. constructor.
Qed.

Lemma bus_on_message_safe topic payload :
  traces publish_guard (_on_message cfg bytes_decode json_loads topic payload).
Proof.
  unfold _on_message. trc.
  - destruct (bytes_decode payload); trc.
  - destruct (json_loads _); trc.
  - match goal with e : exn |- _ => destruct e end; trc.
  - destruct (PyStr.startswith _ _); [| destruct (String.eqb _ _)]; trc;
      repeat match goal with
             | |- traces _ (if ?x then _ else _) => destruct x; trc
             | |- traces _ (match ?x with _ => _ end) => destruct x; trc
             end.
Qed.

Lemma bus_register_callback_safe event_type callback :
  traces publish_guard (register_callback event_type callback).
Proof. unfold register_callback. trc. Qed.

Lemma bus_wait_connected_safe n net : traces publish_guard (wait_connected n net).
Proof.
  revert net. induction n as [| n IH]; intros net; simpl; [trc |].
  apply traces_bind; [trc | intros s].
  destruct (is_connected s); trc. apply traces_for_each. trc.
Qed.

Lemma bus_connect_tail_safe now waited :
  traces publish_guard
    (s ← get;
     if is_connected s then
       _start_heartbeat;;
       _publish_status cfg "online" (now + waited);;
       ret true
     else
       log ERROR "MQTT connection failed";;
       ret false).
Proof.
  intros s. unfold _start_heartbeat, _publish_status. run_m.
  destruct (is_connected s) eqn:Hs; simpl; [| repeat constructor; discriminate].
  destruct (client s); simpl; repeat constructor; simpl; try discriminate.
  intros _. exact Hs.
Qed.

Lemma bus_connect_safe connect_ok net now :
  traces publish_guard (connect cfg connect_ok net now).
Proof.
  unfold connect. apply traces_bind; [trc | intros s].
  destruct (client s); [| trc].
  apply traces_try_except; [| intros e; trc].
  apply traces_bind; [trc | intros _].
  apply traces_bind; [trc | intros _].
  apply traces_bind; [destruct connect_ok; trc | intros _].
  apply traces_bind; [trc | intros _].
  apply traces_bind; [trc | intros _].
  apply traces_bind; [apply bus_wait_connected_safe | intros waited].
  apply bus_connect_tail_safe.
Qed.

Lemma bus_disconnect_safe now : traces publish_guard (disconnect cfg now).
Proof.
  unfold disconnect. apply traces_bind; [trc | intros _].
  apply traces_get_bind. intros s.
  apply trace_bind_at; [| intros _; trc].
  destruct (bool_decide (client s ≠ None) && is_connected s) eqn:Hs; [| constructor].
  apply andb_true_iff in Hs as [_ Hs].
  apply trace_bind_at; [apply bus_publish_status_connected, Hs | intros _; trc].
Qed.

Lemma bus_run_due_safe t (others : schedule) :
  Forall (fun p => traces publish_guard p.2) others ->
  traces publish_guard (run_due t others)
  /\ forall s others', result_of (run_due t others s) = Ok others' ->
                       Forall (fun p => traces publish_guard p.2) others'.
Proof.
  induction 1 as [| [at_time c] others Hc Hothers [IH1 IH2]]; simpl.
  - split; [trc |]. intros s others' E. inversion E. constructor.
  - destruct (at_time <=? t).
    + split.
      * trc.
      * intros s others' E. run_m. simpl in *.
        destruct (c s) as [[[a | e |] s1] tr1]; simpl in *; try discriminate.
        -- specialize (IH2 s1 others'). destruct (run_due t others s1) as [[r s2] tr2].
           simpl in *. apply IH2. destruct r; try discriminate. exact E.
        -- specialize (IH2 s1 others'). destruct (run_due t others s1) as [[r s2] tr2].
           simpl in *. apply IH2. destruct r; try discriminate. exact E.
    + split; [trc |]. intros s others' E. inversion E. subst.
      constructor; assumption.
Qed.

Lemma bus_heartbeat_worker_safe fuel : forall (others : schedule) now,
  Forall (fun p => traces publish_guard p.2) others ->
  traces publish_guard (heartbeat_worker cfg fuel others now).
Proof.
  induction fuel as [| fuel IH]; intros others now Hothers; simpl; [trc |].
  apply traces_get_bind. intros s.
  destruct (_running s && is_connected s) eqn:Hs; [| constructor].
  apply andb_true_iff in Hs as [_ Hs].
  apply trace_bind_at; [apply bus_publish_status_connected, Hs | intros _].
  apply traces_bind; [trc | intros _].
  destruct (bus_run_due_safe (now + HEARTBEAT_INTERVAL cfg) others Hothers) as [H1 H2].
  eapply traces_bind_ok; [exact H1 | exact H2 |].
  intros others' Ho. apply IH, Ho.
Qed.

Lemma bus_run_safe : forall c, traces publish_guard (run cfg bytes_decode json_loads c).
Proof.
  fix IH 1. intros c. destruct c; simpl.
  - apply traces_bind; [apply bus_initialize_safe | intros _; apply traces_ret].
  - apply traces_bind; [apply bus_connect_safe | intros _; apply traces_ret].
  - apply bus_disconnect_safe.
  - apply bus_on_connect_safe.
  - apply bus_on_disconnect_safe.
  - apply bus_on_message_safe.
  - apply bus_register_callback_safe.
  - apply bus_publish_location_safe.
  - apply bus_heartbeat_worker_safe.
    revert others. fix IHo 1. intros [| [t c'] others]; simpl; constructor.
    + simpl. apply IH.
    + apply IHo.
Qed.

Lemma bus_exec_safe (cs : list call) : forall s,
  publishes_while_connected (exec cfg bytes_decode json_loads cs s).2.
Proof.
  induction cs as [| c cs IH]; intros s; simpl; [constructor |].
  specialize (IH (state_of (run cfg bytes_decode json_loads c s))).
  destruct (exec _ _ _ cs _) as [s' tr]. simpl in *.
  apply Forall_app. split; [| exact IH].
  apply bus_run_safe.
Qed.

End BusSessionFacts.

(** The same through the network: the command arrives as a message on the
    LED-control topic of route 1. *)
Example led_command_message_round_trip :
  let arrive status :=
    StopMain.message_arrives false StopConfig.defaults UTF8.decode JSON.loads
      "device/led/STOP001/1" (UTF8.encode (JSON.status_command status)) in
  let w_on := state_of (arrive "ON" (Samples.stop_system false)) in
  let w_off := state_of (arrive "OFF" w_on) in
  StopGpio.get_led_state (StopMain.gpio_controller w_on) "1" = true
  /\ StopGpio.get_led_state (StopMain.gpio_controller w_off) "1" = false.
Proof. vm_compute. split; reflexivity. Qed.

(** ** The heartbeat *)

Lemma stop_heartbeat_four (cfg : StopConfig.Config) (s : StopMqtt.MQTTClient)
  (fuel : nat) (rc : Z) :
  StopConfig.HEARTBEAT_INTERVAL cfg = 30000 ->
  StopMqtt._running s = true ->
  StopMqtt.is_connected s = true ->
  StopMqtt.client s <> None ->
  (4 < fuel)%nat ->
  let o := StopMqtt.heartbeat_worker cfg fuel [(95000, StopMqtt._on_disconnect rc)] 0 s in
  result_of o = Ok tt
  /\ publish_times (StopConfig.topic_heartbeat cfg) (events_of o) = [0; 30000; 60000; 90000].
Proof.
  intros HI Hrun Hconn Hclient Hfuel o. subst o.
  do 5 (destruct fuel as [| fuel]; [lia |]).
  destruct s as [[c |] conn cbs lh ht run]; simpl in *; [| congruence]. subst.
  unfold StopMqtt.heartbeat_worker, StopMqtt._publish_heartbeat, StopMqtt.client_call,
    StopMqtt.run_due, StopMqtt._on_disconnect, publish_times.
  rewrite HI. generalize (StopConfig.topic_heartbeat cfg) as topic. intros topic.
  destruct (rc =? 0); cbv -[String.eqb]; rewrite !String.eqb_refl; split; reflexivity.
Qed.

Lemma bus_heartbeat_four (cfg : BusConfig.Config) (s : BusMqtt.MQTTClient)
  (fuel : nat) (rc : Z) :
  BusConfig.HEARTBEAT_INTERVAL cfg = 30000 ->
  BusMqtt._running s = true ->
  BusMqtt.is_connected s = true ->
  BusMqtt.client s <> None ->
  (4 < fuel)%nat ->
  let o := BusMqtt.heartbeat_worker cfg fuel [(95000, BusMqtt._on_disconnect rc)] 0 s in
  result_of o = Ok tt
  /\ publish_times (BusConfig.topic_bus_status cfg) (events_of o) = [0; 30000; 60000; 90000].
Proof.
  intros HI Hrun Hconn Hclient Hfuel o. subst o.
  do 5 (destruct fuel as [| fuel]; [lia |]).
  destruct s as [[c |] conn cbs ht run]; simpl in *; [| congruence]. subst.
  unfold BusMqtt.heartbeat_worker, BusMqtt._publish_status,
    BusMqtt.run_due, BusMqtt._on_disconnect, publish_times.
  rewrite HI. generalize (BusConfig.topic_bus_status cfg) as topic. intros topic.
  destruct (rc =? 0); cbv -[String.eqb]; rewrite !String.eqb_refl; split; reflexivity.
Qed.

(** C2 (as amended).  With a heartbeat interval of 30 s, the heartbeat
    worker of a session that is connected when the worker starts at time
    0, and that loses its connection 95 s later, makes exactly 4
    heartbeat publishes, at 0, 30, 60 and 90 s, and ends: it publishes
    before it sleeps. *)
Theorem heartbeat_publishes_at_0_30_60_90
  (scfg : StopConfig.Config) (s : StopMqtt.MQTTClient)
  (bcfg : BusConfig.Config) (b : BusMqtt.MQTTClient) (fuel : nat) (rc : Z) :
  StopConfig.HEARTBEAT_INTERVAL scfg = 30000 ->
  StopMqtt._running s = true -> StopMqtt.is_connected s = true ->
  StopMqtt.client s <> None ->
  BusConfig.HEARTBEAT_INTERVAL bcfg = 30000 ->
  BusMqtt._running b = true -> BusMqtt.is_connected b = true ->
  BusMqtt.client b <> None ->
  (4 < fuel)%nat ->
  let o := StopMqtt.heartbeat_worker scfg fuel [(95000, StopMqtt._on_disconnect rc)] 0 s in
  let o' := BusMqtt.heartbeat_worker bcfg fuel [(95000, BusMqtt._on_disconnect rc)] 0 b in
  (result_of o = Ok tt
   /\ publish_times (StopConfig.topic_heartbeat scfg) (events_of o)
      = [0; 30000; 60000; 90000])
  /\ (result_of o' = Ok tt
      /\ publish_times (BusConfig.topic_bus_status bcfg) (events_of o')
         = [0; 30000; 60000; 90000]).
Proof.
  intros. split; [apply stop_heartbeat_four | apply bus_heartbeat_four]; assumption.
Qed.

Lemma heartbeat_publishes_at_0_30_60_90_witness :
  let o := StopMqtt.heartbeat_worker StopConfig.defaults 5
             [(95000, StopMqtt._on_disconnect 1)] 0 Samples.stop_connected in
  let o' := BusMqtt.heartbeat_worker BusConfig.defaults 5
              [(95000, BusMqtt._on_disconnect 1)] 0 Samples.bus_connected in
  (result_of o = Ok tt
   /\ publish_times (StopConfig.topic_heartbeat StopConfig.defaults) (events_of o)
      = [0; 30000; 60000; 90000])
  /\ (result_of o' = Ok tt
      /\ publish_times (BusConfig.topic_bus_status BusConfig.defaults) (events_of o')
         = [0; 30000; 60000; 90000]).
Proof.
  apply (heartbeat_publishes_at_0_30_60_90 StopConfig.defaults Samples.stop_connected
           BusConfig.defaults Samples.bus_connected 5 1);
    solve [reflexivity | vm_compute; reflexivity | vm_compute; discriminate | lia].
Defined.

(** C2, as stated, fails: the publishes of the worker are not the three
    at 30, 60 and 90 s. *)
Lemma heartbeat_three_publishes_counterexample :
  let o := StopMqtt.heartbeat_worker StopConfig.defaults 5
             [(95000, StopMqtt._on_disconnect 1)] 0 Samples.stop_connected in
  let times := publish_times (StopConfig.topic_heartbeat StopConfig.defaults) (events_of o) in
  result_of o = Ok tt
  /\ times <> [30000; 60000; 90000]
  /\ length times <> 3%nat.
Proof. vm_compute. repeat split; discriminate. Qed.

(** ** Publishes and the connection state *)

(** C1 (as amended).  In every execution of the calls made on the client
    (by the main program, by the network thread, by the heartbeat thread),
    from any state, each publish is made while [is_connected] is true.
    [publish_button_press] and [_publish_heartbeat] of the stop and
    [publish_location] of the vehicle, called while [is_connected] is
    false, make no call on the transport.  [_publish_status] itself is
    gated on the client having been created, not on [is_connected]: it
    is its callers that test [is_connected] first. *)
Theorem publishes_only_while_connected :
  (forall scfg dec json cs s,
      StopSession.publishes_while_connected (StopSession.exec scfg dec json cs s).2)
  /\ (forall bcfg dec json cs b,
         BusSession.publishes_while_connected (BusSession.exec bcfg dec json cs b).2)
  /\ (forall scfg route_id route_name color outcome now s,
         let s' := StopMqtt.with_is_connected false s in
         StopMqtt.publish_button_press scfg route_id route_name color outcome now s'
         = (Ok false, s', [(s', E_log ERROR "MQTT not connected, button press not sent")]))
  /\ (forall scfg now s,
         let s' := StopMqtt.with_is_connected false s in
         StopMqtt._publish_heartbeat scfg now s' = (Ok tt, s', []))
  /\ (forall bcfg latitude longitude speed heading now b,
         let b' := BusMqtt.with_is_connected false b in
         BusMqtt.publish_location bcfg latitude longitude speed heading now b'
         = (Ok tt, b', []))
  /\ (forall scfg status now s,
         length (publishes (events_of (StopMqtt._publish_status scfg status now s)))
         = match StopMqtt.client s with Some _ => 1%nat | None => 0%nat end)
  /\ (forall bcfg status now b,
         length (publishes (events_of (BusMqtt._publish_status bcfg status now b)))
         = match BusMqtt.client b with Some _ => 1%nat | None => 0%nat end).
Proof.
  split; [intros; apply stop_exec_safe |].
  split; [intros; apply bus_exec_safe |].
  split; [intros; reflexivity |].
  split; [intros; reflexivity |].
  split.
  { intros. subst b'. unfold BusMqtt.publish_location. run_m. simpl.
    rewrite orb_true_r. reflexivity. }
  split.
  - intros. unfold StopMqtt._publish_status. run_m. destruct (StopMqtt.client s); reflexivity.
  - intros. unfold BusMqtt._publish_status. run_m. destruct (BusMqtt.client b); reflexivity.
Qed.

(** C1, as stated, fails on [_publish_status]: on the client of the stop
    that has been initialised and is not connected, it publishes. *)
Lemma status_publish_while_disconnected_counterexample :
  let s := Samples.stop_initialised in
  let o := StopMqtt._publish_status StopConfig.defaults "online" 0 s in
  StopMqtt.is_connected s = false
  /\ length (publishes (events_of o)) = 1%nat
  /\ ~ StopSession.publishes_while_connected (trace_of o).
Proof.
  vm_compute. repeat split. intros H. inversion H as [| p tr Hp Htr]; subst.
  specialize (Hp eq_refl). discriminate Hp.
Qed.

(** ** Shutdown *)

Lemma stop_never_connected scfg dec json (cs : list StopSession.call) :
  forall s, StopSession.ever_connected scfg dec json cs s = false ->
            StopMqtt.is_connected (StopSession.exec scfg dec json cs s).1 = false.
Proof.
  unfold StopSession.ever_connected.
  induction cs as [| c cs IH]; intros s H; simpl in *.
  - apply orb_false_iff in H as [H _]. exact H.
  - apply orb_false_iff in H as [_ H]. specialize (IH _ H).
    destruct (StopSession.exec _ _ _ cs _) as [s' tr]. exact IH.
Qed.

Lemma bus_never_connected bcfg dec json (cs : list BusSession.call) :
  forall b, BusSession.ever_connected bcfg dec json cs b = false ->
            BusMqtt.is_connected (BusSession.exec bcfg dec json cs b).1 = false.
Proof.
  unfold BusSession.ever_connected.
  induction cs as [| c cs IH]; intros b H; simpl in *.
  - apply orb_false_iff in H as [H _]. exact H.
  - apply orb_false_iff in H as [_ H]. specialize (IH _ H).
    destruct (BusSession.exec _ _ _ cs _) as [b' tr]. exact IH.
Qed.

Lemma stop_disconnect_publishes scfg now (s : StopMqtt.MQTTClient) :
  publishes (events_of (StopMqtt.disconnect scfg now s))
  = if bool_decide (StopMqtt.client s <> None) && StopMqtt.is_connected s
    then [T_publish (StopConfig.topic_status scfg)
            (PDict [("status", PStr "offline"); ("stopId", PStr (StopConfig.STOP_ID scfg));
                    ("stopName", PStr (StopConfig.STOP_NAME scfg));
                    ("timestamp", PIsoTime now);
                    ("routes", StopConfig.route_ids scfg)]) 1 true]
    else [].
Proof.
  destruct s as [cl conn cbs lh ht run].
  unfold StopMqtt.disconnect, StopMqtt._publish_status, StopMqtt.client_call. run_m. simpl.
  destruct cl as [c |], conn, ht; simpl; repeat case_bool_decide; try congruence;
    reflexivity.
Qed.

Lemma bus_disconnect_publishes bcfg now (b : BusMqtt.MQTTClient) :
  publishes (events_of (BusMqtt.disconnect bcfg now b))
  = if bool_decide (BusMqtt.client b <> None) && BusMqtt.is_connected b
    then [T_publish (BusConfig.topic_bus_status bcfg)
            (PDict [("busId", PStr (BusConfig.BUS_ID bcfg));
                    ("routeId", PStr (BusConfig.ROUTE_ID bcfg));
                    ("status", PStr "offline"); ("timestamp", PIsoTime now)]) 1 true]
    else [].
Proof.
  destruct b as [cl conn cbs ht run].
  unfold BusMqtt.disconnect, BusMqtt._publish_status, BusMqtt.client_call. run_m. simpl.
  destruct cl as [c |], conn; simpl; repeat case_bool_decide; try congruence;
    reflexivity.
Qed.

(** C9 (as amended).  [disconnect] makes the retained offline status
    publish exactly when, at the time of the call, the client has been
    created and [is_connected] is true; it makes no publish otherwise.
    In particular it makes none after an execution in which the session
    was never connected. *)
Theorem disconnect_publishes_offline_iff_connected
  (scfg : StopConfig.Config) (bcfg : BusConfig.Config)
  (dec : list Byte.byte -> option string) (json : string -> loads_result)
  (scs : list StopSession.call) (bcs : list BusSession.call) (now : Z) :
  let s := (StopSession.exec scfg dec json scs StopMqtt.new).1 in
  let b := (BusSession.exec bcfg dec json bcs BusMqtt.new).1 in
  (publishes (events_of (StopMqtt.disconnect scfg now s))
   = if bool_decide (StopMqtt.client s <> None) && StopMqtt.is_connected s
     then [T_publish (StopConfig.topic_status scfg)
             (PDict [("status", PStr "offline"); ("stopId", PStr (StopConfig.STOP_ID scfg));
                     ("stopName", PStr (StopConfig.STOP_NAME scfg));
                     ("timestamp", PIsoTime now);
                     ("routes", StopConfig.route_ids scfg)]) 1 true]
     else [])
  /\ (publishes (events_of (BusMqtt.disconnect bcfg now b))
      = if bool_decide (BusMqtt.client b <> None) && BusMqtt.is_connected b
        then [T_publish (BusConfig.topic_bus_status bcfg)
                (PDict [("busId", PStr (BusConfig.BUS_ID bcfg));
                        ("routeId", PStr (BusConfig.ROUTE_ID bcfg));
                        ("status", PStr "offline"); ("timestamp", PIsoTime now)]) 1 true]
        else [])
  /\ (StopSession.ever_connected scfg dec json scs StopMqtt.new = false ->
      publishes (events_of (StopMqtt.disconnect scfg now s)) = [])
  /\ (BusSession.ever_connected bcfg dec json bcs BusMqtt.new = false ->
      publishes (events_of (BusMqtt.disconnect bcfg now b)) = []).
Proof.
  intros s b.
  split; [apply stop_disconnect_publishes |].
  split; [apply bus_disconnect_publishes |].
  split.
  - intros H. rewrite stop_disconnect_publishes.
    subst s. rewrite (stop_never_connected _ _ _ _ _ H), andb_false_r. reflexivity.
  - intros H. rewrite bus_disconnect_publishes.
    subst b. rewrite (bus_never_connected _ _ _ _ _ H), andb_false_r. reflexivity.
Qed.

Lemma disconnect_publishes_offline_iff_connected_witness :
  publishes (events_of (StopMqtt.disconnect StopConfig.defaults 5000 Samples.stop_initialised))
  = []
  /\ publishes (events_of (BusMqtt.disconnect BusConfig.defaults 5000 Samples.bus_initialised))
     = [].
Proof.
  destruct (disconnect_publishes_offline_iff_connected StopConfig.defaults BusConfig.defaults
              UTF8.decode JSON.loads [StopSession.C_initialize (-100)]
              [BusSession.C_initialize (-100)] 5000) as (_ & _ & Hs & Hb).
  split; [apply Hs; reflexivity | apply Hb; reflexivity].
Defined.

(** C9, as stated, fails: a session that was connected and then lost
    its connection gets no offline publish from [disconnect]. *)
Lemma offline_publish_after_drop_counterexample :
  let s := (StopSession.exec StopConfig.defaults UTF8.decode JSON.loads
              Samples.stop_calls_to_dropped StopMqtt.new).1 in
  StopSession.ever_connected StopConfig.defaults UTF8.decode JSON.loads
    Samples.stop_calls_to_dropped StopMqtt.new = true
  /\ publishes (events_of (StopMqtt.disconnect StopConfig.defaults 100000 s)) = [].
Proof. vm_compute. split; reflexivity. Qed.

(** ** Inbound messages *)

Lemma items_present (parts : list string) :
  (4 <=? length parts)%nat = true ->
  exists r st, PyStr.item_m1 parts = Some r /\ PyStr.item_m2 parts = Some st.
Proof.
  intros H. apply Nat.leb_le in H. unfold PyStr.item_m1, PyStr.item_m2.
  destruct (length parts) as [| [| n]] eqn:Hlen; try lia.
  destruct (lookup_lt_is_Some_2 parts (S (S n) - 1)%nat ltac:(lia)) as [r Hr].
  destruct (lookup_lt_is_Some_2 parts n ltac:(lia)) as [st Hst].
  exists r, st. split; assumption.
Qed.

Section BusMessageFacts.
Import BusConfig BusMqtt.
Variable cfg : Config.
Variable bytes_decode : list Byte.byte -> option string.
Variable json_loads : string -> loads_result.

(** [_on_message] routes as [BusRouter.route] says: on a payload that
    decodes as text and that [json.loads] parses, or rejects with
    JSONDecodeError, it returns, leaves the client as it was, and after
    the debug line does what [BusRouter.dispatch] does with the routed
    event, on the parsed payload [v] or, for the text that is not JSON,
    on the raw text. *)
Lemma bus_on_message_routes (topic : string) (payload : list Byte.byte) (text : string)
  (v : pyval) (s : MQTTClient) :
  bytes_decode payload = Some text ->
  json_loads text = Loaded v
  \/ (json_loads text = LoadsRaises JSONDecodeError /\ v = PStr text) ->
  _on_message cfg bytes_decode json_loads topic payload s
  = (Ok tt, s,
     (s, E_log DEBUG "message received")
     :: BusRouter.dispatch s (BusRouter.route (ROUTE_ID cfg) topic) v).
Proof.
  intros Hdec Hjson. unfold _on_message, BusRouter.route. rewrite Hdec. cbv zeta.
  destruct (PyStr.startswith topic "device/button/").
  - destruct (4 <=? length (PyStr.split PyStr.slash topic))%nat eqn:Hlen.
    + destruct (items_present _ Hlen) as (r & st & -> & ->).
      run_m. destruct Hjson as [-> | [-> ->]]; simpl;
        destruct (String.eqb r (ROUTE_ID cfg)); simpl;
          try destruct (message_callbacks s !! "route_call"); reflexivity.
    + run_m. destruct Hjson as [-> | [-> ->]]; reflexivity.
  - unfold topic_system_health. run_m.
    destruct Hjson as [-> | [-> ->]]; simpl;
      destruct (String.eqb topic "system/health"); simpl;
        try destruct (message_callbacks s !! "system_health"); reflexivity.
Qed.

(** A payload that cannot be decoded as UTF-8 is raised to the caller of
    [_on_message]: the decoding is outside the [try]. *)
Lemma bus_on_message_raises_on_bad_utf8 (topic : string) (payload : list Byte.byte)
  (s : MQTTClient) :
  bytes_decode payload = None ->
  _on_message cfg bytes_decode json_loads topic payload s = (Raise UnicodeDecodeError, s, []).
Proof. intros Hdec. unfold _on_message. run_m. rewrite Hdec. reflexivity. Qed.

(** So is whatever [json.loads] raises that is not a JSONDecodeError: the
    RecursionError of a text nested too deep. *)
Lemma bus_on_message_raises_other (topic : string) (payload : list Byte.byte)
  (text : string) (e : exn) (s : MQTTClient) :
  bytes_decode payload = Some text ->
  json_loads text = LoadsRaises e ->
  e <> JSONDecodeError ->
  _on_message cfg bytes_decode json_loads topic payload s = (Raise e, s, []).
Proof.
  intros Hdec Hjson He. unfold _on_message. run_m. rewrite Hdec. simpl. rewrite Hjson.
  destruct e; try congruence; reflexivity.
Qed.

(** Where the payload can be used, routing is a function of the topic and
    of the configured route id.  With configured route id 100 the topic
    device/button/STOP1/100 is a button press with stop id STOP1 and
    route id 100, the last two segments of the topic, and the callback
    registered for route calls is invoked with the stop id and the
    payload; with any other configured route id the topic is
    unrecognized and the message is ignored: after the debug line there
    is no call and no callback. *)
Lemma button_topic_routing_decodable (payload : list Byte.byte) (text : string) (v : pyval)
  (s : MQTTClient) :
  bytes_decode payload = Some text ->
  json_loads text = Loaded v
  \/ (json_loads text = LoadsRaises JSONDecodeError /\ v = PStr text) ->
  let o := _on_message cfg bytes_decode json_loads "device/button/STOP1/100" payload s in
  BusRouter.route "100" "device/button/STOP1/100" = BusRouter.ButtonPress "STOP1" "100"
  /\ (ROUTE_ID cfg = "100" ->
      o = (Ok tt, s,
           (s, E_log DEBUG "message received")
           :: (s, E_log INFO "호출 감지: 정류장 STOP1 (노선 100)")
           :: match message_callbacks s !! "route_call" with
              | Some callback => [(s, E_invoke callback [PStr "STOP1"; v])]
              | None => []
              end))
  /\ (ROUTE_ID cfg <> "100" ->
      BusRouter.route (ROUTE_ID cfg) "device/button/STOP1/100" = BusRouter.Unrecognized
      /\ o = (Ok tt, s, [(s, E_log DEBUG "message received")])).
Proof.
  intros Hdec Hjson o. subst o.
  rewrite (bus_on_message_routes _ _ text v) by assumption.
  split; [reflexivity |]. split.
  - intros ->. reflexivity.
  - intros Hne. apply not_eq_sym, String.eqb_neq in Hne.
    change (BusRouter.route (ROUTE_ID cfg) "device/button/STOP1/100")
      with (if String.eqb "100" (ROUTE_ID cfg)
            then BusRouter.ButtonPress "STOP1" "100" else BusRouter.Unrecognized).
    rewrite Hne. split; reflexivity.
Qed.

End BusMessageFacts.

(** C6.  The routing rule is a function of the topic and of the
    configured route id: device/button/STOP1/100 is a button press of
    stop STOP1 on route 100 for the vehicle of route 100.  The handler of
    the vehicle does not follow it on every message: it decodes the
    payload before it routes, outside any [try], and catches only
    JSONDecodeError from [json.loads].  On this topic, on the vehicle of
    route 100 with the route-call callback registered, the payload ff fe
    (not UTF-8) raises UnicodeDecodeError and a payload of 1000 opening
    brackets raises RecursionError: no callback is invoked, where the
    same topic with the payload {} invokes it. *)
Theorem button_topic_routing_payload_raises :
  let s := BusMqtt.with_message_callbacks {[ "route_call" := H_on_route_call ]}
             Samples.bus_connected in
  let handle := BusMqtt._on_message BusConfig.defaults UTF8.decode JSON.loads
                  "device/button/STOP1/100" in
  BusConfig.ROUTE_ID BusConfig.defaults = "100"
  /\ BusRouter.route "100" "device/button/STOP1/100" = BusRouter.ButtonPress "STOP1" "100"
  /\ invoked (events_of (handle (UTF8.encode "{}") s))
     = [(H_on_route_call, [PStr "STOP1"; PDict []])]
  /\ UTF8.decode [Byte.xff; Byte.xfe] = None
  /\ handle [Byte.xff; Byte.xfe] s = (Raise UnicodeDecodeError, s, [])
  /\ JSON.loads JSON.deeply_nested = LoadsRaises RecursionError
  /\ handle (UTF8.encode JSON.deeply_nested) s = (Raise RecursionError, s, []).
Proof. vm_compute. repeat split. Qed.

Section StopMessageFacts.
Import StopConfig StopMqtt.
Variable cfg : Config.
Variable bytes_decode : list Byte.byte -> option string.
Variable json_loads : string -> loads_result.


End StopMessageFacts.




(** * Further properties of the code *)

(** ** The configuration and the GPIO controller of the stop, method by method *)

Section StopGpioMore.
Import StopConfig StopGpio StopGpioRuns.
Variable GPIO_AVAILABLE : bool.
Variable cfg : Config.

(** *** validate_config *)

Ltac pins_solver :=
  simpl in *;
  rewrite ?not_elem_of_union, ?not_elem_of_singleton in *;
  intuition congruence.

Lemma pins_fresh_spec (routes : list (string * route_config)) : forall used : gset Z,
  pins_fresh used routes = true
  <-> Forall (fun p => (button_pin (snd p) ∉ used) /\ (led_pin (snd p) ∉ used)) routes
      /\ ForallOrdPairs no_shared_pin routes.
Proof.
  induction routes as [| [k rc] rest IH]; intros used; simpl.
  - split; [intros _; split; constructor | reflexivity].
  - destruct (bool_decide (button_pin rc ∈ used)) eqn:Hb; simpl.
    { apply bool_decide_eq_true in Hb. split; [discriminate |].
      intros [H _]. inversion H as [| ? ? [Hnb _] _]; subst. contradiction. }
    destruct (bool_decide (led_pin rc ∈ used)) eqn:Hl; simpl.
    { apply bool_decide_eq_true in Hl. split; [discriminate |].
      intros [H _]. inversion H as [| ? ? [_ Hnl] _]; subst. contradiction. }
    apply bool_decide_eq_false in Hb, Hl.
    rewrite IH. split.
    + intros [Hfresh Hpairs]. split.
      * constructor; [split; assumption |].
        eapply Forall_impl; [exact Hfresh |]. intros p [H1 H2]. split; pins_solver.
      * constructor; [| exact Hpairs].
        eapply Forall_impl; [exact Hfresh |]. intros p [H1 H2].
        unfold no_shared_pin. simpl. repeat split; pins_solver.
    + intros [Hfresh Hpairs].
      inversion Hfresh as [| ? ? _ Hrest]; subst.
      inversion Hpairs as [| ? ? Hrc Hpairs']; subst.
      split; [| exact Hpairs'].
      apply Forall_forall. intros p Hp.
      rewrite Forall_forall in Hrest, Hrc.
      destruct (Hrest p Hp) as [H1 H2]. destruct (Hrc p Hp) as (A & B & C & D).
      simpl in *. split; pins_solver.
Qed.

(** X1.  [validate_config] accepts a configuration exactly when it has
    at least one route and no pin of a route, button or LED, is a pin of
    another route.  The two pins of one route are not compared with each
    other: a route whose button and LED share a pin is accepted. *)
Theorem validate_config_spec (c : Config) :
  validate_config c = true
  <-> ROUTES_CONFIG c <> [] /\ ForallOrdPairs no_shared_pin (ROUTES_CONFIG c).
Proof.
  unfold validate_config. destruct (ROUTES_CONFIG c) as [| r rest] eqn:E.
  - split; [discriminate | intros [H _]; congruence].
  - rewrite pins_fresh_spec. split.
    + intros [_ H]. split; [discriminate | exact H].
    + intros [_ H]. split; [| exact H].
      apply Forall_forall. intros p _. split; apply not_elem_of_empty.
Qed.

(** *** set_led, toggle_led *)

Lemma set_led_on_configured (g : GPIOController) (route_id : string) (rc : route_config)
  (b : bool) :
  route_lookup route_id (routes_config g) = Some rc ->
  let o := set_led GPIO_AVAILABLE route_id b g in
  result_of o = Ok true
  /\ state_of o = with_led_states (<[route_id := b]> (led_states g)) g
  /\ events_of o = set_led_calls GPIO_AVAILABLE rc b.
Proof.
  intros Hrc. unfold set_led, set_led_calls. run_m. rewrite Hrc.
  destruct GPIO_AVAILABLE; simpl; repeat split.
Qed.

(** X2.  On a configured route [set_led] returns true, [get_led_state]
    then reads the state that was set, and nothing else changes: the
    LEDs of the other routes, the button states and the times of the
    last presses are as before.  On the Raspberry Pi the LED pin of the
    route is written once, on a development machine never. *)
Theorem set_led_reads_back (g : GPIOController) (route_id : string) (rc : route_config)
  (b : bool) :
  route_lookup route_id (routes_config g) = Some rc ->
  let o := set_led GPIO_AVAILABLE route_id b g in
  result_of o = Ok true
  /\ get_led_state (state_of o) route_id = b
  /\ (forall r, r <> route_id -> get_led_state (state_of o) r = get_led_state g r)
  /\ (forall r, get_button_state (state_of o) r = get_button_state g r)
  /\ last_button_press (state_of o) = last_button_press g
  /\ output_count (led_pin rc) b (events_of o) = (if GPIO_AVAILABLE then 1 else 0)%nat.
Proof.
  intros Hrc o. subst o.
  destruct (set_led_on_configured g route_id rc b Hrc) as (Hres & Hst & Hev).
  rewrite Hres, Hst, Hev. unfold get_led_state, get_button_state, set_led_calls, output_count.
  simpl. rewrite lookup_insert_eq. repeat split.
  - intros r Hr. rewrite lookup_insert_ne by congruence. reflexivity.
  - destruct GPIO_AVAILABLE; simpl; [| reflexivity].
    rewrite Z.eqb_refl, Bool.eqb_reflx. reflexivity.
Qed.

(** X3.  On a configured route [toggle_led] inverts the LED state, and
    two toggles in a row leave every LED state as it was. *)
Theorem toggle_led_twice (g : GPIOController) (route_id : string) (rc : route_config) :
  route_lookup route_id (routes_config g) = Some rc ->
  let o1 := toggle_led GPIO_AVAILABLE route_id g in
  let o2 := toggle_led GPIO_AVAILABLE route_id (state_of o1) in
  result_of o1 = Ok true /\ result_of o2 = Ok true
  /\ get_led_state (state_of o1) route_id = negb (get_led_state g route_id)
  /\ forall r, get_led_state (state_of o2) r = get_led_state g r.
Proof.
  intros Hrc o1 o2. subst o1 o2. unfold toggle_led.
  assert (Hstep : forall g0, route_lookup route_id (routes_config g0) = Some rc ->
            (get ≫= (fun g1 : GPIOController =>
               set_led GPIO_AVAILABLE route_id (negb (default false (led_states g1 !! route_id)))))
              g0
            = set_led GPIO_AVAILABLE route_id (negb (get_led_state g0 route_id)) g0).
  { intros g0 _. unfold get_led_state. run_m.
    destruct (set_led _ _ _ g0) as [[r s] tr]. rewrite app_nil_l. reflexivity. }
  rewrite (Hstep g Hrc).
  destruct (set_led_on_configured g route_id rc (negb (get_led_state g route_id)) Hrc)
    as (Hres & Hst & _).
  rewrite Hres, Hst.
  set (g1 := with_led_states _ g).
  assert (Hrc1 : route_lookup route_id (routes_config g1) = Some rc) by exact Hrc.
  rewrite (Hstep g1 Hrc1).
  destruct (set_led_on_configured g1 route_id rc (negb (get_led_state g1 route_id)) Hrc1)
    as (Hres1 & Hst1 & _).
  rewrite Hres1, Hst1. subst g1. unfold get_led_state. simpl.
  rewrite !lookup_insert_eq. simpl. rewrite negb_involutive.
  repeat split. intros r. destruct (decide (r = route_id)) as [-> | Hne].
  - rewrite lookup_insert_eq. reflexivity.
  - rewrite !lookup_insert_ne by congruence. reflexivity.
Qed.

(** *** _button_callback *)

Lemma button_callback_rejects (g : GPIOController) (route_id : string) (channel now : Z) :
  now - default 0 (last_button_press g !! route_id) < DEBOUNCE_TIME cfg ->
  _button_callback GPIO_AVAILABLE cfg route_id channel now g = (Ok tt, g, []).
Proof.
  intros H. unfold _button_callback. run_m.
  destruct (Z.ltb_spec (now - default 0 (last_button_press g !! route_id))
              (DEBOUNCE_TIME cfg)); [reflexivity | lia].
Qed.

Lemma button_callback_accepts (g : GPIOController) (route_id : string) (channel now : Z) :
  DEBOUNCE_TIME cfg <= now - default 0 (last_button_press g !! route_id) ->
  let o := _button_callback GPIO_AVAILABLE cfg route_id channel now g in
  result_of o = Ok tt
  /\ last_button_press (state_of o) = <[route_id := now]> (last_button_press g)
  /\ button_states (state_of o) = <[route_id := true]> (button_states g)
  /\ routes_config (state_of o) = routes_config g
  /\ button_callbacks (state_of o) = button_callbacks g
  /\ led_states (state_of o)
     = match route_lookup route_id (routes_config g) ≫= name with
       | Some _ => <[route_id := true]> (led_states g)
       | None => led_states g
       end
  /\ spawned (events_of o)
     = match route_lookup route_id (routes_config g), button_callbacks g !! route_id with
       | Some rc, Some callback =>
           match name rc with
           | Some _ => [Th_callback callback route_id rc]
           | None => []
           end
       | _, _ => []
       end.
Proof.
  intros H o. subst o. unfold _button_callback, set_led. run_m.
  destruct (Z.ltb_spec (now - default 0 (last_button_press g !! route_id))
              (DEBOUNCE_TIME cfg)); [lia |].
  simpl. destruct (route_lookup route_id (routes_config g)) as [rc |] eqn:Hrc; simpl.
  - destruct (name rc) as [route_name |]; simpl.
    + rewrite Hrc. destruct GPIO_AVAILABLE; simpl;
        destruct (button_callbacks g !! route_id); simpl; repeat split.
    + destruct (button_callbacks g !! route_id); repeat split.
  - repeat split.
Qed.

(** X4.  Two edges on the same route: after a press accepted at [t1],
    an edge at [t2] less than the debounce time later changes nothing
    and makes no call; one that comes at least the debounce time later
    is accepted and becomes the last press. *)
Theorem debounce_window (g : GPIOController) (route_id : string) (ch1 ch2 t1 t2 : Z) :
  DEBOUNCE_TIME cfg <= t1 - default 0 (last_button_press g !! route_id) ->
  let g1 := state_of (_button_callback GPIO_AVAILABLE cfg route_id ch1 t1 g) in
  let o2 := _button_callback GPIO_AVAILABLE cfg route_id ch2 t2 g1 in
  (t2 - t1 < DEBOUNCE_TIME cfg -> o2 = (Ok tt, g1, []))
  /\ (DEBOUNCE_TIME cfg <= t2 - t1 ->
      last_button_press (state_of o2) !! route_id = Some t2).
Proof.
  intros H1 g1 o2. subst o2.
  destruct (button_callback_accepts g route_id ch1 t1 H1) as (_ & Hlast & _).
  fold g1 in Hlast.
  assert (Hl : default 0 (last_button_press g1 !! route_id) = t1).
  { rewrite Hlast, lookup_insert_eq. reflexivity. }
  split; intros H2.
  - apply button_callback_rejects. rewrite Hl. exact H2.
  - destruct (button_callback_accepts g1 route_id ch2 t2) as (_ & Hlast2 & _).
    { rewrite Hl. exact H2. }
    rewrite Hlast2, lookup_insert_eq. reflexivity.
Qed.

(** X5.  An edge for a route that is not configured, once it is past
    the debounce test, is recorded before the route is looked up: the
    button state and the time of the last press are set, then the lookup
    fails, the error is logged and nothing is raised; no LED changes. *)
Theorem button_callback_unknown_route (g : GPIOController) (route_id : string)
  (channel now : Z) :
  route_lookup route_id (routes_config g) = None ->
  DEBOUNCE_TIME cfg <= now - default 0 (last_button_press g !! route_id) ->
  let o := _button_callback GPIO_AVAILABLE cfg route_id channel now g in
  result_of o = Ok tt
  /\ events_of o = [E_log ERROR "button callback error"]
  /\ led_states (state_of o) = led_states g
  /\ get_button_state (state_of o) route_id = true
  /\ last_button_press (state_of o) !! route_id = Some now.
Proof.
  intros Hrc H o. subst o. unfold _button_callback, get_button_state. run_m.
  destruct (Z.ltb_spec (now - default 0 (last_button_press g !! route_id))
              (DEBOUNCE_TIME cfg)); [lia |].
  simpl. rewrite Hrc. simpl. rewrite !lookup_insert_eq. repeat split.
Qed.

End StopGpioMore.

(** *** Loops *)

Lemma total_sleep_app (a b : list event) : total_sleep (a ++ b) = total_sleep a + total_sleep b.
Proof.
  induction a as [| e a IH]; simpl; [reflexivity |].
  destruct e; rewrite ?IH; lia.
Qed.

Lemma for_each_steps {St A} (Inv : St -> Prop) (step : A -> St -> St) (slept : A -> Z)
  (body : A -> M St unit) (l : list A) :
  (forall x s, x ∈ l -> Inv s ->
     result_of (body x s) = Ok tt /\ state_of (body x s) = step x s
     /\ total_sleep (events_of (body x s)) = slept x /\ Inv (step x s)) ->
  forall s, Inv s ->
    result_of (for_each l body s) = Ok tt
    /\ state_of (for_each l body s) = foldl (fun s x => step x s) s l
    /\ total_sleep (events_of (for_each l body s)) = foldr Z.add 0 (slept <$> l)
    /\ Inv (state_of (for_each l body s)).
Proof.
  induction l as [| x l IH]; intros Hbody s Hs; simpl.
  - repeat split. exact Hs.
  - destruct (Hbody x s ltac:(left) Hs) as (Hr & Hst & Hsl & Hinv).
    destruct (IH (fun y s' Hy => Hbody y s' ltac:(right; exact Hy)) (step x s) Hinv)
      as (Hr' & Hst' & Hsl' & Hinv').
    run_m. destruct (body x s) as [[r s1] tr1]. simpl in *. subst r s1.
    destruct (for_each l body (step x s)) as [[r2 s2] tr2]. simpl in *. subst r2.
    repeat split; try assumption.
    rewrite fmap_app, total_sleep_app, Hsl, Hsl'. reflexivity.
Qed.

Section StopGpioLoops.
Import StopConfig StopGpio StopGpioRuns.
Variable GPIO_AVAILABLE : bool.
Variable cfg : Config.

(** *** initialize *)

Lemma init_fold (l : list (string * route_config)) : forall g : GPIOController,
  let g' := foldl (fun g p => init_route p g) g l in
  routes_config g' = routes_config g
  /\ button_callbacks g' = button_callbacks g
  /\ _initialized g' = _initialized g
  /\ forall r,
       led_states g' !! r
       = match route_lookup r l with Some _ => Some false | None => led_states g !! r end
       /\ button_states g' !! r
         = match route_lookup r l with Some _ => Some false | None => button_states g !! r end
       /\ last_button_press g' !! r
         = match route_lookup r l with Some _ => Some 0 | None => last_button_press g !! r end.
Proof.
  induction l as [| [k rc] l IH]; intros g; simpl.
  - repeat split.
  - destruct (IH (init_route (k, rc) g)) as (HR & Hcb & Hi & Hmaps).
    split; [exact HR |]. split; [exact Hcb |]. split; [exact Hi |].
    intros r. destruct (Hmaps r) as (Hl & Hb & Ht). rewrite Hl, Hb, Ht.
    unfold init_route. simpl.
    destruct (route_lookup r l) as [rc' |].
    + destruct (String.eqb k r); repeat split.
    + destruct (String.eqb_spec k r) as [-> | Hne].
      * rewrite !lookup_insert_eq. repeat split.
      * rewrite !lookup_insert_ne by exact Hne. repeat split.
Qed.

Lemma initialize_on_pi (g : GPIOController) :
  GPIO_AVAILABLE = true ->
  let o := initialize GPIO_AVAILABLE cfg g in
  result_of o = Ok true
  /\ _initialized (state_of o) = true
  /\ routes_config (state_of o) = routes_config g
  /\ button_callbacks (state_of o) = button_callbacks g
  /\ (forall r rc, route_lookup r (routes_config g) = Some rc ->
       led_states (state_of o) !! r = Some false
       /\ button_states (state_of o) !! r = Some false
       /\ last_button_press (state_of o) !! r = Some 0)
  /\ (forall r, route_lookup r (routes_config g) = None ->
       led_states (state_of o) !! r = led_states g !! r
       /\ button_states (state_of o) !! r = button_states g !! r
       /\ last_button_press (state_of o) !! r = last_button_press g !! r).
Proof.
  intros Havail o. subst o. unfold initialize. rewrite Havail. simpl.
  set (body := fun p : string * route_config => _).
  destruct (for_each_steps (fun _ => True) init_route (fun _ => 0) body (routes_config g))
    with (s := g) as (Hr & Hst & _ & _); [| exact I |].
  { intros [k rc] s _ _. subst body. unfold init_route. run_m. simpl. repeat split. }
  destruct (init_fold (routes_config g) g) as (HR & Hcb & Hi & Hmaps).
  run_m. simpl. destruct (for_each (routes_config g) body g) as [[r s1] tr1].
  simpl in Hr, Hst. subst r.
  rewrite <- Hst in HR, Hcb, Hi, Hmaps. clear Hst. simpl.
  split; [reflexivity |]. split; [reflexivity |].
  split; [exact HR |]. split; [exact Hcb |].
  split; intros r; [intros rc Hrc | intros Hrc];
    destruct (Hmaps r) as (Hl & Hb & Ht); rewrite Hl, Hb, Ht, Hrc; repeat split.
Qed.

(** X6.  On the Raspberry Pi [initialize] succeeds and resets every configured
    route: LED off, button not pressed, last press at 0; it is the only
    method that resets the button state.  The routes that are not
    configured and the registered callbacks are left as they were. *)
Theorem initialize_resets_routes (g : GPIOController) :
  GPIO_AVAILABLE = true ->
  let o := initialize GPIO_AVAILABLE cfg g in
  result_of o = Ok true
  /\ _initialized (state_of o) = true
  /\ routes_config (state_of o) = routes_config g
  /\ button_callbacks (state_of o) = button_callbacks g
  /\ (forall r rc, route_lookup r (routes_config g) = Some rc ->
       led_states (state_of o) !! r = Some false
       /\ button_states (state_of o) !! r = Some false
       /\ last_button_press (state_of o) !! r = Some 0)
  /\ (forall r, route_lookup r (routes_config g) = None ->
       led_states (state_of o) !! r = led_states g !! r
       /\ button_states (state_of o) !! r = button_states g !! r
       /\ last_button_press (state_of o) !! r = last_button_press g !! r).
Proof. exact (initialize_on_pi g). Qed.


(** X7.  Where RPi.GPIO is missing [initialize] returns true and does
    nothing else: no state is set up and [_initialized] stays as it was,
    so that [is_available] is false. *)
Theorem initialize_mock_is_noop (g : GPIOController) :
  GPIO_AVAILABLE = false ->
  initialize GPIO_AVAILABLE cfg g
  = (Ok true, g, [(g, E_log WARNING "GPIO module not available")])
  /\ is_available GPIO_AVAILABLE (state_of (initialize GPIO_AVAILABLE cfg g)) = false.
Proof. intros ->. split; reflexivity. Qed.

End StopGpioLoops.

(** *** cleanup, test_all_leds *)

Section StopGpioCleanup.
Import StopConfig StopGpio StopGpioRuns.
Variable GPIO_AVAILABLE : bool.
Variable cfg : Config.

Lemma led_off_fold (step : string * route_config -> GPIOController -> GPIOController)
  (l : list (string * route_config)) :
  (forall p g,
      routes_config (step p g) = routes_config g
      /\ button_states (step p g) = button_states g
      /\ last_button_press (step p g) = last_button_press g
      /\ button_callbacks (step p g) = button_callbacks g
      /\ _initialized (step p g) = _initialized g
      /\ forall r, led_states (step p g) !! r
                   = if String.eqb p.1 r then Some false else led_states g !! r) ->
  forall g,
    let g' := foldl (fun g p => step p g) g l in
    routes_config g' = routes_config g
    /\ button_states g' = button_states g
    /\ last_button_press g' = last_button_press g
    /\ button_callbacks g' = button_callbacks g
    /\ _initialized g' = _initialized g
    /\ forall r, led_states g' !! r
                 = match route_lookup r l with
                   | Some _ => Some false
                   | None => led_states g !! r
                   end.
Proof.
  intros Hstep. induction l as [| [k rc] l IH]; intros g; simpl.
  - repeat split.
  - destruct (IH (step (k, rc) g)) as (HR & Hb & Ht & Hcb & Hi & Hled).
    destruct (Hstep (k, rc) g) as (HR' & Hb' & Ht' & Hcb' & Hi' & Hled').
    repeat split; try congruence.
    intros r. rewrite Hled, Hled'. simpl.
    destruct (route_lookup r l); destruct (String.eqb k r); reflexivity.
Qed.

Lemma sum_constant {A} (c : Z) (l : list A) :
  foldr Z.add 0 ((fun _ => c) <$> l) = Z.of_nat (length l) * c.
Proof.
  induction l as [| x l IH]; [reflexivity |].
  rewrite fmap_cons. cbn [foldr length]. rewrite IH. lia.
Qed.

(** X8.  On an initialised controller on the Raspberry Pi [cleanup]
    returns with the LED of every configured route recorded off; button
    states, last presses and callbacks are untouched, and
    [_initialized] is not reset: [is_available] is still true. *)
Theorem cleanup_turns_leds_off (g : GPIOController) :
  GPIO_AVAILABLE = true ->
  _initialized g = true ->
  let o := cleanup GPIO_AVAILABLE g in
  result_of o = Ok tt
  /\ (forall r, get_led_state (state_of o) r
                = match route_lookup r (routes_config g) with
                  | Some _ => false
                  | None => get_led_state g r
                  end)
  /\ button_states (state_of o) = button_states g
  /\ last_button_press (state_of o) = last_button_press g
  /\ button_callbacks (state_of o) = button_callbacks g
  /\ is_available GPIO_AVAILABLE (state_of o) = true.
Proof.
  intros Havail Hinit o. subst o. unfold cleanup, is_available.
  set (step := fun (p : string * route_config) (g : GPIOController) =>
                 with_led_states (<[p.1 := false]> (led_states g)) g).
  set (body1 := fun '(route_id, _) => set_led GPIO_AVAILABLE route_id false;; ret tt).
  set (body2 := fun '(_, rc) => emit (E_gpio_remove_event_detect (button_pin rc))).
  destruct (for_each_steps (fun s => routes_config s = routes_config g) step (fun _ => 0)
              body1 (routes_config g)) with (s := g) as (Hr & Hst & _ & HR1);
    [| reflexivity |].
  { intros [k rc] s Hin HR. subst body1 step. simpl.
    destruct (route_lookup k (routes_config s)) as [rc' |] eqn:Hrc.
    2:{ exfalso. eapply route_lookup_elem; [| exact Hrc]. rewrite HR. exact Hin. }
    unfold set_led. run_m. rewrite Hrc, Havail. simpl. repeat split. exact HR. }
  destruct (led_off_fold step (routes_config g)) with (g := g)
    as (HR & Hb & Ht & Hcb & Hi & Hled).
  { intros p g0. subst step. simpl. repeat split. intros r.
    destruct (String.eqb_spec p.1 r) as [-> | Hne];
      [apply lookup_insert_eq | apply lookup_insert_ne; exact Hne]. }
  rewrite <- Hst in HR, Hb, Ht, Hcb, Hi, Hled. clear Hst.
  run_m. rewrite Havail, Hinit. simpl.
  destruct (for_each (routes_config g) body1 g) as [[r1 s1] tr1]. simpl in *. subst r1.
  destruct (for_each_steps (fun _ => True) (fun _ s => s) (fun _ => 0)
              body2 (routes_config g)) with (s := s1) as (Hr2 & Hst2 & _ & _);
    [| exact I |].
  { intros [k rc] s _ _. subst body2. repeat split. }
  assert (Hid : forall (l : list (string * route_config)) (s : GPIOController),
             foldl (fun s _ => s) s l = s).
  { induction l; intros; simpl; auto. }
  rewrite Hid in Hst2.
  destruct (for_each (routes_config g) body2 s1) as [[r2 s2] tr2].
  unfold result_of, state_of in Hr2, Hst2. simpl in Hr2, Hst2. subst r2 s2.
  simpl. rewrite Hi, Hinit.
  repeat split; try assumption.
  intros r. unfold get_led_state. rewrite Hled.
  destruct (route_lookup r (routes_config g)); reflexivity.
Qed.

(** X9.  Without RPi.GPIO, or before [initialize], [cleanup] does
    nothing at all: no call, not even a log line, and the LED states stay
    as they were. *)
Theorem cleanup_without_gpio_is_noop (g : GPIOController) :
  GPIO_AVAILABLE = false \/ _initialized g = false ->
  cleanup GPIO_AVAILABLE g = (Ok tt, g, []).
Proof.
  intros H. unfold cleanup. run_m.
  destruct H as [-> | ->]; [reflexivity | destruct GPIO_AVAILABLE; reflexivity].
Qed.

(** X10.  [test_all_leds] with a non-negative duration lights each
    configured LED in turn and ends with all of them recorded off,
    whatever was lit before: it does not put the LEDs back.  It sleeps
    [duration] plus 0.2 s per route. *)
Theorem test_all_leds_ends_off (g : GPIOController) (duration : Z) :
  0 <= duration ->
  let o := test_all_leds GPIO_AVAILABLE duration g in
  result_of o = Ok tt
  /\ (forall r, get_led_state (state_of o) r
                = match route_lookup r (routes_config g) with
                  | Some _ => false
                  | None => get_led_state g r
                  end)
  /\ button_states (state_of o) = button_states g
  /\ total_sleep (events_of o) = Z.of_nat (length (routes_config g)) * (duration + 200).
Proof.
  intros Hd o. subst o. unfold test_all_leds.
  set (step := fun (p : string * route_config) (g : GPIOController) =>
                 with_led_states (<[p.1 := false]> (<[p.1 := true]> (led_states g))) g).
  set (body := fun '(route_id, _) => _).
  destruct (for_each_steps (fun s => routes_config s = routes_config g) step
              (fun _ => duration + 200) body (routes_config g)) with (s := g)
    as (Hr & Hst & Hsl & _); [| reflexivity |].
  { intros [k rc] s Hin HR. subst body step. simpl.
    destruct (route_lookup k (routes_config s)) as [rc' |] eqn:Hrc.
    2:{ exfalso. eapply route_lookup_elem; [| exact Hrc]. rewrite HR. exact Hin. }
    unfold set_led. run_m. run_m. simpl. rewrite Hrc.
    destruct (Z.ltb_spec duration 0) as [? | _]; [lia |].
    destruct GPIO_AVAILABLE; simpl; rewrite ?Hrc; simpl; repeat split; try exact HR; lia. }
  destruct (led_off_fold step (routes_config g)) with (g := g)
    as (HR & Hb & Ht & Hcb & Hi & Hled).
  { intros p g0. subst step. simpl. repeat split. intros r.
    destruct (String.eqb_spec p.1 r) as [-> | Hne];
      [apply lookup_insert_eq | rewrite !lookup_insert_ne by exact Hne; reflexivity]. }
  rewrite <- Hst in HR, Hb, Ht, Hcb, Hi, Hled. clear Hst.
  run_m. simpl.
  destruct (for_each (routes_config g) body g) as [[r1 s1] tr1]. simpl in *. subst r1.
  simpl. repeat split; try assumption.
  - intros r. unfold get_led_state. rewrite Hled.
    destruct (route_lookup r (routes_config g)); reflexivity.
  - rewrite fmap_app, total_sleep_app, Hsl, sum_constant. simpl. lia.
Qed.

End StopGpioCleanup.

(** *** The button state *)

Section StopGpioSticky.
Import StopConfig StopGpio StopGpioRuns.
Variable GPIO_AVAILABLE : bool.
Variable cfg : Config.

Lemma set_led_keeps_pressed (r route_id : string) (b : bool) :
  preserves (pressed r) (set_led GPIO_AVAILABLE route_id b).
Proof.
  unfold set_led. apply preserves_try_except; [| intros e; pres].
  apply preserves_get_bind. intros g Hg.
  destruct (route_lookup route_id (routes_config g)); [| pres].
  destruct GPIO_AVAILABLE; simpl; pres; apply preserves_modify; intros s Hs; exact Hs.
Qed.

#[local] Hint Resolve set_led_keeps_pressed : keeps.

Lemma blink_loop_keeps_pressed (r : string) (fuel : nat) (route_id : string)
  (duration interval : pyval) (start_time now : Z) :
  preserves (pressed r)
    (blink_loop GPIO_AVAILABLE fuel route_id duration interval start_time now).
Proof.
  revert now. induction fuel as [| fuel IH]; intros now; simpl; [pres |].
  destruct (as_number duration) as [d |]; [| pres].
  destruct (_ <? _); [| pres].
  pres.
Qed.

#[local] Hint Resolve blink_loop_keeps_pressed : keeps.

Lemma run_keeps_pressed (r : string) (c : call) :
  not_initialize c = true -> preserves (pressed r) (run GPIO_AVAILABLE cfg c).
Proof.
  destruct c; simpl; intros Hc; try discriminate.
  - unfold cleanup. apply preserves_get_bind. intros g Hg.
    destruct (_ || _); [pres |]. apply preserves_try_except; [| intros e; pres].
    apply preserves_bind; [| intros _; pres].
    + apply preserves_for_each. intros [route_id rc] _. pres.
    + apply preserves_for_each. intros [route_id rc] _. pres.
  - unfold _button_callback. apply preserves_try_except; [| intros e; pres].
    apply preserves_get_bind. intros g Hg.
    destruct (_ <? _); [pres |].
    apply preserves_bind; [apply preserves_modify; intros s Hs; exact Hs | intros _].
    apply preserves_bind.
    { apply preserves_modify. intros s Hs. unfold pressed in *. simpl.
      destruct (decide (route_id = r)) as [-> | Hne];
        [apply lookup_insert_eq | rewrite lookup_insert_ne by exact Hne; exact Hs]. }
    intros _. apply preserves_get_bind. intros g' Hg'.
    apply preserves_bind; [unfold subscript; destruct (route_lookup _ _); pres | intros rc].
    apply preserves_bind; [pres | intros _].
    apply preserves_bind; [pres | intros _].
    apply preserves_bind; [pres | intros _].
    apply preserves_get_bind. intros g'' Hg''.
    destruct (button_callbacks g'' !! route_id); pres.
  - unfold register_button_callback. pres. apply preserves_modify. intros s Hs. exact Hs.
  - pres.
  - unfold toggle_led. pres.
  - unfold blink_worker. pres.
  - unfold blink_led. pres.
  - unfold test_all_leds. pres. apply preserves_for_each. intros [route_id rc] _. pres.
Qed.

(** X11.  Once the button of a route is recorded as pressed it stays
    so: no call on the controller other than [initialize] resets
    [button_states]. *)
Theorem button_state_is_sticky (cs : list call) (g : GPIOController) (r : string) :
  forallb not_initialize cs = true ->
  get_button_state g r = true ->
  get_button_state (foldl (fun g c => state_of (run GPIO_AVAILABLE cfg c g)) g cs) r = true.
Proof.
  intros Hcs Hg.
  assert (Hp : pressed r g).
  { unfold pressed, get_button_state in *. destruct (button_states g !! r) as [[] |];
      simpl in Hg; congruence. }
  assert (Hp' : pressed r (foldl (fun g c => state_of (run GPIO_AVAILABLE cfg c g)) g cs)).
  { clear Hg. revert g Hp. induction cs as [| c cs IH]; intros g Hp; simpl; [exact Hp |].
    simpl in Hcs. apply andb_true_iff in Hcs as [Hc Hcs].
    apply IH; [exact Hcs |]. apply run_keeps_pressed; assumption. }
  unfold pressed, get_button_state in *. rewrite Hp'. reflexivity.
Qed.

(** *** blink_worker: arguments that are not a positive number *)

(** X12.  A blink with a negative interval switches the LED on and
    stops at the first sleep, which raises: the error is logged inside
    the worker, the restore is skipped and the LED stays on. *)
Theorem blink_negative_interval_leaves_led_on (g : GPIOController) (route_id : string)
  (rc : route_config) (duration interval now : Z) (fuel : nat) :
  route_lookup route_id (routes_config g) = Some rc ->
  0 < duration ->
  interval < 0 ->
  let o := blink_worker GPIO_AVAILABLE (S fuel) route_id (PNum duration) (PNum interval) now g in
  result_of o = Ok tt
  /\ get_led_state (state_of o) route_id = true
  /\ events_of o = set_led_calls GPIO_AVAILABLE rc true ++ [E_log ERROR "LED blink error"].
Proof.
  intros Hrc Hd Hi o. subst o. unfold blink_worker, get_led_state, set_led_calls. simpl.
  unfold set_led, time_sleep, as_number. run_m. run_m.
  replace (now - now) with 0 by lia.
  destruct (Z.ltb_spec 0 duration) as [_ | ?]; [| lia].
  destruct (Z.ltb_spec interval 0) as [_ | ?]; [| lia].
  simpl. rewrite Hrc.
  destruct GPIO_AVAILABLE; simpl; rewrite lookup_insert_eq; repeat split.
Qed.

(** X13.  A blink whose duration is not a number (a string from a
    payload, say) fails at the loop test: the worker logs the error and
    leaves the controller as it was. *)
Theorem blink_non_numeric_duration_is_ignored (g : GPIOController) (route_id : string)
  (duration interval : pyval) (now : Z) (fuel : nat) :
  as_number duration = None ->
  blink_worker GPIO_AVAILABLE (S fuel) route_id duration interval now g
  = (Ok tt, g, [(g, E_log ERROR "LED blink error")]).
Proof.
  intros Hd. unfold blink_worker. simpl. rewrite Hd. reflexivity.
Qed.

End StopGpioSticky.

(** ** The heartbeat, for any interval and any time of disconnection *)

Lemma multiples_below_last (horizon step : Z) :
  0 < horizon -> horizon <= step -> multiples_below horizon step = 1%nat.
Proof.
  intros H1 H2. unfold multiples_below.
  replace ((horizon + step - 1) / step) with 1; [reflexivity |].
  apply Z.div_unique with (r := horizon - 1); lia.
Qed.

Lemma multiples_below_next (horizon step : Z) :
  0 < step -> step < horizon ->
  multiples_below horizon step = S (multiples_below (horizon - step) step).
Proof.
  intros H1 H2. unfold multiples_below.
  replace (horizon + step - 1) with ((horizon - step + step - 1) + 1 * step) by lia.
  rewrite Z.div_add by lia.
  rewrite Z2Nat.inj_add; [| apply Z.div_pos; lia | lia].
  rewrite Nat.add_comm. reflexivity.
Qed.

Lemma multiples_below_pos (horizon step : Z) :
  0 < horizon -> 0 < step -> exists m, multiples_below horizon step = S m.
Proof.
  intros H1 H2. unfold multiples_below.
  assert (1 <= (horizon + step - 1) / step) by (apply Z.div_le_lower_bound; lia).
  exists (Z.to_nat ((horizon + step - 1) / step - 1)). lia.
Qed.

Lemma publish_times_app topic (l1 l2 : list event) :
  publish_times topic (l1 ++ l2) = publish_times topic l1 ++ publish_times topic l2.
Proof. unfold publish_times. apply omap_app. Qed.

Lemma published_numbers_app topic key (l1 l2 : list event) :
  published_numbers topic key (l1 ++ l2)
  = published_numbers topic key l1 ++ published_numbers topic key l2.
Proof. unfold published_numbers. apply omap_app. Qed.

Section StopHeartbeat.
Import StopConfig StopMqtt.
Variable cfg : Config.
#[local] Arguments topic_heartbeat : simpl never.

(** X14.  The heartbeat worker of the stop, for any positive interval:
    started at [now] on a connected session whose connection is lost at
    [drop], it publishes at [now], [now + interval], ... as long as the
    time is before [drop], sleeps one interval after each publish, and
    ends once it sees the connection gone. *)
Theorem stop_heartbeat_times (rc drop : Z) (fuel : nat) :
  0 < HEARTBEAT_INTERVAL cfg ->
  forall (now : Z) (s : MQTTClient),
  _running s = true -> is_connected s = true -> client s <> None ->
  now < drop ->
  (multiples_below (drop - now) (HEARTBEAT_INTERVAL cfg) < fuel)%nat ->
  let n := multiples_below (drop - now) (HEARTBEAT_INTERVAL cfg) in
  let o := heartbeat_worker cfg fuel [(drop, _on_disconnect rc)] now s in
  result_of o = Ok tt
  /\ publish_times (topic_heartbeat cfg) (events_of o)
     = multiples n now (HEARTBEAT_INTERVAL cfg)
  /\ total_sleep (events_of o) = Z.of_nat n * HEARTBEAT_INTERVAL cfg
  /\ is_connected (state_of o) = false.
Proof.
  intros HI. set (I := HEARTBEAT_INTERVAL cfg) in *.
  induction fuel as [| fuel IH]; intros now s Hrun Hconn Hcl Hnow Hfuel; [lia |].
  destruct s as [[c |] conn cbs lh ht run]; simpl in Hrun, Hconn, Hcl; [| congruence].
  subst conn run.
  destruct (Z.leb_spec drop (now + I)) as [Hlast | Hmore].
  - rewrite multiples_below_last in * by lia.
    destruct fuel as [| fuel]; [lia |].
    cbn [heartbeat_worker]. unfold _publish_heartbeat, client_call, run_due, _on_disconnect.
    fold I. run_m. destruct (Z.ltb_spec I 0) as [? | _]; [lia |]. cbn -[String.eqb topic_heartbeat Z.mul Z.of_nat Z.add].
    destruct (Z.leb_spec drop (now + I)) as [_ | ?]; [| lia].
    unfold publish_times.
    destruct (negb (rc =? 0)); cbn -[String.eqb topic_heartbeat Z.mul Z.of_nat];
      rewrite ?String.eqb_refl; repeat split; lia.
  - rewrite (multiples_below_next (drop - now) I) in * by lia.
    replace (drop - now - I) with (drop - (now + I)) in * by lia.
    set (s1 := {| client := Some c; is_connected := true; message_callbacks := cbs;
                  last_heartbeat := Some now; heartbeat_thread := ht; _running := true |}).
    specialize (IH (now + I) s1 eq_refl eq_refl ltac:(discriminate) ltac:(lia) ltac:(lia)).
    cbv zeta in IH. destruct IH as (Hr & Ht & Hsl & Hc).
    cbn [heartbeat_worker]. unfold _publish_heartbeat, client_call, run_due.
    fold I. run_m. destruct (Z.ltb_spec I 0) as [? | _]; [lia |]. unfold with_last_heartbeat.
    cbn -[String.eqb topic_heartbeat Z.mul Z.of_nat Z.add].
    destruct (Z.leb_spec drop (now + I)) as [? | _]; [lia |].
    fold s1.
    destruct (heartbeat_worker cfg fuel [(drop, _on_disconnect rc)] (now + I) s1)
      as [[r s2] tr] eqn:Ho.
    cbn -[String.eqb topic_heartbeat Z.mul Z.of_nat Z.add multiples] in *. subst r.
    unfold publish_times in *.
    repeat split.
    + rewrite String.eqb_refl. cbn [multiples]. f_equal. exact Ht.
    + rewrite Hsl. lia.
    + exact Hc.
Qed.

(** X15.  The [uptime] field of a heartbeat is the time since the
    previous heartbeat, not since the start: 0 on the first heartbeat of
    a client that never sent one, the interval afterwards. *)
Theorem stop_heartbeat_uptime (rc drop : Z) (fuel : nat) :
  0 < HEARTBEAT_INTERVAL cfg ->
  forall (now : Z) (s : MQTTClient),
  _running s = true -> is_connected s = true -> client s <> None ->
  0 < now < drop ->
  (multiples_below (drop - now) (HEARTBEAT_INTERVAL cfg) < fuel)%nat ->
  let n := multiples_below (drop - now) (HEARTBEAT_INTERVAL cfg) in
  let o := heartbeat_worker cfg fuel [(drop, _on_disconnect rc)] now s in
  published_numbers (topic_heartbeat cfg) "uptime" (events_of o)
  = match last_heartbeat s with
    | Some t => if t =? 0 then 0 else now - t
    | None => 0
    end :: replicate (n - 1) (HEARTBEAT_INTERVAL cfg).
Proof.
  intros HI. set (I := HEARTBEAT_INTERVAL cfg) in *.
  induction fuel as [| fuel IH]; intros now s Hrun Hconn Hcl Hnow Hfuel; [lia |].
  destruct s as [[c |] conn cbs lh ht run]; simpl in Hrun, Hconn, Hcl; [| congruence].
  subst conn run.
  assert (Hfirst : now - match lh with Some t => if t =? 0 then now else t | None => now end
                   = match lh with Some t => if t =? 0 then 0 else now - t | None => 0 end).
  { destruct lh as [t |]; [destruct (t =? 0) |]; lia. }
  destruct (Z.leb_spec drop (now + I)) as [Hlast | Hmore].
  - rewrite multiples_below_last in * by lia.
    destruct fuel as [| fuel]; [lia |].
    cbn [heartbeat_worker]. unfold _publish_heartbeat, client_call, run_due, _on_disconnect.
    fold I. run_m. destruct (Z.ltb_spec I 0) as [? | _]; [lia |]. cbn -[String.eqb topic_heartbeat Z.mul Z.of_nat Z.add Z.sub].
    destruct (Z.leb_spec drop (now + I)) as [_ | ?]; [| lia].
    unfold published_numbers.
    destruct (negb (rc =? 0)); cbn -[String.eqb topic_heartbeat Z.mul Z.of_nat Z.sub];
      rewrite ?String.eqb_refl; cbn -[Z.sub]; rewrite Hfirst; reflexivity.
  - rewrite (multiples_below_next (drop - now) I) in * by lia.
    replace (drop - now - I) with (drop - (now + I)) in * by lia.
    destruct (multiples_below_pos (drop - (now + I)) I ltac:(lia) ltac:(lia)) as [m Hm].
    rewrite Hm in *.
    set (s1 := {| client := Some c; is_connected := true; message_callbacks := cbs;
                  last_heartbeat := Some now; heartbeat_thread := ht; _running := true |}).
    specialize (IH (now + I) s1 eq_refl eq_refl ltac:(discriminate) ltac:(lia) ltac:(lia)).
    cbv zeta in IH. rewrite Hm in IH.
    cbn [heartbeat_worker]. unfold _publish_heartbeat, client_call, run_due.
    fold I. run_m. destruct (Z.ltb_spec I 0) as [? | _]; [lia |]. unfold with_last_heartbeat.
    cbn -[String.eqb topic_heartbeat Z.mul Z.of_nat Z.add Z.sub].
    destruct (Z.leb_spec drop (now + I)) as [? | _]; [lia |].
    fold s1.
    destruct (heartbeat_worker cfg fuel [(drop, _on_disconnect rc)] (now + I) s1)
      as [[r s2] tr] eqn:Ho.
    unfold published_numbers in *.
    cbn -[String.eqb topic_heartbeat Z.mul Z.of_nat Z.add Z.sub replicate] in *.
    destruct r; cbn -[String.eqb topic_heartbeat Z.mul Z.of_nat Z.add Z.sub replicate];
      rewrite String.eqb_refl; cbn -[Z.sub replicate]; rewrite Hfirst, IH;
      destruct (Z.eqb_spec now 0) as [? | _]; try lia;
      rewrite ?Nat.sub_0_r; replace (now + I - now) with I by lia; reflexivity.
Qed.

End StopHeartbeat.

Section BusHeartbeat.
Import BusConfig BusMqtt.
Variable cfg : Config.
#[local] Arguments topic_bus_status : simpl never.

(** X16.  The same for the vehicle, whose heartbeat is its online
    status. *)
Theorem bus_heartbeat_times (rc drop : Z) (fuel : nat) :
  0 < HEARTBEAT_INTERVAL cfg ->
  forall (now : Z) (s : MQTTClient),
  _running s = true -> is_connected s = true -> client s <> None ->
  now < drop ->
  (multiples_below (drop - now) (HEARTBEAT_INTERVAL cfg) < fuel)%nat ->
  let n := multiples_below (drop - now) (HEARTBEAT_INTERVAL cfg) in
  let o := heartbeat_worker cfg fuel [(drop, _on_disconnect rc)] now s in
  result_of o = Ok tt
  /\ publish_times (topic_bus_status cfg) (events_of o)
     = multiples n now (HEARTBEAT_INTERVAL cfg)
  /\ total_sleep (events_of o) = Z.of_nat n * HEARTBEAT_INTERVAL cfg
  /\ is_connected (state_of o) = false.
Proof.
  intros HI. set (I := HEARTBEAT_INTERVAL cfg) in *.
  induction fuel as [| fuel IH]; intros now s Hrun Hconn Hcl Hnow Hfuel; [lia |].
  destruct s as [[c |] conn cbs ht run]; simpl in Hrun, Hconn, Hcl; [| congruence].
  subst conn run.
  destruct (Z.leb_spec drop (now + I)) as [Hlast | Hmore].
  - rewrite multiples_below_last in * by lia.
    destruct fuel as [| fuel]; [lia |].
    cbn [heartbeat_worker]. unfold _publish_status, run_due, _on_disconnect.
    fold I. run_m. destruct (Z.ltb_spec I 0) as [? | _]; [lia |]. cbn -[String.eqb topic_bus_status Z.mul Z.of_nat Z.add].
    destruct (Z.leb_spec drop (now + I)) as [_ | ?]; [| lia].
    unfold publish_times.
    destruct (negb (rc =? 0)); cbn -[String.eqb topic_bus_status Z.mul Z.of_nat];
      rewrite ?String.eqb_refl; repeat split; lia.
  - rewrite (multiples_below_next (drop - now) I) in * by lia.
    replace (drop - now - I) with (drop - (now + I)) in * by lia.
    set (s1 := {| client := Some c; is_connected := true; message_callbacks := cbs;
                  _heartbeat_thread := ht; _running := true |}).
    specialize (IH (now + I) s1 eq_refl eq_refl ltac:(discriminate) ltac:(lia) ltac:(lia)).
    cbv zeta in IH. destruct IH as (Hr & Ht & Hsl & Hc).
    cbn [heartbeat_worker]. unfold _publish_status, run_due.
    fold I. run_m. destruct (Z.ltb_spec I 0) as [? | _]; [lia |].
    cbn -[String.eqb topic_bus_status Z.mul Z.of_nat Z.add].
    destruct (Z.leb_spec drop (now + I)) as [? | _]; [lia |].
    fold s1.
    destruct (heartbeat_worker cfg fuel [(drop, _on_disconnect rc)] (now + I) s1)
      as [[r s2] tr] eqn:Ho.
    cbn -[String.eqb topic_bus_status Z.mul Z.of_nat Z.add multiples] in *. subst r.
    unfold publish_times in *.
    repeat split.
    + rewrite String.eqb_refl. cbn [multiples]. f_equal. exact Ht.
    + rewrite Hsl. lia.
    + exact Hc.
Qed.

End BusHeartbeat.

(** ** Connecting and disconnecting the session of the stop *)

Lemma transport_calls_app (l1 l2 : list event) :
  transport_calls (l1 ++ l2) = transport_calls l1 ++ transport_calls l2.
Proof. unfold transport_calls. apply omap_app. Qed.

Lemma publishes_app (l1 l2 : list event) :
  publishes (l1 ++ l2) = publishes l1 ++ publishes l2.
Proof. unfold publishes. apply omap_app. Qed.

Lemma spawned_app (l1 l2 : list event) :
  spawned (l1 ++ l2) = spawned l1 ++ spawned l2.
Proof. unfold spawned. apply omap_app. Qed.

Lemma no_publishes_no_times (topic : string) (evs : list event) :
  publishes evs = [] -> publish_times topic evs = [].
Proof.
  induction evs as [| e evs IH]; [reflexivity |].
  destruct e as [| | | | | | | | | | | c |]; try exact IH.
  destruct c; try exact IH. discriminate.
Qed.

Section StopConnect.
Import StopConfig StopMqtt.
Variable cfg : Config.

Lemma stop_deliver_quiet (cb : net_cb) (s : MQTTClient) : quiet s (deliver cfg cb s).
Proof.
  unfold quiet, deliver, _on_connect, _on_disconnect, client_call.
  destruct s as [[c |] conn cbs lh ht run]; destruct cb as [rc | rc];
    destruct (rc =? 0); repeat split.
Qed.

Lemma stop_deliveries_quiet (cbs : list net_cb) : forall s,
  quiet s (for_each cbs (deliver cfg) s).
Proof.
  induction cbs as [| cb cbs IH]; intros s; [repeat split |].
  pose proof (stop_deliver_quiet cb s) as H.
  cbn [for_each]. unfold quiet in *. run_m.
  destruct (deliver cfg cb s) as [[r s1] tr1]. cbn [fst snd] in *.
  destruct H as (Hr & Hc & Hrun & Hht & Hp & Hsp & Hsl). subst r.
  specialize (IH s1).
  destruct (for_each cbs (deliver cfg) s1) as [[r2 s2] tr2]. cbn [fst snd] in *.
  destruct IH as (Hr' & Hc' & Hrun' & Hht' & Hp' & Hsp' & Hsl'). subst r2.
  rewrite fmap_app, publishes_app, spawned_app, total_sleep_app.
  rewrite Hp, Hp', Hsp, Hsp', Hsl, Hsl'. repeat split; congruence.
Qed.

Lemma stop_wait_connected_facts (n : nat) : forall (net : list (list net_cb)) (s : MQTTClient),
  let o := wait_connected cfg n net s in
  exists waited,
    result_of o = Ok waited
    /\ 0 <= waited <= 100 * Z.of_nat n
    /\ total_sleep (events_of o) = waited
    /\ publishes (events_of o) = []
    /\ spawned (events_of o) = []
    /\ client (state_of o) = client s
    /\ _running (state_of o) = _running s
    /\ (is_connected (state_of o) = false -> waited = 100 * Z.of_nat n).
Proof.
  induction n as [| n IH]; intros net s o; subst o.
  - exists 0. simpl. repeat split; lia.
  - cbn [wait_connected]. run_m. destruct (is_connected s) eqn:Hconn.
    + exists 0. simpl. repeat split; try lia. congruence.
    + pose proof (stop_deliveries_quiet (hd [] net) s) as H. unfold quiet in H. run_m.
      destruct (for_each (hd [] net) (deliver cfg) s) as [[r s1] tr1]. cbn [fst snd] in *.
      destruct H as (Hr & Hc & Hrun & _ & Hp & Hsp & Hsl). subst r.
      specialize (IH (tl net) s1). cbv zeta in IH. run_m.
      destruct (wait_connected cfg n (tl net) s1) as [[r2 s2] tr2]. cbn [fst snd] in *.
      destruct IH as (w & Hr' & Hw & Hsl' & Hp' & Hsp' & Hc' & Hrun' & Hto). subst r2.
      exists (100 + w). cbn [fst snd].
      change ((s, E_sleep 100) :: tr1 ++ tr2) with ([(s, E_sleep 100)] ++ tr1 ++ tr2).
      rewrite !fmap_app, !publishes_app, !spawned_app, !total_sleep_app.
      rewrite Hp, Hp', Hsp, Hsp', Hsl, Hsl'.
      repeat split; try congruence; try (simpl; lia).
      intros H. specialize (Hto H). lia.
Qed.

(** X17.  [connect] never raises; on a client that is not connected it returns
    the connection state it leaves, it publishes the online status and
    starts the heartbeat exactly when it returns true, and it waits 10 s
    at most; the online status carries the time at which the wait
    ended. *)
Theorem stop_connect_outcome (s : MQTTClient) (connect_ok : bool) (net : list (list net_cb))
  (now : Z) :
  is_connected s = false ->
  let o := connect cfg connect_ok net now s in
  exists b : bool,
    result_of o = Ok b
    /\ is_connected (state_of o) = b
    /\ spawned (events_of o) = (if b then [Th_heartbeat_worker] else [])
    /\ publish_times (topic_status cfg) (events_of o)
       = (if b then [now + total_sleep (events_of o)] else [])
    /\ length (publishes (events_of o)) = (if b then 1%nat else 0%nat)
    /\ 0 <= total_sleep (events_of o) <= 10000.
Proof.
  intros Hconn o. subst o.
  destruct s as [[c |] conn cbs lh ht run]; cbn in Hconn; subst conn;
    [| exists false; unfold connect, client_call; run_m; cbn; repeat split; lia].
  destruct connect_ok;
    [| exists false; unfold connect, client_call; run_m; cbn; repeat split; lia].
  set (s0 := with_running true
               {| client := Some c; is_connected := false; message_callbacks := cbs;
                  last_heartbeat := lh; heartbeat_thread := ht; _running := run |}).
  pose proof (stop_wait_connected_facts 100 net s0) as H. cbv zeta in H.
  unfold connect, client_call, _start_heartbeat, _publish_status. run_m.
  cbn -[wait_connected topic_status Z.add]. fold s0.
  destruct (wait_connected cfg 100 net s0) as [[r s1] tr] eqn:Hw.
  cbn [fst snd] in *.
  destruct H as (w & Hr & Hrange & Hsl & Hp & Hsp & Hc & _ & _). subst r.
  cbn in Hc. pose proof (no_publishes_no_times (topic_status cfg) _ Hp) as Ht.
  unfold spawned, publishes, publish_times in *.
  destruct (is_connected s1) eqn:Hconn1; [exists true | exists false];
    cbn -[topic_status Z.add String.eqb]; rewrite ?Hc; cbn -[topic_status Z.add String.eqb];
    rewrite !fmap_app, !omap_app, total_sleep_app, Hsp, Hp, Ht, Hsl;
    cbn -[topic_status Z.add String.eqb]; rewrite ?String.eqb_refl;
    repeat split; try lia; try assumption.
  cbn. rewrite Z.add_0_r. reflexivity.
Qed.

Lemma stop_deliver_no_ack (cb : net_cb) (s : MQTTClient) :
  cb <> CB_on_connect 0 -> is_connected s = false ->
  is_connected (state_of (deliver cfg cb s)) = false
  /\ transport_calls (events_of (deliver cfg cb s)) = [].
Proof.
  intros Hcb Hconn. unfold deliver, _on_connect, _on_disconnect.
  destruct cb as [rc | rc]; destruct (Z.eqb_spec rc 0) as [-> | Hrc];
    try congruence; split; reflexivity.
Qed.

Lemma stop_deliveries_no_ack (cbs : list net_cb) : forall s,
  Forall (fun cb => cb <> CB_on_connect 0) cbs -> is_connected s = false ->
  is_connected (state_of (for_each cbs (deliver cfg) s)) = false
  /\ transport_calls (events_of (for_each cbs (deliver cfg) s)) = [].
Proof.
  induction cbs as [| cb cbs IH]; intros s Hall Hconn; [split; [exact Hconn | reflexivity] |].
  apply Forall_cons in Hall as [Hcb Hall].
  pose proof (stop_deliver_no_ack cb s Hcb Hconn) as H.
  pose proof (stop_deliver_quiet cb s) as Hq. unfold quiet in Hq.
  cbn [for_each]. run_m.
  destruct (deliver cfg cb s) as [[r s1] tr1]. cbn [fst snd] in *.
  destruct H as [Hc1 Ht1]. destruct Hq as (-> & _).
  specialize (IH s1 Hall Hc1).
  destruct (for_each cbs (deliver cfg) s1) as [[r2 s2] tr2]. cbn [fst snd] in *.
  destruct IH as [Hc2 Ht2]. split; [exact Hc2 |].
  rewrite fmap_app, transport_calls_app, Ht1, Ht2. reflexivity.
Qed.

Lemma stop_wait_no_ack (n : nat) : forall (net : list (list net_cb)) (s : MQTTClient),
  no_ack net -> is_connected s = false ->
  is_connected (state_of (wait_connected cfg n net s)) = false
  /\ transport_calls (events_of (wait_connected cfg n net s)) = [].
Proof.
  induction n as [| n IH]; intros net s Hnet Hconn; [split; [exact Hconn | reflexivity] |].
  assert (Hhd : Forall (fun cb => cb <> CB_on_connect 0) (hd [] net))
    by (destruct Hnet; [constructor | assumption]).
  assert (Htl : no_ack (tl net)) by (destruct Hnet; [constructor | assumption]).
  pose proof (stop_deliveries_no_ack (hd [] net) s Hhd Hconn) as H.
  pose proof (stop_deliveries_quiet (hd [] net) s) as Hq. unfold quiet in Hq.
  cbn [wait_connected]. run_m. rewrite Hconn.
  destruct (for_each (hd [] net) (deliver cfg) s) as [[r s1] tr1]. cbn [fst snd] in *.
  destruct H as [Hc1 Ht1]. destruct Hq as (-> & _).
  specialize (IH (tl net) s1 Htl Hc1).
  destruct (wait_connected cfg n (tl net) s1) as [[r2 s2] tr2]. cbn [fst snd] in *.
  destruct IH as [Hc2 Ht2].
  destruct r2; cbn [fst snd]; (split; [exact Hc2 |]);
    change ((s, E_sleep 100) :: tr1 ++ tr2) with ([(s, E_sleep 100)] ++ tr1 ++ tr2);
    rewrite !fmap_app, !transport_calls_app, Ht1, Ht2; reflexivity.
Qed.

Lemma stop_disconnect_calls (now : Z) (s : MQTTClient) :
  disconnect cfg now s
  = (Ok tt, with_running false s,
     let s' := with_running false s in
     (if heartbeat_thread s then [(s', E_join 2000)] else [])
     ++ (if bool_decide (client s <> None) && is_connected s
         then [(s', E_transport
                      (T_publish (topic_status cfg)
                         (PDict [("status", PStr "offline"); ("stopId", PStr (STOP_ID cfg));
                                 ("stopName", PStr (STOP_NAME cfg));
                                 ("timestamp", PIsoTime now);
                                 ("routes", route_ids cfg)]) 1 true));
               (s', E_log INFO "stop status published");
               (s', E_transport T_loop_stop);
               (s', E_transport T_disconnect)]
         else [])
     ++ [(s', E_log INFO "MQTT disconnect done")]).
Proof.
  destruct s as [cl conn cbs lh ht run].
  unfold disconnect, _publish_status, client_call. run_m. simpl.
  destruct cl as [c |], conn, ht; simpl; repeat case_bool_decide; try congruence;
    reflexivity.
Qed.

(** X18.  A [connect] that no acknowledgement answers gives up after 10 s and
    returns false; it has started the network loop and left [_running]
    true, and the [disconnect] that follows makes no call on the client:
    the loop is not stopped. *)
Theorem stop_connect_timeout (s : MQTTClient) (net : list (list net_cb)) (now : Z) :
  client s <> None ->
  is_connected s = false ->
  no_ack net ->
  let o := connect cfg true net now s in
  result_of o = Ok false
  /\ total_sleep (events_of o) = 10000
  /\ transport_calls (events_of o)
     = [T_connect (MQTT_BROKER_HOST cfg) (MQTT_BROKER_PORT cfg) (MQTT_KEEPALIVE cfg);
        T_loop_start]
  /\ _running (state_of o) = true
  /\ forall later, transport_calls (events_of (disconnect cfg later (state_of o))) = [].
Proof.
  intros Hcl Hconn Hnet o. subst o.
  destruct s as [[c |] conn cbs lh ht run]; cbn in Hconn, Hcl; subst conn; [| congruence].
  set (s0 := with_running true
               {| client := Some c; is_connected := false; message_callbacks := cbs;
                  last_heartbeat := lh; heartbeat_thread := ht; _running := run |}).
  pose proof (stop_wait_connected_facts 100 net s0) as H. cbv zeta in H.
  pose proof (stop_wait_no_ack 100 net s0 Hnet eq_refl) as Hno.
  unfold connect, client_call. run_m.
  cbn -[wait_connected topic_status Z.add disconnect]. fold s0.
  destruct (wait_connected cfg 100 net s0) as [[r s1] tr] eqn:Hw.
  cbn [fst snd] in *.
  destruct H as (w & Hr & Hrange & Hsl & Hp & Hsp & Hc & Hrun & Hto). subst r.
  destruct Hno as [Hc1 Ht1]. specialize (Hto Hc1). cbn in Hrun.
  destruct (is_connected s1) eqn:Hconn1; [discriminate |].
  cbn -[topic_status Z.add disconnect].
  rewrite !fmap_app, total_sleep_app, transport_calls_app, Hsl, Ht1.
  repeat split; try (cbn; lia); try assumption.
  intros later. rewrite stop_disconnect_calls, Hconn1, andb_false_r.
  destruct (heartbeat_thread s1); reflexivity.
Qed.

(** X19.  [disconnect] clears [_running] and nothing else: [is_connected]
    stays as it was, so that a second [disconnect] makes the calls of
    the first again.  The calls are the offline status, [loop_stop] and
    [disconnect], or none. *)
Theorem stop_disconnect_effect (s : MQTTClient) (now later : Z) :
  let o := disconnect cfg now s in
  let calls_at t :=
    if bool_decide (client s <> None) && is_connected s
    then [T_publish (topic_status cfg)
            (PDict [("status", PStr "offline"); ("stopId", PStr (STOP_ID cfg));
                    ("stopName", PStr (STOP_NAME cfg)); ("timestamp", PIsoTime t);
                    ("routes", route_ids cfg)]) 1 true;
          T_loop_stop; T_disconnect]
    else [] in
  result_of o = Ok tt
  /\ state_of o = with_running false s
  /\ transport_calls (events_of o) = calls_at now
  /\ transport_calls (events_of (disconnect cfg later (state_of o))) = calls_at later.
Proof.
  cbv zeta. rewrite !stop_disconnect_calls. cbn [result_of state_of events_of fst snd].
  split; [reflexivity |]. split; [reflexivity |].
  destruct s as [cl conn cbs lh ht run]. cbn.
  destruct (bool_decide (cl <> None) && conn), ht; split; reflexivity.
Qed.

(** X20.  [publish_button_press] never raises and leaves the client as it was;
    it returns true exactly when the client is connected and
    [client.publish] returns the success code. *)
Theorem publish_button_press_result (s : MQTTClient) (route_id route_name color : string)
  (outcome : publish_outcome) (now : Z) :
  let o := publish_button_press cfg route_id route_name color outcome now s in
  result_of o
  = Ok (is_connected s && bool_decide (client s <> None)
        && match outcome with PubRc rc => rc =? MQTT_ERR_SUCCESS | PubRaises => false end)
  /\ state_of o = s
  /\ (length (publishes (events_of o)) <= 1)%nat
  /\ (is_connected s = false -> transport_calls (events_of o) = []).
Proof.
  destruct s as [cl conn cbs lh ht run].
  unfold publish_button_press, client_call. run_m. cbn -[Z.eqb].
  destruct conn; [| repeat split; cbn; lia].
  destruct cl as [c |]; cbn -[Z.eqb]; [| repeat split; cbn; try lia; discriminate].
  destruct outcome as [rc |]; [destruct (rc =? MQTT_ERR_SUCCESS) |];
    cbn; repeat split; try lia; discriminate.
Qed.

End StopConnect.

(** ** Topics, from one device to the other *)

Lemma split_nonempty (sep : ascii) (s : string) : PyStr.split sep s <> [].
Proof.
  destruct s as [| c s]; simpl; [discriminate |].
  destruct (Ascii.eqb c sep); [discriminate |].
  destruct (PyStr.split sep s); discriminate.
Qed.

Lemma split_app (sep : ascii) (a b : string) :
  PyStr.split sep (a +:+ String sep b) = PyStr.split sep a ++ PyStr.split sep b.
Proof.
  induction a as [| c a IH]; simpl.
  - rewrite Ascii.eqb_refl. reflexivity.
  - destruct (Ascii.eqb c sep); [rewrite IH; reflexivity |].
    rewrite IH. pose proof (split_nonempty sep a) as Hne.
    destruct (PyStr.split sep a) as [| w ws]; [congruence | reflexivity].
Qed.

Lemma split_slash_free (s : string) :
  slash_free s = true -> PyStr.split PyStr.slash s = [s].
Proof.
  induction s as [| c s IH]; simpl; [reflexivity |].
  intros H. apply andb_true_iff in H as [Hc Hs].
  apply negb_true_iff in Hc. rewrite Hc, (IH Hs). reflexivity.
Qed.

Lemma prefix_append (p s : string) : String.prefix p (p +:+ s) = true.
Proof.
  induction p as [| c p IH]; simpl; [destruct s; reflexivity |].
  destruct (ascii_dec c c); [exact IH | congruence].
Qed.

Lemma string_append_assoc (a b c : string) : (a +:+ b) +:+ c = a +:+ (b +:+ c).
Proof.
  induction a as [| x a IH]; [reflexivity |].
  change (String x ((a +:+ b) +:+ c) = String x (a +:+ (b +:+ c))).
  rewrite IH. reflexivity.
Qed.

(** The topic on which the stop publishes a button press is, for the
    vehicle, a button press of that stop on that route. *)
Lemma button_press_topic_routes_back (scfg : StopConfig.Config) (route_id configured : string) :
  slash_free (StopConfig.STOP_ID scfg) = true ->
  slash_free route_id = true ->
  BusRouter.route configured (StopConfig.topic_button_press scfg +:+ "/" +:+ route_id)
  = if String.eqb route_id configured
    then BusRouter.ButtonPress (StopConfig.STOP_ID scfg) route_id
    else BusRouter.Unrecognized.
Proof.
  intros Hstop Hroute. unfold BusRouter.route, StopConfig.topic_button_press.
  assert (Hp : PyStr.startswith
                 (("device/button/" +:+ StopConfig.STOP_ID scfg) +:+ "/" +:+ route_id)
                 "device/button/" = true)
    by exact (prefix_append "device/button/"
                (StopConfig.STOP_ID scfg +:+ String PyStr.slash route_id)).
  rewrite Hp. clear Hp.
  change ("device/button/" +:+ StopConfig.STOP_ID scfg)
    with ("device" +:+ String PyStr.slash ("button" +:+ String PyStr.slash (StopConfig.STOP_ID scfg))).
  change ("/" +:+ route_id) with (String PyStr.slash route_id).
  rewrite !split_app, (split_slash_free _ Hstop), (split_slash_free _ Hroute).
  reflexivity.
Qed.

Lemma item_m1_last (l : list string) (r : string) : PyStr.item_m1 (l ++ [r]) = Some r.
Proof.
  unfold PyStr.item_m1. rewrite length_app. simpl.
  replace (length l + 1 - 1)%nat with (length l + 0)%nat by lia.
  rewrite lookup_app_r by lia. replace (length l + 0 - length l)%nat with 0%nat by lia.
  reflexivity.
Qed.

Section StopLedTopic.
Import StopConfig StopMqtt.
Variable cfg : Config.
Variable bytes_decode : list Byte.byte -> option string.
Variable json_loads : string -> loads_result.

Lemma stop_on_message_led_topic (route_id : string) (payload : list Byte.byte)
  (text : string) (v : pyval) (s : MQTTClient) :
  slash_free route_id = true ->
  bytes_decode payload = Some text ->
  json_loads text = Loaded v ->
  _on_message cfg bytes_decode json_loads
    ("device/led/" +:+ STOP_ID cfg +:+ "/" +:+ route_id) payload s
  = (Ok tt, s,
     (s, E_log DEBUG "message received")
     :: match message_callbacks s !! "led_control" with
        | Some callback => [(s, E_invoke callback [PStr route_id; v])]
        | None => []
        end).
Proof.
  intros Hroute Hdec Hjson.
  assert (Hp : PyStr.startswith ("device/led/" +:+ STOP_ID cfg +:+ "/" +:+ route_id)
                 ("device/led/" +:+ STOP_ID cfg +:+ "/") = true).
  { unfold PyStr.startswith.
    replace ("device/led/" +:+ STOP_ID cfg +:+ "/" +:+ route_id)
      with (("device/led/" +:+ STOP_ID cfg +:+ "/") +:+ route_id).
    - apply prefix_append.
    - change ("device/led/" +:+ STOP_ID cfg +:+ "/" +:+ route_id)
        with ("device/led/" +:+ (STOP_ID cfg +:+ ("/" +:+ route_id))).
      change (("device/led/" +:+ STOP_ID cfg +:+ "/") +:+ route_id)
        with ("device/led/" +:+ ((STOP_ID cfg +:+ "/") +:+ route_id)).
      f_equal. apply string_append_assoc. }
  assert (Hlast : PyStr.item_m1
                    (PyStr.split PyStr.slash
                       ("device/led/" +:+ STOP_ID cfg +:+ "/" +:+ route_id))
                  = Some route_id).
  { change ("device/led/" +:+ STOP_ID cfg +:+ "/" +:+ route_id)
      with (("device/led/" +:+ STOP_ID cfg) +:+ String PyStr.slash route_id).
    rewrite split_app, (split_slash_free _ Hroute). apply item_m1_last. }
  unfold _on_message.
  set (topic := "device/led/" +:+ STOP_ID cfg +:+ "/" +:+ route_id) in *.
  set (pre := "device/led/" +:+ STOP_ID cfg +:+ "/") in *.
  clearbody topic pre.
  rewrite Hdec. run_m. simpl. rewrite Hjson. simpl. rewrite Hp, Hlast. simpl.
  destruct (message_callbacks s !! "led_control"); reflexivity.
Qed.

(** X21.  A message on the LED topic of this stop is handed to the
    callback registered for LED control, with the last segment of the
    topic as the route and the parsed payload; without such a callback
    it is dropped after the debug line.  The client is left as it was. *)
Theorem led_topic_invokes_callback (route_id : string) (payload : list Byte.byte)
  (text : string) (v : pyval) (s : MQTTClient) :
  slash_free route_id = true ->
  bytes_decode payload = Some text ->
  json_loads text = Loaded v ->
  _on_message cfg bytes_decode json_loads
    ("device/led/" +:+ STOP_ID cfg +:+ "/" +:+ route_id) payload s
  = (Ok tt, s,
     (s, E_log DEBUG "message received")
     :: match message_callbacks s !! "led_control" with
        | Some callback => [(s, E_invoke callback [PStr route_id; v])]
        | None => []
        end).
Proof. exact (stop_on_message_led_topic route_id payload text v s). Qed.

End StopLedTopic.

(** ** LED commands on the stop *)

Section StopLedControl.
Import StopConfig StopMain.
Variable GPIO_AVAILABLE : bool.
Variable cfg : Config.
Variable bytes_decode : list Byte.byte -> option string.
Variable json_loads : string -> loads_result.

Lemma set_led_elsewhere (g : StopGpio.GPIOController) (route_id : string) (state : bool) :
  let o := StopGpio.set_led GPIO_AVAILABLE route_id state g in
  (exists b, result_of o = Ok b)
  /\ StopGpio.button_states (state_of o) = StopGpio.button_states g
  /\ StopGpio.routes_config (state_of o) = StopGpio.routes_config g
  /\ forall r, r <> route_id ->
       StopGpio.led_states (state_of o) !! r = StopGpio.led_states g !! r.
Proof.
  unfold StopGpio.set_led. run_m.
  destruct (route_lookup route_id (StopGpio.routes_config g)) as [rc |];
    destruct GPIO_AVAILABLE; simpl; repeat split; eauto;
    intros r Hr; apply lookup_insert_ne; congruence.
Qed.

(** X22.  [_on_led_control] never raises, whatever the message, and touches
    nothing but the LED of the route it is given. *)
Theorem led_control_is_contained (w : BusStopSystem) (route_id : string) (message : pyval) :
  let o := _on_led_control GPIO_AVAILABLE route_id message w in
  result_of o = Ok tt
  /\ mqtt_client (state_of o) = mqtt_client w
  /\ _running (state_of o) = _running w
  /\ StopGpio.button_states (gpio_controller (state_of o))
     = StopGpio.button_states (gpio_controller w)
  /\ forall r, r <> route_id ->
       StopGpio.get_led_state (gpio_controller (state_of o)) r
       = StopGpio.get_led_state (gpio_controller w) r.
Proof.
  unfold _on_led_control, py_get, on_gpio, zoom, StopGpio.blink_led, StopGpio.get_led_state.
  destruct message as [| b | n | x | l | items |]; try (run_m; simpl; repeat split; fail).
  destruct (set_led_elsewhere (gpio_controller w) route_id true) as ([b1 Hr1] & Hb1 & _ & Hl1).
  destruct (set_led_elsewhere (gpio_controller w) route_id false) as ([b0 Hr0] & Hb0 & _ & Hl0).
  run_m. simpl.
  destruct (is_str (default (PStr "OFF") (dict_lookup "status" items)) "ON").
  { destruct (StopGpio.set_led GPIO_AVAILABLE route_id true (gpio_controller w))
      as [[r g'] tr]. simpl in *. subst r. simpl.
    repeat split; try assumption. intros r Hr. rewrite (Hl1 r Hr). reflexivity. }
  destruct (is_str (default (PStr "OFF") (dict_lookup "status" items)) "OFF").
  { destruct (StopGpio.set_led GPIO_AVAILABLE route_id false (gpio_controller w))
      as [[r g'] tr]. simpl in *. subst r. simpl.
    repeat split; try assumption. intros r Hr. rewrite (Hl0 r Hr). reflexivity. }
  destruct (is_str (default (PStr "OFF") (dict_lookup "status" items)) "BLINK");
    simpl; repeat split; destruct w; reflexivity.
Qed.

(** X23.  A command without [status] is an OFF command; one whose status is
    none of ON, OFF and BLINK, and one that is not an object, change
    nothing. *)
Theorem led_control_defaults (w : BusStopSystem) (route_id : string) (rc : route_config)
  (message : pyval) :
  route_lookup route_id (StopGpio.routes_config (gpio_controller w)) = Some rc ->
  let o := _on_led_control GPIO_AVAILABLE route_id message w in
  match message with
  | PDict items =>
      match dict_lookup "status" items with
      | None => StopGpio.get_led_state (gpio_controller (state_of o)) route_id = false
      | Some status =>
          is_str status "ON" = false -> is_str status "OFF" = false ->
          is_str status "BLINK" = false ->
          o = (Ok tt, w, [])
      end
  | _ => o = (Ok tt, w, [(w, E_log ERROR "LED control error")])
  end.
Proof.
  intros Hrc o. subst o.
  unfold _on_led_control, py_get, on_gpio, zoom, StopGpio.set_led, StopGpio.get_led_state.
  destruct message as [| b | n | x | l | items |]; try reflexivity.
  destruct (dict_lookup "status" items) as [status |].
  - intros H1 H2 H3. run_m. simpl. rewrite H1, H2, H3. reflexivity.
  - run_m. simpl. rewrite Hrc. destruct GPIO_AVAILABLE; simpl; rewrite lookup_insert_eq; reflexivity.
Qed.

End StopLedControl.

Section StopLedCommand.
Import StopConfig StopMain.
Variable GPIO_AVAILABLE : bool.
Variable cfg : Config.
Variable bytes_decode : list Byte.byte -> option string.
Variable json_loads : string -> loads_result.

(** X24.  From the network to the LED: an ON or OFF command that arrives on
    the LED topic of a configured route of this stop sets the LED of that
    route. *)
Theorem led_command_over_mqtt (w : BusStopSystem) (route_id : string) (rc : route_config)
  (payload : list Byte.byte) (text : string) (items : list (string * pyval)) (on : bool) :
  StopMqtt.message_callbacks (mqtt_client w) !! "led_control" = Some H_on_led_control ->
  route_lookup route_id (StopGpio.routes_config (gpio_controller w)) = Some rc ->
  slash_free route_id = true ->
  bytes_decode payload = Some text ->
  json_loads text = Loaded (PDict items) ->
  dict_lookup "status" items = Some (PStr (if on then "ON" else "OFF")) ->
  let o := message_arrives GPIO_AVAILABLE cfg bytes_decode json_loads
             ("device/led/" +:+ STOP_ID cfg +:+ "/" +:+ route_id) payload w in
  result_of o = Ok tt
  /\ StopGpio.get_led_state (gpio_controller (state_of o)) route_id = on
  /\ mqtt_client (state_of o) = mqtt_client w.
Proof.
  intros Hcb Hrc Hfree Hdec Hjson Hstatus o. subst o.
  unfold message_arrives. run_m. unfold listen, on_mqtt, zoom.
  rewrite (stop_on_message_led_topic cfg bytes_decode json_loads route_id payload text
             (PDict items) (mqtt_client w) Hfree Hdec Hjson).
  rewrite Hcb. unfold invoked. run_m. simpl.
  unfold _on_led_control, py_get, on_gpio, zoom, StopGpio.set_led, StopGpio.get_led_state.
  run_m. simpl. rewrite Hstatus.
  destruct w as [m g run]. simpl in *.
  destruct on; simpl; rewrite Hrc; destruct GPIO_AVAILABLE; simpl;
    rewrite lookup_insert_eq; repeat split.
Qed.

End StopLedCommand.

Section PressToVehicle.
Variable scfg : StopConfig.Config.
Variable bcfg : BusConfig.Config.
Variable bytes_decode : list Byte.byte -> option string.
Variable json_loads : string -> loads_result.

(** X25.  From the button of the stop to the driver: the press that the stop
    publishes for a route is, when it arrives on the vehicle of that
    route with a payload that decodes as UTF-8 and on which [json.loads]
    raises nothing but JSONDecodeError, answered by the red blink and the
    three beeps; a vehicle of another route does nothing. *)
Theorem press_notifies_vehicle (s : StopMqtt.MQTTClient) (w : BusMain.BusDevice)
  (route_id route_name color : string) (now : Z) (payload : list Byte.byte) (text : string) :
  StopMqtt.is_connected s = true ->
  StopMqtt.client s <> None ->
  slash_free (StopConfig.STOP_ID scfg) = true ->
  slash_free route_id = true ->
  BusMqtt.message_callbacks (BusMain.mqtt w) !! "route_call" = Some H_on_route_call ->
  bytes_decode payload = Some text ->
  (forall e, json_loads text = LoadsRaises e -> e = JSONDecodeError) ->
  let sent := StopMqtt.publish_button_press scfg route_id route_name color
                (PubRc MQTT_ERR_SUCCESS) now s in
  let topic := "device/button/" +:+ StopConfig.STOP_ID scfg +:+ "/" +:+ route_id in
  exists message,
    result_of sent = Ok true
    /\ publishes (events_of sent) = [T_publish topic message 1 false]
    /\ let o := BusMain.message_arrives bcfg bytes_decode json_loads topic payload w in
       result_of o = Ok tt
       /\ state_of o = w
       /\ spawned (events_of o)
          = if String.eqb route_id (BusConfig.ROUTE_ID bcfg)
            then [Th_bus_blink_worker 3000 300 "red"; Th_beep_worker 150 3]
            else [].
Proof.
  intros Hconn Hcl Hstop Hroute Hcb Hdec Hjson sent topic. subst sent.
  assert (Hv : exists v, json_loads text = Loaded v
                         \/ (json_loads text = LoadsRaises JSONDecodeError /\ v = PStr text)).
  { destruct (json_loads text) as [v | e] eqn:E.
    - exists v. left. reflexivity.
    - exists (PStr text). right. rewrite (Hjson e eq_refl). split; reflexivity. }
  destruct Hv as [v Hv].
  assert (Htopic : topic = StopConfig.topic_button_press scfg +:+ "/" +:+ route_id).
  { subst topic. unfold StopConfig.topic_button_press.
    rewrite string_append_assoc. reflexivity. }
  rewrite Htopic. clear Htopic topic.
  eexists.
  split; [| split].
  - unfold StopMqtt.publish_button_press, StopMqtt.client_call. run_m.
    rewrite Hconn. simpl. destruct (StopMqtt.client s); [reflexivity | congruence].
  - unfold StopMqtt.publish_button_press, StopMqtt.client_call. run_m.
    rewrite Hconn. simpl. destruct (StopMqtt.client s); [reflexivity | congruence].
  - cbv zeta. unfold BusMain.message_arrives. run_m.
    unfold listen, BusMain.on_mqtt, zoom.
    rewrite (bus_on_message_routes bcfg bytes_decode json_loads _ payload text v
               (BusMain.mqtt w) Hdec Hv).
    rewrite (button_press_topic_routes_back scfg route_id (BusConfig.ROUTE_ID bcfg)
               Hstop Hroute).
    destruct w as [g m run]. simpl in *.
    destruct (String.eqb route_id (BusConfig.ROUTE_ID bcfg)); simpl.
    + rewrite Hcb. repeat split.
    + repeat split.
Qed.

End PressToVehicle.

(** ** Starting the system of the stop *)

Section StopSystemInit.
Import StopConfig StopMain.
Variable GPIO_AVAILABLE : bool.
Variable cfg : Config.




End StopSystemInit.

(** ** The LED bar and the buzzer of the vehicle *)

Section BusGpioFacts.
Import BusConfig BusGpio.
Variable GPIO_AVAILABLE : bool.
Variable cfg : Config.

Lemma bus_set_led_sets (red green : bool) (g : GPIOController) :
  let o := set_led GPIO_AVAILABLE cfg red green g in
  result_of o = Ok tt
  /\ state_of o = {| _initialized := _initialized g; led_red_state := red;
                     led_green_state := green |}
  /\ total_sleep (events_of o) = 0.
Proof. unfold set_led. run_m. destruct GPIO_AVAILABLE; repeat split. Qed.

Lemma bus_blink_loop_periods (interval end_time : Z) (color : string) (n : nat) :
  0 <= interval ->
  forall (fuel : nat) (g : GPIOController) (now : Z),
    (n < fuel)%nat ->
    (forall k, (k < n)%nat -> now + 2 * interval * Z.of_nat k < end_time) ->
    ~ (now + 2 * interval * Z.of_nat n < end_time) ->
    let o := blink_loop GPIO_AVAILABLE cfg fuel interval color end_time now g in
    result_of o = Ok (now + 2 * interval * Z.of_nat n)
    /\ total_sleep (events_of o) = Z.of_nat n * (2 * interval)
    /\ _initialized (state_of o) = _initialized g
    /\ match n with
       | O => state_of o = g /\ events_of o = []
       | S _ => led_red_state (state_of o) = false /\ led_green_state (state_of o) = false
       end.
Proof.
  intros Hint. induction n as [| n IH]; intros fuel g now Hfuel Hbefore Hafter.
  - destruct fuel as [| fuel]; [lia |]. cbn [blink_loop].
    destruct (Z.ltb_spec now end_time) as [Hlt | Hge]; [lia |].
    replace (now + 2 * interval * Z.of_nat 0) with now by lia. repeat split.
  - destruct fuel as [| fuel]; [lia |]. cbn [blink_loop].
    destruct (Z.ltb_spec now end_time) as [Hlt | Hge].
    2:{ specialize (Hbefore 0%nat ltac:(lia)). lia. }
    set (g2 := {| _initialized := _initialized g; led_red_state := false;
                  led_green_state := false |}).
    specialize (IH fuel g2 (now + interval + interval) ltac:(lia)).
    cbv zeta in IH.
    destruct IH as (Hr & Hsl & Hi & Hn).
    { intros k Hk. specialize (Hbefore (S k) ltac:(lia)). lia. }
    { lia. }
    unfold sleep_ms, set_led. destruct (Z.ltb_spec interval 0) as [? | _]; [lia |].
    run_m.
    destruct (blink_loop GPIO_AVAILABLE cfg fuel interval color end_time
                (now + interval + interval) g2) as [[r g'] tr] eqn:E.
    cbn [fst snd] in Hr, Hsl, Hi, Hn. subst r.
    assert (Hdark : led_red_state g' = false /\ led_green_state g' = false).
    { destruct n; [destruct Hn as [-> _]; split; reflexivity | exact Hn]. }
    destruct (String.eqb color "red"); [| destruct (String.eqb color "green")];
      destruct GPIO_AVAILABLE; cbn -[Z.mul Z.add Z.of_nat]; fold g2; rewrite E;
      cbn -[Z.mul Z.add Z.of_nat]; rewrite ?fmap_app, ?total_sleep_app;
      cbn -[Z.mul Z.add Z.of_nat];
      (split; [f_equal; lia |]); (split; [try rewrite Hsl; lia |]);
      (split; [exact Hi | exact Hdark]).
Qed.

(** X27.  A blink of the LED bar runs [periods_within duration interval]
    periods and ends with both LEDs off, whatever was lit before: the
    bar is not put back. *)
Theorem bus_blink_ends_dark (g : GPIOController) (duration interval now : Z) (color : string)
  (fuel : nat) :
  0 < interval ->
  (periods_within duration interval < fuel)%nat ->
  let n := periods_within duration interval in
  let o := blink_worker GPIO_AVAILABLE cfg fuel duration interval color now g in
  result_of o = Ok tt
  /\ total_sleep (events_of o) = Z.of_nat n * (2 * interval)
  /\ match n with
     | O => state_of o = g /\ events_of o = []
     | S _ => led_red_state (state_of o) = false /\ led_green_state (state_of o) = false
     end.
Proof.
  intros Hint Hfuel n o. subst n o.
  destruct (periods_within_spec duration interval Hint) as [Hbefore Hafter].
  cbv zeta in Hbefore, Hafter.
  pose proof (bus_blink_loop_periods interval (now + duration) color
                (periods_within duration interval) ltac:(lia) fuel g now Hfuel) as H.
  cbv zeta in H.
  destruct H as (Hr & Hsl & _ & Hn).
  { intros k Hk. specialize (Hbefore k Hk). lia. }
  { lia. }
  unfold blink_worker. run_m.
  destruct (blink_loop GPIO_AVAILABLE cfg fuel interval color (now + duration) now g)
    as [[r g'] tr].
  cbn [fst snd] in *. subst r. cbn [fst snd]. rewrite app_nil_r.
  repeat split; assumption.
Qed.

Lemma beep_rounds (g : GPIOController) (duration : Z) (l : list nat) :
  0 <= duration ->
  let o := for_each l (fun _ : nat =>
             (if GPIO_AVAILABLE then emit (E_gpio_output (BUZZER_PIN cfg) true) else ret tt);;
             log DEBUG "Beep ON";;
             sleep_ms duration;;
             (if GPIO_AVAILABLE then emit (E_gpio_output (BUZZER_PIN cfg) false) else ret tt);;
             log DEBUG "Beep OFF";;
             sleep_ms 50) g in
  result_of o = Ok tt
  /\ state_of o = g
  /\ total_sleep (events_of o) = Z.of_nat (length l) * (duration + 50)
  /\ output_count (BUZZER_PIN cfg) true (events_of o)
     = (if GPIO_AVAILABLE then length l else 0%nat)
  /\ output_count (BUZZER_PIN cfg) false (events_of o)
     = (if GPIO_AVAILABLE then length l else 0%nat).
Proof.
  intros Hd.
  set (body := fun _ : nat => _).
  assert (Hbody : forall (x : nat) (s : GPIOController),
             body x s
             = (Ok tt, s,
                map (fun e => (s, e))
                  (if GPIO_AVAILABLE
                   then [E_gpio_output (BUZZER_PIN cfg) true; E_log DEBUG "Beep ON";
                         E_sleep duration; E_gpio_output (BUZZER_PIN cfg) false;
                         E_log DEBUG "Beep OFF"; E_sleep 50]
                   else [E_log DEBUG "Beep ON"; E_sleep duration;
                         E_log DEBUG "Beep OFF"; E_sleep 50]))).
  { intros x s. subst body. unfold sleep_ms.
    destruct (Z.ltb_spec duration 0) as [? | _]; [lia |].
    destruct GPIO_AVAILABLE; reflexivity. }
  clearbody body. cbv zeta.
  induction l as [| x l IH].
  - destruct GPIO_AVAILABLE; repeat split; cbn; lia.
  - cbn [for_each]. run_m. rewrite Hbody.
    destruct (for_each l body g) as [[r g'] tr]. cbn [fst snd] in *.
    destruct IH as (-> & -> & Hsl & Hhi & Hlo).
    unfold output_count in *. rewrite fmap_app, total_sleep_app, !List.filter_app, !length_app.
    rewrite Hsl, Hhi, Hlo.
    destruct GPIO_AVAILABLE; cbn -[Z.mul Z.add Z.of_nat Z.eqb];
      rewrite ?Z.eqb_refl; cbn -[Z.mul Z.add Z.of_nat Z.eqb]; repeat split; lia.
Qed.

(** X28.  The beep worker makes [repeats] pulses of [duration] with 50 ms
    between them and does not touch the LED bar; on the Raspberry Pi the
    buzzer pin is driven high and low once per pulse. *)
Theorem beep_worker_pulses (g : GPIOController) (duration : Z) (repeats : nat) :
  0 <= duration ->
  let o := beep_worker GPIO_AVAILABLE cfg duration repeats g in
  result_of o = Ok tt
  /\ state_of o = g
  /\ total_sleep (events_of o) = Z.of_nat repeats * (duration + 50)
  /\ output_count (BUZZER_PIN cfg) true (events_of o)
     = (if GPIO_AVAILABLE then repeats else 0%nat)
  /\ output_count (BUZZER_PIN cfg) false (events_of o)
     = (if GPIO_AVAILABLE then repeats else 0%nat).
Proof.
  intros Hd. pose proof (beep_rounds g duration (seq 0 repeats) Hd) as H.
  rewrite length_seq in H. exact H.
Qed.

(** X29.  A beep of negative length stops at its first sleep, which raises:
    on the Raspberry Pi the buzzer has been switched on and stays on. *)
Theorem beep_negative_duration (g : GPIOController) (duration : Z) (repeats : nat) :
  duration < 0 ->
  let o := beep_worker GPIO_AVAILABLE cfg duration (S repeats) g in
  result_of o = Raise ValueError
  /\ output_count (BUZZER_PIN cfg) true (events_of o)
     = (if GPIO_AVAILABLE then 1%nat else 0%nat)
  /\ output_count (BUZZER_PIN cfg) false (events_of o) = 0%nat.
Proof.
  intros Hd o. subst o. unfold beep_worker, sleep_ms, output_count.
  cbn [seq for_each]. destruct (Z.ltb_spec duration 0) as [_ | ?]; [| lia].
  run_m. destruct GPIO_AVAILABLE; cbn -[Z.eqb]; rewrite ?Z.eqb_refl; repeat split.
Qed.

End BusGpioFacts.

(** ** Shutting the vehicle down *)

Section BusShutdown.
Import BusConfig BusMain.
Variable GPIO_AVAILABLE : bool.
Variable cfg : Config.

(** X30.  [shutdown] of the vehicle writes to the LED pins after
    [GPIO.cleanup()]: on an initialised controller on the Raspberry Pi
    the GPIO calls of [shutdown] begin with the cleanup, followed by the
    write of the red LED pin.  The session is disconnected before that,
    and [is_connected] is left as it was. *)
Theorem bus_shutdown_writes_after_cleanup (w : BusDevice) (now : Z) :
  GPIO_AVAILABLE = true ->
  BusGpio._initialized (gpio w) = true ->
  let o := shutdown GPIO_AVAILABLE cfg now w in
  (exists rest,
      gpio_calls (events_of o)
      = E_gpio_cleanup :: E_gpio_output (LED_RED_PIN cfg) false :: rest)
  /\ _running (state_of o) = false
  /\ BusMqtt._running (mqtt (state_of o)) = false
  /\ BusMqtt.is_connected (mqtt (state_of o)) = BusMqtt.is_connected (mqtt w).
Proof.
  intros -> Hinit. cbv zeta.
  unfold shutdown, on_mqtt, on_gpio, zoom, BusMqtt.disconnect,
    BusMqtt._publish_status, BusMqtt.client_call, BusGpio.cleanup, BusGpio.set_led.
  run_m.
  destruct w as [[ini red green] [cl conn cbs ht run] running]. cbn in Hinit. subst ini.
  destruct cl as [c |], conn; cbn;
    repeat case_bool_decide; try congruence; (split; [eexists; reflexivity |]);
    repeat split.
Qed.

End BusShutdown.

(** ** The properties above on the default configurations *)

Ltac by_evaluation :=
  solve [ reflexivity | lia | vm_compute; reflexivity | vm_compute; lia
        | vm_compute; discriminate
        | vm_compute; let H := fresh in intros H; discriminate H ].

Lemma set_led_reads_back_witness :
  let g := StopMain.gpio_controller (Samples.stop_system true) in
  let o := StopGpio.set_led true "1" true g in
  result_of o = Ok true
  /\ StopGpio.get_led_state (state_of o) "1" = true
  /\ (forall r, r <> "1" -> StopGpio.get_led_state (state_of o) r = StopGpio.get_led_state g r)
  /\ (forall r, StopGpio.get_button_state (state_of o) r = StopGpio.get_button_state g r)
  /\ StopGpio.last_button_press (state_of o) = StopGpio.last_button_press g
  /\ output_count (led_pin Samples.route_1) true (events_of o) = 1%nat.
Proof.
  apply (set_led_reads_back true (StopMain.gpio_controller (Samples.stop_system true)) "1"
           Samples.route_1 true).
  by_evaluation.
Defined.

Lemma toggle_led_twice_witness :
  let g := StopMain.gpio_controller (Samples.stop_system false) in
  let o1 := StopGpio.toggle_led false "2" g in
  let o2 := StopGpio.toggle_led false "2" (state_of o1) in
  result_of o1 = Ok true /\ result_of o2 = Ok true
  /\ StopGpio.get_led_state (state_of o1) "2" = negb (StopGpio.get_led_state g "2")
  /\ forall r, StopGpio.get_led_state (state_of o2) r = StopGpio.get_led_state g r.
Proof.
  apply (toggle_led_twice false (StopMain.gpio_controller (Samples.stop_system false)) "2"
           {| name := Some "2번"; color := Some "#00FF00"; button_pin := 20; led_pin := 21 |}).
  by_evaluation.
Defined.

Lemma debounce_window_witness :
  let g := StopMain.gpio_controller (Samples.stop_system false) in
  let g1 := state_of (StopGpio._button_callback false StopConfig.defaults "1" 18 1000 g) in
  let o2 := StopGpio._button_callback false StopConfig.defaults "1" 18 1100 g1 in
  (1100 - 1000 < StopConfig.DEBOUNCE_TIME StopConfig.defaults -> o2 = (Ok tt, g1, []))
  /\ (StopConfig.DEBOUNCE_TIME StopConfig.defaults <= 1100 - 1000 ->
      StopGpio.last_button_press (state_of o2) !! "1" = Some 1100).
Proof.
  apply (debounce_window false StopConfig.defaults
           (StopMain.gpio_controller (Samples.stop_system false)) "1" 18 18 1000 1100).
  by_evaluation.
Defined.

Lemma button_callback_unknown_route_witness :
  let g := StopMain.gpio_controller (Samples.stop_system false) in
  let o := StopGpio._button_callback false StopConfig.defaults "9" 18 1000 g in
  result_of o = Ok tt
  /\ events_of o = [E_log ERROR "button callback error"]
  /\ StopGpio.led_states (state_of o) = StopGpio.led_states g
  /\ StopGpio.get_button_state (state_of o) "9" = true
  /\ StopGpio.last_button_press (state_of o) !! "9" = Some 1000.
Proof.
  apply (button_callback_unknown_route false StopConfig.defaults
           (StopMain.gpio_controller (Samples.stop_system false)) "9" 18 1000);
    by_evaluation.
Defined.

Lemma initialize_resets_routes_witness :
  let g := StopGpio.new StopConfig.defaults in
  let o := StopGpio.initialize true StopConfig.defaults g in
  result_of o = Ok true
  /\ StopGpio._initialized (state_of o) = true
  /\ StopGpio.routes_config (state_of o) = StopGpio.routes_config g
  /\ StopGpio.button_callbacks (state_of o) = StopGpio.button_callbacks g
  /\ (forall r rc, StopConfig.route_lookup r (StopGpio.routes_config g) = Some rc ->
       StopGpio.led_states (state_of o) !! r = Some false
       /\ StopGpio.button_states (state_of o) !! r = Some false
       /\ StopGpio.last_button_press (state_of o) !! r = Some 0)
  /\ (forall r, StopConfig.route_lookup r (StopGpio.routes_config g) = None ->
       StopGpio.led_states (state_of o) !! r = StopGpio.led_states g !! r
       /\ StopGpio.button_states (state_of o) !! r = StopGpio.button_states g !! r
       /\ StopGpio.last_button_press (state_of o) !! r = StopGpio.last_button_press g !! r).
Proof.
  apply (initialize_resets_routes true StopConfig.defaults (StopGpio.new StopConfig.defaults)).
  reflexivity.
Defined.

Lemma initialize_mock_is_noop_witness :
  let g := StopGpio.new StopConfig.defaults in
  StopGpio.initialize false StopConfig.defaults g
  = (Ok true, g, [(g, E_log WARNING "GPIO module not available")])
  /\ StopGpio.is_available false (state_of (StopGpio.initialize false StopConfig.defaults g))
     = false.
Proof.
  apply (initialize_mock_is_noop false StopConfig.defaults (StopGpio.new StopConfig.defaults)).
  reflexivity.
Defined.

Lemma cleanup_turns_leds_off_witness :
  let g := state_of (StopGpio.set_led true "1" true
                       (StopMain.gpio_controller (Samples.stop_system true))) in
  let o := StopGpio.cleanup true g in
  result_of o = Ok tt
  /\ (forall r, StopGpio.get_led_state (state_of o) r
                = match StopConfig.route_lookup r (StopGpio.routes_config g) with
                  | Some _ => false
                  | None => StopGpio.get_led_state g r
                  end)
  /\ StopGpio.button_states (state_of o) = StopGpio.button_states g
  /\ StopGpio.last_button_press (state_of o) = StopGpio.last_button_press g
  /\ StopGpio.button_callbacks (state_of o) = StopGpio.button_callbacks g
  /\ StopGpio.is_available true (state_of o) = true.
Proof.
  apply (cleanup_turns_leds_off true
           (state_of (StopGpio.set_led true "1" true
                        (StopMain.gpio_controller (Samples.stop_system true)))));
    by_evaluation.
Defined.

Lemma cleanup_without_gpio_is_noop_witness :
  let g := StopMain.gpio_controller (Samples.stop_system false) in
  StopGpio.cleanup false g = (Ok tt, g, []).
Proof.
  apply (cleanup_without_gpio_is_noop false
           (StopMain.gpio_controller (Samples.stop_system false))).
  left. reflexivity.
Defined.

Lemma test_all_leds_ends_off_witness :
  let g := StopMain.gpio_controller (Samples.stop_system true) in
  let o := StopGpio.test_all_leds true 500 g in
  result_of o = Ok tt
  /\ (forall r, StopGpio.get_led_state (state_of o) r
                = match StopConfig.route_lookup r (StopGpio.routes_config g) with
                  | Some _ => false
                  | None => StopGpio.get_led_state g r
                  end)
  /\ StopGpio.button_states (state_of o) = StopGpio.button_states g
  /\ total_sleep (events_of o)
     = Z.of_nat (length (StopGpio.routes_config g)) * (500 + 200).
Proof.
  apply (test_all_leds_ends_off true (StopMain.gpio_controller (Samples.stop_system true)) 500).
  lia.
Defined.

Lemma button_state_is_sticky_witness :
  let g := state_of (StopGpio._button_callback false StopConfig.defaults "1" 18 1000
                       (StopMain.gpio_controller (Samples.stop_system false))) in
  let cs := [StopGpioRuns.G_set_led "1" false; StopGpioRuns.G_cleanup;
             StopGpioRuns.G_test_all_leds 500;
             StopGpioRuns.G_blink_worker 4 "1" (PNum 1000) (PNum 200) 2000] in
  StopGpio.get_button_state
    (foldl (fun g c => state_of (StopGpioRuns.run false StopConfig.defaults c g)) g cs) "1"
  = true.
Proof.
  apply (button_state_is_sticky false StopConfig.defaults
           [StopGpioRuns.G_set_led "1" false; StopGpioRuns.G_cleanup;
            StopGpioRuns.G_test_all_leds 500;
            StopGpioRuns.G_blink_worker 4 "1" (PNum 1000) (PNum 200) 2000]
           (state_of (StopGpio._button_callback false StopConfig.defaults "1" 18 1000
                        (StopMain.gpio_controller (Samples.stop_system false)))) "1");
    by_evaluation.
Defined.

Lemma blink_negative_interval_leaves_led_on_witness :
  let g := StopMain.gpio_controller (Samples.stop_system true) in
  let o := StopGpio.blink_worker true 1 "1" (PNum 2000) (PNum (-500)) 0 g in
  result_of o = Ok tt
  /\ StopGpio.get_led_state (state_of o) "1" = true
  /\ events_of o = set_led_calls true Samples.route_1 true ++ [E_log ERROR "LED blink error"].
Proof.
  apply (blink_negative_interval_leaves_led_on true
           (StopMain.gpio_controller (Samples.stop_system true)) "1" Samples.route_1
           2000 (-500) 0 0);
    by_evaluation.
Defined.

Lemma blink_non_numeric_duration_is_ignored_witness :
  let g := StopMain.gpio_controller (Samples.stop_system true) in
  StopGpio.blink_worker true 1 "1" (PStr "long") (PNum 500) 0 g
  = (Ok tt, g, [(g, E_log ERROR "LED blink error")]).
Proof.
  apply (blink_non_numeric_duration_is_ignored true
           (StopMain.gpio_controller (Samples.stop_system true)) "1" (PStr "long") (PNum 500)
           0 0).
  reflexivity.
Defined.

Lemma stop_heartbeat_times_witness :
  let n := multiples_below (47000 - 2000) (StopConfig.HEARTBEAT_INTERVAL StopConfig.defaults) in
  let o := StopMqtt.heartbeat_worker StopConfig.defaults 3
             [(47000, StopMqtt._on_disconnect 1)] 2000 Samples.stop_connected in
  result_of o = Ok tt
  /\ publish_times (StopConfig.topic_heartbeat StopConfig.defaults) (events_of o)
     = multiples n 2000 (StopConfig.HEARTBEAT_INTERVAL StopConfig.defaults)
  /\ total_sleep (events_of o)
     = Z.of_nat n * StopConfig.HEARTBEAT_INTERVAL StopConfig.defaults
  /\ StopMqtt.is_connected (state_of o) = false.
Proof.
  apply (stop_heartbeat_times StopConfig.defaults 1 47000 3 ltac:(by_evaluation)
           2000 Samples.stop_connected);
    by_evaluation.
Defined.

Lemma stop_heartbeat_uptime_witness :
  let n := multiples_below (47000 - 2000) (StopConfig.HEARTBEAT_INTERVAL StopConfig.defaults) in
  let o := StopMqtt.heartbeat_worker StopConfig.defaults 3
             [(47000, StopMqtt._on_disconnect 1)] 2000 Samples.stop_connected in
  published_numbers (StopConfig.topic_heartbeat StopConfig.defaults) "uptime" (events_of o)
  = match StopMqtt.last_heartbeat Samples.stop_connected with
    | Some t => if t =? 0 then 0 else 2000 - t
    | None => 0
    end :: replicate (n - 1) (StopConfig.HEARTBEAT_INTERVAL StopConfig.defaults).
Proof.
  apply (stop_heartbeat_uptime StopConfig.defaults 1 47000 3 ltac:(by_evaluation)
           2000 Samples.stop_connected);
    by_evaluation.
Defined.

Lemma bus_heartbeat_times_witness :
  let n := multiples_below (47000 - 2000) (BusConfig.HEARTBEAT_INTERVAL BusConfig.defaults) in
  let o := BusMqtt.heartbeat_worker BusConfig.defaults 3
             [(47000, BusMqtt._on_disconnect 1)] 2000 Samples.bus_connected in
  result_of o = Ok tt
  /\ publish_times (BusConfig.topic_bus_status BusConfig.defaults) (events_of o)
     = multiples n 2000 (BusConfig.HEARTBEAT_INTERVAL BusConfig.defaults)
  /\ total_sleep (events_of o)
     = Z.of_nat n * BusConfig.HEARTBEAT_INTERVAL BusConfig.defaults
  /\ BusMqtt.is_connected (state_of o) = false.
Proof.
  apply (bus_heartbeat_times BusConfig.defaults 1 47000 3 ltac:(by_evaluation)
           2000 Samples.bus_connected);
    by_evaluation.
Defined.

Lemma stop_connect_outcome_witness :
  let o := StopMqtt.connect StopConfig.defaults true [[]; [CB_on_connect 0]] 0
             Samples.stop_initialised in
  exists b : bool,
    result_of o = Ok b
    /\ StopMqtt.is_connected (state_of o) = b
    /\ spawned (events_of o) = (if b then [Th_heartbeat_worker] else [])
    /\ publish_times (StopConfig.topic_status StopConfig.defaults) (events_of o)
       = (if b then [0 + total_sleep (events_of o)] else [])
    /\ length (publishes (events_of o)) = (if b then 1%nat else 0%nat)
    /\ 0 <= total_sleep (events_of o) <= 10000.
Proof.
  apply (stop_connect_outcome StopConfig.defaults Samples.stop_initialised true
           [[]; [CB_on_connect 0]] 0).
  by_evaluation.
Defined.

Lemma stop_connect_timeout_witness :
  let o := StopMqtt.connect StopConfig.defaults true [[CB_on_connect 5]] 0
             Samples.stop_initialised in
  result_of o = Ok false
  /\ total_sleep (events_of o) = 10000
  /\ transport_calls (events_of o)
     = [T_connect (StopConfig.MQTT_BROKER_HOST StopConfig.defaults)
          (StopConfig.MQTT_BROKER_PORT StopConfig.defaults)
          (StopConfig.MQTT_KEEPALIVE StopConfig.defaults);
        T_loop_start]
  /\ StopMqtt._running (state_of o) = true
  /\ forall later,
       transport_calls (events_of (StopMqtt.disconnect StopConfig.defaults later (state_of o)))
       = [].
Proof.
  apply (stop_connect_timeout StopConfig.defaults Samples.stop_initialised
           [[CB_on_connect 5]] 0).
  - by_evaluation.
  - by_evaluation.
  - repeat constructor; discriminate.
Defined.

Lemma led_topic_invokes_callback_witness :
  let s := StopMain.mqtt_client (Samples.stop_system false) in
  StopMqtt._on_message StopConfig.defaults UTF8.decode JSON.loads
    ("device/led/" +:+ StopConfig.STOP_ID StopConfig.defaults +:+ "/" +:+ "2")
    (UTF8.encode (JSON.status_command "ON")) s
  = (Ok tt, s,
     (s, E_log DEBUG "message received")
     :: match StopMqtt.message_callbacks s !! "led_control" with
        | Some callback =>
            [(s, E_invoke callback [PStr "2"; PDict [("status", PStr "ON")]])]
        | None => []
        end).
Proof.
  apply (led_topic_invokes_callback StopConfig.defaults UTF8.decode JSON.loads "2"
           (UTF8.encode (JSON.status_command "ON")) (JSON.status_command "ON")
           (PDict [("status", PStr "ON")]) (StopMain.mqtt_client (Samples.stop_system false)));
    by_evaluation.
Defined.

Lemma led_control_defaults_witness :
  let w := Samples.stop_system false in
  let o := StopMain._on_led_control false "1" (PDict [("duration", PNum 1000)]) w in
  StopGpio.get_led_state (StopMain.gpio_controller (state_of o)) "1" = false.
Proof.
  apply (led_control_defaults false (Samples.stop_system false) "1" Samples.route_1
           (PDict [("duration", PNum 1000)])).
  by_evaluation.
Defined.

Lemma led_command_over_mqtt_witness :
  let w := Samples.stop_system false in
  let o := StopMain.message_arrives false StopConfig.defaults UTF8.decode JSON.loads
             ("device/led/" +:+ StopConfig.STOP_ID StopConfig.defaults +:+ "/" +:+ "1")
             (UTF8.encode (JSON.status_command "ON")) w in
  result_of o = Ok tt
  /\ StopGpio.get_led_state (StopMain.gpio_controller (state_of o)) "1" = true
  /\ StopMain.mqtt_client (state_of o) = StopMain.mqtt_client w.
Proof.
  apply (led_command_over_mqtt false StopConfig.defaults UTF8.decode JSON.loads
           (Samples.stop_system false) "1" Samples.route_1
           (UTF8.encode (JSON.status_command "ON")) (JSON.status_command "ON")
           [("status", PStr "ON")] true);
    by_evaluation.
Defined.

Lemma press_notifies_vehicle_witness :
  let sent := StopMqtt.publish_button_press StopConfig.defaults "100" "100번" "#FF0000"
                (PubRc MQTT_ERR_SUCCESS) 5000 Samples.stop_connected in
  let topic := "device/button/" +:+ StopConfig.STOP_ID StopConfig.defaults +:+ "/" +:+ "100" in
  exists message,
    result_of sent = Ok true
    /\ publishes (events_of sent) = [T_publish topic message 1 false]
    /\ let o := BusMain.message_arrives BusConfig.defaults UTF8.decode JSON.loads topic
                  (UTF8.encode "{}") Samples.bus_started in
       result_of o = Ok tt
       /\ state_of o = Samples.bus_started
       /\ spawned (events_of o)
          = if String.eqb "100" (BusConfig.ROUTE_ID BusConfig.defaults)
            then [Th_bus_blink_worker 3000 300 "red"; Th_beep_worker 150 3]
            else [].
Proof.
  apply (press_notifies_vehicle StopConfig.defaults BusConfig.defaults UTF8.decode JSON.loads
           Samples.stop_connected Samples.bus_started "100" "100번" "#FF0000" 5000
           (UTF8.encode "{}") "{}");
    by_evaluation.
Defined.

Lemma bus_blink_ends_dark_witness :
  let n := periods_within 3000 300 in
  let o := BusGpio.blink_worker true BusConfig.defaults 6 3000 300 "red" 0
             Samples.bus_gpio_ready in
  result_of o = Ok tt
  /\ total_sleep (events_of o) = Z.of_nat n * (2 * 300)
  /\ match n with
     | O => state_of o = Samples.bus_gpio_ready /\ events_of o = []
     | S _ => BusGpio.led_red_state (state_of o) = false
              /\ BusGpio.led_green_state (state_of o) = false
     end.
Proof.
  apply (bus_blink_ends_dark true BusConfig.defaults Samples.bus_gpio_ready 3000 300 0 "red" 6);
    by_evaluation.
Defined.

Lemma beep_worker_pulses_witness :
  let o := BusGpio.beep_worker true BusConfig.defaults 150 3 Samples.bus_gpio_ready in
  result_of o = Ok tt
  /\ state_of o = Samples.bus_gpio_ready
  /\ total_sleep (events_of o) = Z.of_nat 3 * (150 + 50)
  /\ output_count (BusConfig.BUZZER_PIN BusConfig.defaults) true (events_of o) = 3%nat
  /\ output_count (BusConfig.BUZZER_PIN BusConfig.defaults) false (events_of o) = 3%nat.
Proof.
  apply (beep_worker_pulses true BusConfig.defaults Samples.bus_gpio_ready 150 3).
  lia.
Defined.

Lemma beep_negative_duration_witness :
  let o := BusGpio.beep_worker true BusConfig.defaults (-150) 3 Samples.bus_gpio_ready in
  result_of o = Raise ValueError
  /\ output_count (BusConfig.BUZZER_PIN BusConfig.defaults) true (events_of o) = 1%nat
  /\ output_count (BusConfig.BUZZER_PIN BusConfig.defaults) false (events_of o) = 0%nat.
Proof.
  apply (beep_negative_duration true BusConfig.defaults Samples.bus_gpio_ready (-150) 2).
  lia.
Defined.

Lemma bus_shutdown_writes_after_cleanup_witness :
  let w := state_of (BusMain.start true BusConfig.defaults true [[CB_on_connect 0]] (-100)
                       BusMain.new) in
  let o := BusMain.shutdown true BusConfig.defaults 60000 w in
  (exists rest,
      gpio_calls (events_of o)
      = E_gpio_cleanup :: E_gpio_output (BusConfig.LED_RED_PIN BusConfig.defaults) false :: rest)
  /\ BusMain._running (state_of o) = false
  /\ BusMqtt._running (BusMain.mqtt (state_of o)) = false
  /\ BusMqtt.is_connected (BusMain.mqtt (state_of o)) = BusMqtt.is_connected (BusMain.mqtt w).
Proof.
  apply (bus_shutdown_writes_after_cleanup true BusConfig.defaults
           (state_of (BusMain.start true BusConfig.defaults true [[CB_on_connect 0]] (-100)
                        BusMain.new)) 60000);
    by_evaluation.
Defined.
